(** * Brand Intelligence API: the orchestration substrate, embedded from the source

    The development follows the repository's layout:
    - [Js]        : the fragment of JavaScript values the backend manipulates
                    (strings, numbers, thrown values) and an effect monad for
                    [async] functions with [try]/[catch];
    - [Errors]    : utils/errors.js;
    - [Helpers]   : utils/helpers.js ([sanitizeUrl], [extractDomain], [retry],
                    [jaccardSimilarity]);
    - [Validation]: utils/validation.js;
    - [RunsModel], [StorageService] : db/models/runs.model.js and
                    services/storage.service.js;
    - [EvidenceService] : services/evidence.service.js;
    - [OpenAIService]   : services/openai.service.js;
    - [Redis], [CacheModel], [CacheService] : config/redis.js,
                    db/models/cache.model.js, services/cache.service.js;
    - [ScraperService]  : services/scraper.service.js;
    - [Stage1Routes]    : routes/stage1.routes.js;
    - [BrowserPool], [PageScraper] : services/browser-pool.service.js and the
                    use [scrapePage] makes of it;
    - [HealthRoutes]    : routes/health.routes.js.

    JavaScript numbers are binary64 floats; they are modelled by the
    rationals they denote ([Q]).  The arithmetic of the confidence gate
    (the evidence penalty, the adjusted confidence and its comparison with
    0.6) is written with the rounding of each operation and of each decimal
    literal explicit, as a parameter ([Rounding]); [binary64] is the
    rounding of JavaScript (to nearest, ties to even) and [exact_arithmetic]
    is no rounding at all, which is what a statement says that does not name
    a rounding.  Elsewhere the rounding is not modelled.  For the quotient
    of two set sizes that [jaccardSimilarity] compares with 0.8 this loses
    nothing (a quotient of two array lengths differs from 4/5 by more than
    the rounding error unless it equals it).  Strings are [string]s of
    8-bit characters. *)

From Stdlib Require Import ZArith QArith Qminmax Qround Qabs Lia Lqa Bool List String
  Ascii.
From stdpp Require Import base gmap sets strings list pretty sorting.

Import ListNotations.
Local Open Scope string_scope.
Local Open Scope list_scope.

Set Implicit Arguments.
Unset Strict Implicit.
Set Default Proof Using "Type".

(* ===================================================================== *)
(** * JavaScript values and effects *)
(* ===================================================================== *)

Module Js.

(** ** Numbers *)

Definition Qlt_bool (x y : Q) : bool := negb (Qle_bool y x).

Definition num_of_nat (n : nat) : Q := inject_Z (Z.of_nat n).

(** The rounding of floating-point arithmetic: the value of [a - b] is
    [round (a - b)], of the literal [0.6] it is [round 0.6], and so on. *)
Class Rounding : Type := { round : Q -> Q }.

(** No rounding: arithmetic on the rationals. *)
#[export] Instance exact_arithmetic : Rounding := {| round := fun q => q |}.

(** [2 ^ e], for any integer [e]. *)
Definition Qpow2 (e : Z) : Q :=
  if (0 <=? e)%Z then inject_Z (2 ^ e) else (/ inject_Z (2 ^ (- e)))%Q.

(** The exponent of a positive rational: the [e] with [2 ^ e <= q < 2 ^ (e + 1)]. *)
Definition leading_exponent (q : Q) : Z :=
  let e := (Z.log2 (Qnum q) - Z.log2 (Zpos (Qden q)))%Z in
  if Qle_bool (Qpow2 e) q then e else (e - 1)%Z.

(** The nearest integer, the even one of two that are equally near. *)
Definition round_half_even (q : Q) : Z :=
  let f := Qfloor q in
  match Qcompare (q - inject_Z f) (1 # 2) with
  | Lt => f
  | Gt => (f + 1)%Z
  | Eq => if Z.even f then f else (f + 1)%Z
  end.

(** The binary64 float nearest to [q], ties to even: 53 significant bits,
    and steps of [2 ^ -1074] below [2 ^ -1022].  (Overflow to [Infinity],
    above [2 ^ 1024], is not modelled; the numbers of the backend are
    confidences, between 0 and 1.) *)
Definition binary64_round (q : Q) : Q :=
  match Qcompare q 0 with
  | Eq => 0%Q
  | c =>
      let a := Qabs q in
      let e := Z.max (leading_exponent a) (-1022) in
      let ulp := Qpow2 (e - 52) in
      let m := (inject_Z (round_half_even (a / ulp)) * ulp)%Q in
      Qred (match c with Lt => - m | _ => m end)%Q
  end.

(** The arithmetic of JavaScript. *)
Definition binary64 : Rounding := {| round := binary64_round |}.

(** ** Strings *)

(** [String.prototype.includes]. *)
Fixpoint includes (s needle : string) : bool :=
  if String.prefix needle s then true
  else match s with
       | EmptyString => false
       | String _ rest => includes rest needle
       end.

(** [String.prototype.startsWith]. *)
Definition startsWith (s p : string) : bool := String.prefix p s.

(** [String.prototype.toLowerCase], on the ASCII letters. *)
Definition lower_ascii (c : ascii) : ascii :=
  let n := nat_of_ascii c in
  if (Nat.leb 65 n && Nat.leb n 90)%bool then ascii_of_nat (n + 32) else c.

Fixpoint toLowerCase (s : string) : string :=
  match s with
  | EmptyString => EmptyString
  | String c rest => String (lower_ascii c) (toLowerCase rest)
  end.

(** The regular-expression class [\s], on 8-bit characters: TAB, LF, VT, FF,
    CR and SPACE. *)
Definition is_space (c : ascii) : bool :=
  let n := nat_of_ascii c in
  ((Nat.leb 9 n && Nat.leb n 13) || Nat.eqb n 32)%bool.

(** [s.split(/\s+/)]: the pieces between maximal runs of white space.  A
    leading or trailing run yields an empty first or last piece, and the
    empty string yields one empty piece, as in JavaScript. *)
Fixpoint split_spaces_from (in_run : bool) (cur : string) (s : string)
  : list string :=
  match s with
  | EmptyString => [cur]
  | String c rest =>
      if is_space c then
        if in_run then split_spaces_from true cur rest
        else cur :: split_spaces_from true EmptyString rest
      else split_spaces_from false (cur +:+ String c EmptyString) rest
  end.

Definition split_spaces (s : string) : list string :=
  split_spaces_from false EmptyString s.

(** ** Arrays *)

(** An index argument of [Array.prototype.slice] on an array of [len]
    elements: a negative index counts from the end, and the result is
    clamped to [0, len]. *)
Definition slice_index (k : Z) (len : nat) : nat :=
  if (k <? 0)%Z then Z.to_nat (Z.max (Z.of_nat len + k) 0)
  else Nat.min (Z.to_nat k) len.

(** [xs.slice(start, end)]. *)
Definition slice {A} (start finish : Z) (xs : list A) : list A :=
  let from := slice_index start (length xs) in
  let to := slice_index finish (length xs) in
  firstn (to - from) (skipn from xs).

(** ** Thrown values *)

(** The payload of [AppError.details], as far as the backend fills it. *)
Inductive Details : Type :=
| NoDetails
| ProviderStatus (status : Z)            (* { status: 401 } *)
| OriginalError (message : string)       (* { originalError: error } *)
| ConfidenceDetails (confidence : Q) (invalidEvidence : list (string * string))
| ValidationDetails (schemaName : string).

(** An error object.  [statusCode] and [code] are the fields [AppError]
    sets; [status] is the HTTP status the provider SDK attaches to its own
    errors.  A field an object does not carry is [None]. *)
Record JsError : Type := mkError {
  name : string;
  message : string;
  code : option string;
  statusCode : option Z;
  status : option Z;
  details : Details;
  isAppError : bool
}.

(** [new Error(message)]. *)
Definition plainError (msg : string) : JsError :=
  {| name := "Error"; message := msg; code := None; statusCode := None;
     status := None; details := NoDetails; isAppError := false |}.

(** What a [throw] statement can raise: an error object, or [undefined]. *)
Inductive Thrown : Type :=
| Exn (e : JsError)
| Undefined.

(** ** Completions and the effect monad *)

Inductive Completion (A : Type) : Type :=
| Return (a : A)
| Throw (t : Thrown).
Arguments Return {A} a.
Arguments Throw {A} t.

Section Monad.
Variable S : Type.

(** An [async] function over the mutable world [S]. *)
Definition M (A : Type) : Type := S -> Completion A * S.

Definition ret {A} (a : A) : M A := fun s => (Return a, s).

Definition throw {A} (t : Thrown) : M A := fun s => (Throw t, s).

Definition bind {A B} (m : M A) (k : A -> M B) : M B :=
  fun s => match m s with
           | (Return a, s') => k a s'
           | (Throw t, s') => (Throw t, s')
           end.

(** [try { body } catch (error) { handler }]. *)
Definition try_catch {A} (body : M A) (handler : Thrown -> M A) : M A :=
  fun s => match body s with
           | (Return a, s') => (Return a, s')
           | (Throw t, s') => handler t s'
           end.

Definition modify (f : S -> S) : M unit := fun s => (Return tt, f s).

Definition gets {A} (f : S -> A) : M A := fun s => (Return (f s), s).

(** [await Promise.all(xs.map(f))] for effects that are applied in list
    order; the first rejection rejects the whole. *)
Fixpoint mapM {A B} (f : A -> M B) (xs : list A) : M (list B) :=
  match xs with
  | [] => ret []
  | x :: rest => bind (f x) (fun y => bind (mapM f rest) (fun ys => ret (y :: ys)))
  end.

End Monad.

Arguments ret {S A} a.
Arguments throw {S A} t.
Arguments modify {S} f.
Arguments gets {S A} f.

End Js.

Import Js.

Notation "'let*' x ':=' m 'in' k" := (bind m (fun x => k))
  (at level 10, x name, m at level 100, k at level 200).
Notation "'let*' ' p ':=' m 'in' k" := (bind m (fun x => match x with p => k end))
  (at level 10, p pattern, m at level 100, k at level 200).

(* ===================================================================== *)
(** * Data model *)
(* ===================================================================== *)

(** A scraped page ([scrapePage]'s result object). *)
Record Page : Type := mkPage {
  page_url : string;
  page_title : string;
  page_content : string;
  page_scrapedAt : Z
}.

Record ScrapeMetadata : Type := mkScrapeMetadata {
  meta_url : string;
  meta_domain : option string;
  meta_totalCandidates : nat;
  meta_validUrls : nat;
  meta_scrapedPages : nat;
  meta_uniquePages : nat;
  meta_durationMs : Z;
  meta_scrapedAt : Z
}.

Record ScrapeResult : Type := mkScrapeResult {
  pages : list Page;
  metadata : ScrapeMetadata
}.

(** The object [checkEvidenceRefs] returns. *)
Record EvidenceCheck : Type := mkEvidenceCheck {
  valid : list string;
  invalid : list (string * string);        (* { url, reason } *)
  confidence_penalty : Q
}.

(** The JSON object the brand-analysis and competitor-analysis prompts ask
    the provider for.  The competitor prompt adds four fields, absent
    ([None], [[]]) from a brand analysis. *)
Record Analysis : Type := mkAnalysis {
  an_name : string;
  an_domain : string;
  an_tagline : string;
  an_category : string;
  an_value_propositions : list string;
  an_target_audience : string;
  an_positioning : string;
  an_key_features : list string;
  an_summary : option string;
  an_pricing_approach : option string;
  an_strengths : list string;
  an_weaknesses : list string;
  an_differentiation : option string;
  an_evidence_refs : option (list string);
  an_confidence_0_1 : Q
}.

(** [{ ...analysis, confidence_0_1: adjustedConfidence,
       evidence_validation: evidenceCheck }]. *)
Record Validated : Type := mkValidated {
  from_analysis : Analysis;
  confidence_0_1 : Q;
  evidence_validation : EvidenceCheck
}.

(** An entry of the [competitors] array of the discovery reply. *)
Record Candidate : Type := mkCandidate {
  cand_name : string;
  cand_domain : string;
  cand_confidence_0_1 : Q;
  cand_reason : string
}.

(** The reply of the discovery prompt: [competitors] may be missing. *)
Record Discovery : Type := mkDiscovery {
  competitors : option (list Candidate)
}.

Record GapEntry : Type := mkGapEntry {
  gap_area : string;
  gap_brand_coverage : string;
  gap_competitor_coverage : string;
  gap_opportunity : string
}.

Record Kernel : Type := mkKernel {
  k_brand_unique : list string;
  k_shared : list string;
  k_white_space : list string;
  k_gap_map : list GapEntry;
  k_strengths : list string;
  k_opportunities : list string;
  k_risks : list string;
  k_recommendations : list string;
  k_report_md : option string
}.

Inductive RunStatus : Type := active | archived | deleted.

Definition RunStatus_eqb (a b : RunStatus) : bool :=
  match a, b with
  | active, active | archived, archived | deleted, deleted => true
  | _, _ => false
  end.

(** A row of the [runs] relation (schema.sql). *)
Record Run : Type := mkRun {
  run_id : string;
  created_at : Z;
  updated_at : Z;
  expires_at : Z;
  status : RunStatus;
  brand_data : option Validated;
  brand_summary : option string;
  competitors_10 : option (list Candidate);
  competitors_selected : option (list Validated);
  kernel_data : option Kernel;
  report_md : option string;
  run_metadata : list (string * string)
}.

(** A row of the [scraping_cache] relation. *)
Record CacheRow : Type := mkCacheRow {
  url_hash : string;
  cache_url : string;
  cache_content : ScrapeResult;
  cache_scraped_at : Z;
  cache_expires_at : Z;
  page_count : nat;
  total_tokens : Z;
  access_count : Z;
  last_accessed_at : Z
}.

(** A key of the Redis instance: the stored value and, when it was set
    with a time to live, its deadline. *)
Record RedisEntry : Type := mkRedisEntry {
  redis_value : ScrapeResult;
  redis_deadline : option Z
}.

(* ===================================================================== *)
(** * The world the backend runs in *)
(* ===================================================================== *)

Inductive Tier : Type := tier_redis | tier_postgres.

Inductive Endpoint : Type :=
| brand_analysis | competitors_discovery | competitor_analysis | kernel_assembly.

(** The prompt templates of openai.service.js, by the data they are
    instantiated with; the wording of the prompts plays no role here. *)
Inductive Prompt : Type :=
| BrandPrompt (scraped : ScrapeResult)
| CompetitorsPrompt (brand : Validated)
| CompetitorAnalysisPrompt (domain : string) (scraped : ScrapeResult)
| KernelPrompt (brand : Validated) (analyzed : list Validated).

(** What [openai.chat.completions.create] settles to. *)
Inductive ProviderReply : Type :=
| ChatCompletion (usage_total_tokens : Z) (content : string)
| ProviderRejects (e : JsError).

(** What [fetch(url, { method: 'HEAD', redirect: 'follow' })] settles to. *)
Inductive HeadReply : Type :=
| HeadResponse (ok : bool) (http_status : Z) (final_url : string)
| HeadRejects (msg : string).

(** The commands sent to the two stores of the scrape cache. *)
Inductive IoOp : Type :=
| RedisGET (key : string)
| RedisSETEX (key : string)
| RedisDEL (key : string)
| CacheSELECT (hash : string)
| CacheTOUCH (hash : string)
| CacheUPSERT (hash : string)
| CacheDELETE (hash : string).

(** Observable effects, in the order they happen. *)
Inductive Event : Type :=
| ProviderCalled (endpoint : Endpoint)             (* openai.chat.completions.create *)
| Slept (ms : Z)                                   (* sleep(ms) *)
| TokensRecorded (endpoint : Endpoint) (tokens : Z)   (* recordOpenAITokens *)
| OpenAICallRecorded (endpoint : Endpoint) (outcome : string)   (* recordOpenAICall *)
| CacheHitRecorded (tier : Tier)                   (* recordCacheHit *)
| CacheMissRecorded (tier : Tier)                  (* recordCacheMiss *)
| ScrapingRecorded (domain : option string) (durationMs : Z)    (* recordScraping *)
| HttpRequestSent (endpoint : Endpoint)   (* a request the SDK sends to the provider *)
| SdkBackoff (retry : nat).               (* the SDK's wait before its [retry]-th retry *)

(** [parseInt(process.env.SCRAPE_CONCURRENCY, 10) || 5] (config/environment.js):
    [parsed] is the integer [parseInt] reads off the variable, [None] when
    it reads [NaN] (the variable is not set or does not start with an
    integer).  [NaN] and 0 are falsy and give 5; a negative integer is truthy
    and stays. *)
Definition configured_concurrency (parsed : option Z) : Z :=
  match parsed with
  | Some n => if (n =? 0)%Z then 5%Z else n
  | None => 5%Z
  end.

(** The configuration of a deployment whose [SCRAPE_CONCURRENCY] is not set,
    not a number, zero or positive, so that [scraping_concurrency] is
    positive.  What [scrapePages] does for a negative value is
    [ScraperService.scrapePages_loop] below. *)
Record Config : Type := mkConfig {
  scraping_concurrency : positive;      (* SCRAPE_CONCURRENCY, default 5 *)
  cache_scrapingTTL : Z;                (* CACHE_TTL_SCRAPING, default 86400 *)
  openai_model : string
}.

(** The answers of everything outside the process: clock, identifier
    generator, hash function, LLM provider, web, headless browsers, and the
    failures of the store connections. *)
Record Env : Type := mkEnv {
  config : Config;
  now : Z;                                       (* Date.now() / NOW(), in ms *)
  uuidv4 : nat -> string;                        (* the n-th identifier drawn *)
  sha256_hex : string -> string;
  ajv_format_uri : string -> bool;               (* ajv's [format: 'uri'] *)
  provider : nat -> Prompt -> ProviderReply;     (* reply to the n-th request *)
  JSON_parse_analysis : string -> JsError + Analysis;
  JSON_parse_discovery : string -> JsError + Discovery;
  JSON_parse_kernel : string -> JsError + Kernel;
  fetch_head : string -> HeadReply;
  scrapePage : string -> option Page;            (* [null] on any failure *)
  io_fault : IoOp -> option JsError              (* the command rejects *)
}.

(** A row of the relation [api_metrics] (schema.sql): the key, the
    [timestamp] and the reference [run_id REFERENCES runs(run_id) ON DELETE
    SET NULL].  No code of the service reads or writes the relation; its
    other columns ([endpoint], [method], [status_code], [duration_ms], ...)
    are read by nothing but the reporting views and are left out. *)
Record ApiMetric : Type := mkApiMetric {
  metric_id : nat;
  metric_timestamp : Z;
  metric_run_id : option string
}.

(** The mutable state: the three relations, the Redis keys, and the effects
    observed so far. *)
Record World : Type := mkWorld {
  runs : list Run;
  scraping_cache : list CacheRow;
  redis : list (string * RedisEntry);
  events : list Event;
  uuids_drawn : nat;
  api_metrics : list ApiMetric
}.

Definition emit (e : Event) : M World unit :=
  modify (fun w => {| runs := runs w; scraping_cache := scraping_cache w;
                      redis := redis w; events := events w ++ [e];
                      uuids_drawn := uuids_drawn w;
                      api_metrics := api_metrics w |}).

Definition set_runs (rs : list Run) (w : World) : World :=
  {| runs := rs; scraping_cache := scraping_cache w; redis := redis w;
     events := events w; uuids_drawn := uuids_drawn w;
     api_metrics := api_metrics w |}.

Definition set_scraping_cache (cs : list CacheRow) (w : World) : World :=
  {| runs := runs w; scraping_cache := cs; redis := redis w;
     events := events w; uuids_drawn := uuids_drawn w;
     api_metrics := api_metrics w |}.

Definition set_redis (r : list (string * RedisEntry)) (w : World) : World :=
  {| runs := runs w; scraping_cache := scraping_cache w; redis := r;
     events := events w; uuids_drawn := uuids_drawn w;
     api_metrics := api_metrics w |}.

Definition set_api_metrics (ms : list ApiMetric) (w : World) : World :=
  {| runs := runs w; scraping_cache := scraping_cache w; redis := redis w;
     events := events w; uuids_drawn := uuids_drawn w; api_metrics := ms |}.

Definition is_provider_call (e : Event) : bool :=
  match e with ProviderCalled _ => true | _ => false end.

(** Calls of [openai.chat.completions.create] made so far. *)
Definition provider_calls (w : World) : nat :=
  length (List.filter is_provider_call (events w)).

Definition is_http_request (e : Event) : bool :=
  match e with HttpRequestSent _ => true | _ => false end.

(** Requests sent to the provider so far. *)
Definition http_requests (w : World) : nat :=
  length (List.filter is_http_request (events w)).

Definition is_sdk_backoff (e : Event) : bool :=
  match e with SdkBackoff _ => true | _ => false end.

(** Waits the SDK has made so far before sending a request again. *)
Definition sdk_backoffs (w : World) : nat :=
  length (List.filter is_sdk_backoff (events w)).

Definition sleep_of (e : Event) : option Z :=
  match e with Slept ms => Some ms | _ => None end.

(** The waits so far, oldest first. *)
Definition sleeps (w : World) : list Z := omap sleep_of (events w).

(* ===================================================================== *)
(** * utils/errors.js *)
(* ===================================================================== *)

Module Errors.

Definition AppError (nm msg cd : string) (sc : Z) (d : Details) : JsError :=
  {| name := nm; message := msg; code := Some cd; statusCode := Some sc;
     Js.status := None; details := d; isAppError := true |}.

Definition ValidationError (msg : string) (d : Details) : JsError :=
  AppError "ValidationError" msg "VALIDATION_ERROR" 400 d.

Definition UnauthorizedError (msg : string) (d : Details) : JsError :=
  AppError "UnauthorizedError" msg "UNAUTHORIZED" 401 d.

Definition EvidenceViolationError (msg : string) (d : Details) : JsError :=
  AppError "EvidenceViolationError" msg "EVIDENCE_VIOLATION" 409 d.

Definition LowConfidenceError (msg : string) (d : Details) : JsError :=
  AppError "LowConfidenceError" msg "LOW_CONFIDENCE" 422 d.

Definition InsufficientDataError (msg : string) (d : Details) : JsError :=
  AppError "InsufficientDataError" msg "INSUFFICIENT_DATA" 424 d.

Definition RateLimitError (msg : string) (d : Details) : JsError :=
  AppError "RateLimitError" msg "RATE_LIMIT_EXCEEDED" 429 d.

Definition OpenAIError (msg : string) (d : Details) : JsError :=
  AppError "OpenAIError" msg "OPENAI_ERROR" 503 d.

Definition OpenAITimeoutError (msg : string) (d : Details) : JsError :=
  AppError "OpenAITimeoutError" msg "OPENAI_TIMEOUT" 504 d.

Definition UpstreamArtifactMissingError (msg : string) (d : Details) : JsError :=
  AppError "UpstreamArtifactMissingError" msg "UPSTREAM_ARTIFACT_MISSING" 424 d.

End Errors.

(* ===================================================================== *)
(** * utils/helpers.js *)
(* ===================================================================== *)

(** The platform's [URL] class (the WHATWG parser of Node.js), as far as the
    helpers use it: the constructor, which throws a [TypeError] on input it
    cannot parse, two getters, the [hash] setter applied to the empty string,
    and the serializer. *)
Class UrlApi : Type := mkUrlApi {
  URL : Type;
  URL_new : string -> JsError + URL;
  URL_protocol : URL -> string;
  URL_hostname : URL -> string;
  URL_clear_hash : URL -> URL;
  URL_toString : URL -> string
}.

(** What the URL Standard guarantees of a parsed record whose fragment has
    been removed: its serialization parses back to the same record, removing
    the fragment twice changes nothing, and the scheme is not affected. *)
Class UrlLaws (api : UrlApi) : Prop := mkUrlLaws {
  URL_reparse : forall s u, URL_new s = inr u ->
    URL_new (URL_toString (URL_clear_hash u)) = inr (URL_clear_hash u);
  URL_clear_hash_idem : forall u,
    URL_clear_hash (URL_clear_hash u) = URL_clear_hash u;
  URL_clear_hash_protocol : forall u,
    URL_protocol (URL_clear_hash u) = URL_protocol u
}.

Module Helpers.

Section WithUrl.
Context {api : UrlApi}.

(** [['http:', 'https:'].includes(parsed.protocol)] *)
Definition allowed_protocol (p : string) : bool :=
  (String.eqb p "http:" || String.eqb p "https:")%bool.

(** The body of the [try] block of [sanitizeUrl]: the thrown error or the
    returned string. *)
Definition sanitizeUrl_body (url : string) : JsError + string :=
  match URL_new url with
  | inl type_error => inl type_error
  | inr parsed =>
      if negb (allowed_protocol (URL_protocol parsed)) then
        inl (plainError "Only HTTP and HTTPS protocols are allowed")
      else
        let parsed := URL_clear_hash parsed in
        inr (URL_toString parsed)
  end.

Definition sanitizeUrl (url : string) : Completion string :=
  match sanitizeUrl_body url with
  | inr s => Return s
  | inl error => Throw (Exn (plainError ("Invalid URL: " +:+ message error)))
  end.

(** [hostname.replace(/^www\./, '')] *)
Definition strip_www (h : string) : string :=
  if String.prefix "www." h then String.substring 4 (String.length h - 4) h
  else h.

Definition extractDomain (url : string) : option string :=
  match URL_new url with
  | inl _ => None
  | inr parsed => Some (strip_www (URL_hostname parsed))
  end.

End WithUrl.

Definition generateRunId (env : Env) : M World string :=
  fun w =>
    (Return ("run_" +:+ uuidv4 env (uuids_drawn w)),
     {| runs := runs w; scraping_cache := scraping_cache w; redis := redis w;
        events := events w; uuids_drawn := S (uuids_drawn w);
        api_metrics := api_metrics w |}).

Definition generateUrlHash (env : Env) (url : string) : string :=
  sha256_hex env url.

Definition sleep (ms : Z) : M World unit := emit (Slept ms).

(** [error.statusCode && error.statusCode >= 400 && error.statusCode < 500] *)
Definition is_client_error (error : JsError) : bool :=
  match statusCode error with
  | Some sc => (negb (sc =? 0) && (400 <=? sc) && (sc <? 500))%Z%bool
  | None => false
  end.

(** One iteration of the loop of [retry] is one unfolding; [remaining]
    counts the iterations left, [attempt] is the loop variable. *)
Fixpoint retry_from {A} (fn : M World A) (maxAttempts : nat) (baseDelay : Z)
    (remaining attempt : nat) (lastError : Thrown) : M World A :=
  match remaining with
  | O => throw lastError
  | S remaining' =>
      try_catch fn (fun thrown =>
        match thrown with
        | Undefined =>
            (* reading [statusCode] of [undefined] *)
            throw (Exn {| name := "TypeError";
                          message := "Cannot read properties of undefined";
                          code := None; statusCode := None; Js.status := None;
                          details := NoDetails; isAppError := false |})
        | Exn error =>
            (* Don't retry on client errors (4xx) *)
            if is_client_error error then throw thrown
            else
              let* _ :=
                (if Nat.ltb attempt maxAttempts then
                   let delay := (baseDelay * 2 ^ (Z.of_nat attempt - 1))%Z in
                   sleep delay
                 else ret tt) in
              retry_from fn maxAttempts baseDelay remaining' (S attempt) thrown
        end)
  end.

Definition retry {A} (fn : M World A) (maxAttempts : nat) (baseDelay : Z)
  : M World A :=
  retry_from fn maxAttempts baseDelay maxAttempts 1 Undefined.

(** [jaccardSimilarity]; a [Set] of strings is a [gset string].  The
    quotient 0/0, [NaN] in JavaScript, is 0 here: both compare false with
    every threshold the callers use. *)
Definition jaccardSimilarity (set1 set2 : gset string) : Q :=
  let intersection := filter (fun x => x ∈ set2) set1 in
  let union := set1 ∪ set2 in
  (num_of_nat (size intersection) / num_of_nat (size union))%Q.

End Helpers.

(* ===================================================================== *)
(** * services/openai.service.js *)
(* ===================================================================== *)

Module OpenAIService.

Section WithEnv.
Variable env : Env.

Definition recordOpenAITokens (endpoint : Endpoint) (tokens : Z) : M World unit :=
  emit (TokensRecorded endpoint tokens).

Definition recordOpenAICall (endpoint : Endpoint) (outcome : string) : M World unit :=
  emit (OpenAICallRecorded endpoint outcome).

(** The client is built by [new OpenAI({ apiKey, timeout })]: [maxRetries]
    is not given, so the SDK keeps its default of 2. *)
Definition sdk_maxRetries : nat := 2.

(** The SDK's [shouldRetry]: a request that was not answered (connection
    error or time-out, an error without [status]) and a request answered
    408, 409, 429 or 500 and above is sent again.  (A reply can overrule
    this with the header [x-should-retry]; the provider's replies are taken
    without it.) *)
Definition sdk_shouldRetry (error : JsError) : bool :=
  match Js.status error with
  | Some s => ((s =? 408) || (s =? 409) || (s =? 429) || (500 <=? s))%Z
  | None => true
  end.

(** The SDK's [makeRequest]: one request, and while retries remain and the
    failure is one to retry, a wait of the SDK's own (half a second doubled
    per retry, with jitter, or what the reply's [retry-after] asks for) and
    the request again.  The provider's answer to the n-th request of the
    process is [provider env n]. *)
Fixpoint sdk_request (retriesRemaining : nat) (endpoint : Endpoint) (prompt : Prompt)
  : M World (Z * string) :=
  fun w =>
    let reply := provider env (http_requests w) prompt in
    let (_, w1) := emit (HttpRequestSent endpoint) w in
    match reply with
    | ChatCompletion tokens content => (Return (tokens, content), w1)
    | ProviderRejects error =>
        match retriesRemaining with
        | S retriesRemaining' =>
            if sdk_shouldRetry error then
              let (_, w2) := emit (SdkBackoff (sdk_maxRetries - retriesRemaining')) w1 in
              sdk_request retriesRemaining' endpoint prompt w2
            else (Throw (Exn error), w1)
        | O => (Throw (Exn error), w1)
        end
    end.

(** [await openai.chat.completions.create({...})]: one call of the SDK, which
    sends one request and up to [sdk_maxRetries] more. *)
Definition chat_completions_create (endpoint : Endpoint) (prompt : Prompt)
  : M World (Z * string) :=
  let* _ := emit (ProviderCalled endpoint) in
  sdk_request sdk_maxRetries endpoint prompt.

(** The [catch] block of [callOpenAI]. *)
Definition classify (error : JsError) : JsError :=
  if (match code error with Some c => String.eqb c "ECONNABORTED" | None => false end
      || includes (message error) "timeout")%bool then
    Errors.OpenAITimeoutError "OpenAI request timeout" NoDetails
  else if match Js.status error with Some s => (s =? 401)%Z | None => false end then
    Errors.OpenAIError "Invalid OpenAI API key" (ProviderStatus 401)
  else if match Js.status error with Some s => (s =? 429)%Z | None => false end then
    Errors.OpenAIError "OpenAI rate limit exceeded" (ProviderStatus 429)
  else
    Errors.OpenAIError (message error) (OriginalError (message error)).

(** [callOpenAI(endpoint, prompt)].  [JSON_parse] is [JSON.parse] read at the
    type of the object the prompt asks for; it returns the [SyntaxError] when
    the content is not JSON. *)
Definition callOpenAI {J} (JSON_parse : string -> JsError + J)
    (endpoint : Endpoint) (prompt : Prompt) : M World J :=
  try_catch
    (let* '(total_tokens, content) := chat_completions_create endpoint prompt in
     let* _ := recordOpenAITokens endpoint total_tokens in
     match JSON_parse content with
     | inr json => ret json
     | inl syntax_error => throw (Exn syntax_error)
     end)
    (fun thrown =>
       match thrown with
       | Exn error => throw (Exn (classify error))
       | Undefined =>
           throw (Exn {| name := "TypeError";
                         message := "Cannot read properties of undefined";
                         code := None; statusCode := None; Js.status := None;
                         details := NoDetails; isAppError := false |})
       end).

(** The call every service method makes:
    [retry(async () => callOpenAI(tag, prompt), 3, 2000)]. *)
Definition call_with_retry {J} (JSON_parse : string -> JsError + J)
    (endpoint : Endpoint) (prompt : Prompt) : M World J :=
  Helpers.retry (callOpenAI JSON_parse endpoint prompt) 3 2000.

(** The shape shared by the four service methods. *)
Definition recorded {J} (endpoint : Endpoint) (call : M World J) : M World J :=
  try_catch
    (let* result := call in
     let* _ := recordOpenAICall endpoint "success" in
     ret result)
    (fun error =>
       let* _ := recordOpenAICall endpoint "error" in
       throw error).

Definition analyzeBrand (scrapedData : ScrapeResult) : M World Analysis :=
  let prompt := BrandPrompt scrapedData in
  recorded brand_analysis
    (call_with_retry (JSON_parse_analysis env) brand_analysis prompt).

Definition findCompetitors (brandData : Validated) : M World Discovery :=
  let prompt := CompetitorsPrompt brandData in
  recorded competitors_discovery
    (call_with_retry (JSON_parse_discovery env) competitors_discovery prompt).

Definition analyzeCompetitor (domain : string) (scrapedData : ScrapeResult)
  : M World Analysis :=
  let prompt := CompetitorAnalysisPrompt domain scrapedData in
  recorded competitor_analysis
    (call_with_retry (JSON_parse_analysis env) competitor_analysis prompt).

Definition assembleKernel (brand : Validated) (competitors : list Validated)
  : M World Kernel :=
  let prompt := KernelPrompt brand competitors in
  recorded kernel_assembly
    (call_with_retry (JSON_parse_kernel env) kernel_assembly prompt).

End WithEnv.

End OpenAIService.

(* ===================================================================== *)
(** * utils/validation.js *)
(* ===================================================================== *)

Module Validation.

(** Request bodies, with the properties their schemas declare. *)
Record BrandSummaryBody : Type := mkBrandSummaryBody {
  body_brand_url : string
}.

Record CompetitorsBody : Type := mkCompetitorsBody {
  comp_brand_domain : string;
  comp_run_id : string
}.

Record CompetitorsAnalyzeBody : Type := mkCompetitorsAnalyzeBody {
  analyze_run_id : string;
  analyze_domains : list string
}.

Record KernelBody : Type := mkKernelBody {
  kernel_run_id : string
}.

(** The character class [[a-f0-9-]]. *)
Definition is_run_id_char (c : ascii) : bool :=
  let n := nat_of_ascii c in
  ((Nat.leb 97 n && Nat.leb n 102) || (Nat.leb 48 n && Nat.leb n 57)
   || Nat.eqb n 45)%bool.

Fixpoint all_chars (p : ascii -> bool) (s : string) : bool :=
  match s with
  | EmptyString => true
  | String c rest => (p c && all_chars p rest)%bool
  end.

(** [pattern: '^run_[a-f0-9-]+$'] *)
Definition matches_run_id_pattern (s : string) : bool :=
  (String.prefix "run_" s
   && let rest := String.substring 4 (String.length s - 4) s in
      negb (String.eqb rest "") && all_chars is_run_id_char rest)%bool.

(** [pattern: '^https?://'] *)
Definition matches_http_pattern (s : string) : bool :=
  (String.prefix "http://" s || String.prefix "https://" s)%bool.

Definition minLength (n : nat) (s : string) : bool := Nat.leb n (String.length s).

Definition validateBrandSummary (env : Env) (b : BrandSummaryBody) : bool :=
  (ajv_format_uri env (body_brand_url b)
   && matches_http_pattern (body_brand_url b))%bool.

Definition validateCompetitors (b : CompetitorsBody) : bool :=
  (minLength 3 (comp_brand_domain b)
   && matches_run_id_pattern (comp_run_id b))%bool.

Definition validateCompetitorsAnalyze (b : CompetitorsAnalyzeBody) : bool :=
  (matches_run_id_pattern (analyze_run_id b)
   && forallb (minLength 3) (analyze_domains b)
   && Nat.leb 1 (length (analyze_domains b))
   && Nat.leb (length (analyze_domains b)) 10)%bool.

Definition validateKernel (b : KernelBody) : bool :=
  matches_run_id_pattern (kernel_run_id b).

(** [validate(data, validator, schemaName)] *)
Definition validate {B S} (data : B) (validator : B -> bool) (schemaName : string)
  : M S B :=
  if negb (validator data) then
    throw (Exn (Errors.ValidationError (schemaName +:+ " validation failed")
                  (ValidationDetails schemaName)))
  else ret data.

End Validation.

(* ===================================================================== *)
(** * db/models/runs.model.js and [cleanup_expired_data()] of schema.sql *)
(* ===================================================================== *)

Module RunsModel.

Record CreateOptions : Type := mkCreateOptions {
  opt_run_id : option string;
  opt_expirationDays : option Z;
  opt_metadata : option (list (string * string))
}.

Definition no_options : CreateOptions :=
  {| opt_run_id := None; opt_expirationDays := None; opt_metadata := None |}.

(** The keys an [updates] object can carry. *)
Inductive ColumnUpdate : Type :=
| set_run_id (v : string)
| set_brand_data (v : Validated)
| set_brand_summary (v : option string)
| set_competitors_10 (v : list Candidate)
| set_competitors_selected (v : list Validated)
| set_kernel_data (v : Kernel)
| set_report_md (v : option string).

(** [x || null] for an optional string: the empty string is falsy. *)
Definition or_null (x : option string) : option string :=
  match x with
  | Some s => if String.eqb s "" then None else Some s
  | None => None
  end.

(** The query parameter [updateRun] binds for a value that is a string or
    [null]: [typeof null === 'object'], so [null] goes through
    [JSON.stringify] and the text [null] is what reaches the TEXT column; a
    string is bound as it is. *)
Definition text_parameter (v : option string) : string :=
  match v with
  | Some s => s
  | None => "null"
  end.

(** [x || fallback] for an optional number: 0 is falsy. *)
Definition or_default (x : option Z) (fallback : Z) : Z :=
  match x with
  | Some v => if (v =? 0)%Z then fallback else v
  | None => fallback
  end.

Section WithEnv.
Variable env : Env.

Definition has_id (runId : string) (r : Run) : bool := String.eqb (run_id r) runId.

(** [INSERT INTO runs (run_id, expires_at, metadata) ... RETURNING *]; the
    other columns take their defaults.  A duplicate key rejects. *)
Definition createRun (data : CreateOptions) : M World Run :=
  let* runId :=
    (match or_null (opt_run_id data) with
     | Some given => ret given
     | None => Helpers.generateRunId env
     end) in
  let expiresAt :=
    (now env + or_default (opt_expirationDays data) 7 * 24 * 60 * 60 * 1000)%Z in
  let row :=
    {| run_id := runId; created_at := now env; updated_at := now env;
       expires_at := expiresAt; status := active;
       brand_data := None; brand_summary := None; competitors_10 := None;
       competitors_selected := None; kernel_data := None; report_md := None;
       run_metadata := match opt_metadata data with Some m => m | None => [] end |} in
  fun w =>
    if existsb (has_id runId) (runs w) then
      (Throw (Exn (plainError "duplicate key value violates unique constraint")), w)
    else (Return row, set_runs (runs w ++ [row]) w).

(** [SELECT * FROM runs WHERE run_id = $1 AND status = 'active'] *)
Definition getRun (runId : string) : M World (option Run) :=
  gets (fun w =>
    List.find (fun r => (has_id runId r && RunStatus_eqb (status r) active)%bool)
              (runs w)).

Definition apply_update (u : ColumnUpdate) (r : Run) : Run :=
  match u with
  | set_run_id _ => r                      (* Don't update ID *)
  | set_brand_data v =>
      {| run_id := run_id r; created_at := created_at r; updated_at := updated_at r;
         expires_at := expires_at r; status := status r;
         brand_data := Some v; brand_summary := brand_summary r;
         competitors_10 := competitors_10 r;
         competitors_selected := competitors_selected r;
         kernel_data := kernel_data r; report_md := report_md r;
         run_metadata := run_metadata r |}
  | set_brand_summary v =>
      {| run_id := run_id r; created_at := created_at r; updated_at := updated_at r;
         expires_at := expires_at r; status := status r;
         brand_data := brand_data r; brand_summary := Some (text_parameter v);
         competitors_10 := competitors_10 r;
         competitors_selected := competitors_selected r;
         kernel_data := kernel_data r; report_md := report_md r;
         run_metadata := run_metadata r |}
  | set_competitors_10 v =>
      {| run_id := run_id r; created_at := created_at r; updated_at := updated_at r;
         expires_at := expires_at r; status := status r;
         brand_data := brand_data r; brand_summary := brand_summary r;
         competitors_10 := Some v;
         competitors_selected := competitors_selected r;
         kernel_data := kernel_data r; report_md := report_md r;
         run_metadata := run_metadata r |}
  | set_competitors_selected v =>
      {| run_id := run_id r; created_at := created_at r; updated_at := updated_at r;
         expires_at := expires_at r; status := status r;
         brand_data := brand_data r; brand_summary := brand_summary r;
         competitors_10 := competitors_10 r;
         competitors_selected := Some v;
         kernel_data := kernel_data r; report_md := report_md r;
         run_metadata := run_metadata r |}
  | set_kernel_data v =>
      {| run_id := run_id r; created_at := created_at r; updated_at := updated_at r;
         expires_at := expires_at r; status := status r;
         brand_data := brand_data r; brand_summary := brand_summary r;
         competitors_10 := competitors_10 r;
         competitors_selected := competitors_selected r;
         kernel_data := Some v; report_md := report_md r;
         run_metadata := run_metadata r |}
  | set_report_md v =>
      {| run_id := run_id r; created_at := created_at r; updated_at := updated_at r;
         expires_at := expires_at r; status := status r;
         brand_data := brand_data r; brand_summary := brand_summary r;
         competitors_10 := competitors_10 r;
         competitors_selected := competitors_selected r;
         kernel_data := kernel_data r; report_md := Some (text_parameter v);
         run_metadata := run_metadata r |}
  end.

(** The trigger [update_runs_updated_at]. *)
Definition touch (r : Run) : Run :=
  {| run_id := run_id r; created_at := created_at r; updated_at := now env;
     expires_at := expires_at r; status := status r;
     brand_data := brand_data r; brand_summary := brand_summary r;
     competitors_10 := competitors_10 r;
     competitors_selected := competitors_selected r;
     kernel_data := kernel_data r; report_md := report_md r;
     run_metadata := run_metadata r |}.

Definition is_id_update (u : ColumnUpdate) : bool :=
  match u with set_run_id _ => true | _ => false end.

(** [UPDATE runs SET ... WHERE run_id = $n RETURNING *] *)
Definition updateRun (runId : string) (updates : list ColumnUpdate)
  : M World (option Run) :=
  let fields := List.filter (fun u => negb (is_id_update u)) updates in
  if Nat.eqb (length fields) 0 then getRun runId
  else
    let change r :=
      if has_id runId r then touch (fold_left (fun r u => apply_update u r) fields r)
      else r in
    fun w =>
      let rows := List.map change (runs w) in
      (Return (List.find (has_id runId) rows), set_runs rows w).

Definition saveBrand (runId : string) (brandData : Validated) :=
  updateRun runId
    [set_brand_data brandData;
     set_brand_summary (or_null (an_summary (from_analysis brandData)))].

Definition saveCompetitors (runId : string) (competitors : list Candidate) :=
  updateRun runId [set_competitors_10 competitors].

Definition saveAnalyzedCompetitors (runId : string) (competitors : list Validated) :=
  updateRun runId [set_competitors_selected competitors].

Definition saveKernel (runId : string) (kernelData : Kernel) :=
  updateRun runId
    [set_kernel_data kernelData; set_report_md (or_null (k_report_md kernelData))].

(** [UPDATE runs SET status = 'deleted' WHERE run_id = $1] *)
Definition deleteRun (runId : string) : M World bool :=
  fun w =>
    let mark r :=
      if has_id runId r then
        touch {| run_id := run_id r; created_at := created_at r;
                 updated_at := updated_at r; expires_at := expires_at r;
                 status := deleted;
                 brand_data := brand_data r; brand_summary := brand_summary r;
                 competitors_10 := competitors_10 r;
                 competitors_selected := competitors_selected r;
                 kernel_data := kernel_data r; report_md := report_md r;
                 run_metadata := run_metadata r |}
      else r in
    (Return (existsb (has_id runId) (runs w)), set_runs (List.map mark (runs w)) w).

(** [SELECT COUNT( * ) FROM runs WHERE status = 'active' AND expires_at > NOW()] *)
Definition getActiveRunsCount : M World nat :=
  gets (fun w =>
    length (List.filter
              (fun r => (RunStatus_eqb (status r) active
                         && (now env <? expires_at r)%Z)%bool)
              (runs w))).

(** The row [cleanup_expired_data()] returns. *)
Record CleanupStats : Type := mkCleanupStats {
  deleted_runs : nat;
  deleted_cache : nat;
  deleted_metrics : nat
}.

(** [INTERVAL '30 days'], in milliseconds. *)
Definition thirty_days : Z := 30 * 24 * 60 * 60 * 1000.

(** [ON DELETE SET NULL] of [api_metrics.run_id]: a metric that refers to a
    deleted run loses the reference. *)
Definition on_delete_set_null (deleted : list Run) (m : ApiMetric) : ApiMetric :=
  match metric_run_id m with
  | Some runId =>
      if existsb (has_id runId) deleted then
        {| metric_id := metric_id m; metric_timestamp := metric_timestamp m;
           metric_run_id := None |}
      else m
  | None => m
  end.

(** The function [cleanup_expired_data()] of schema.sql, which db/cleanup.js
    runs: three deletes in one transaction, [CURRENT_TIMESTAMP] being the
    same instant in all three, and the three row counts.
    {[
      DELETE FROM runs WHERE expires_at < CURRENT_TIMESTAMP AND status != 'archived';
      DELETE FROM scraping_cache WHERE expires_at < CURRENT_TIMESTAMP;
      DELETE FROM api_metrics WHERE timestamp < CURRENT_TIMESTAMP - INTERVAL '30 days';
    ]} *)
Definition cleanup_expired_data : M World CleanupStats :=
  fun w =>
    let doomed r :=
      ((expires_at r <? now env)%Z && negb (RunStatus_eqb (status r) archived))%bool in
    let deleted_runs := List.filter doomed (runs w) in
    let w1 :=
      set_api_metrics (List.map (on_delete_set_null deleted_runs) (api_metrics w))
        (set_runs (List.filter (fun r => negb (doomed r)) (runs w)) w) in
    let expired c := (cache_expires_at c <? now env)%Z in
    let deleted_cache := List.filter expired (scraping_cache w1) in
    let w2 :=
      set_scraping_cache (List.filter (fun c => negb (expired c)) (scraping_cache w1))
        w1 in
    let old m := (metric_timestamp m <? now env - thirty_days)%Z in
    let deleted_metrics := List.filter old (api_metrics w2) in
    let w3 :=
      set_api_metrics (List.filter (fun m => negb (old m)) (api_metrics w2)) w2 in
    (Return {| deleted_runs := length deleted_runs;
               deleted_cache := length deleted_cache;
               deleted_metrics := length deleted_metrics |},
     w3).

End WithEnv.

(** The [filters] object of [listRuns], with its defaults. *)
Record ListFilters : Type := mkListFilters {
  filter_limit : option nat;
  filter_offset : option nat;
  filter_status : option RunStatus
}.

(** [ORDER BY created_at DESC]: newer rows first. *)
Definition newer_first (a b : Run) : Prop := (created_at b <= created_at a)%Z.

#[export] Instance newer_first_dec (a b : Run) : Decision (newer_first a b) :=
  Z_le_dec (created_at b) (created_at a).

(** [listRuns(filters = {})]:
    [SELECT * FROM runs WHERE status = $1 ORDER BY created_at DESC
     LIMIT $2 OFFSET $3]. *)
Definition listRuns (filters : ListFilters) : M World (list Run) :=
  let limit := match filter_limit filters with Some n => n | None => 50%nat end in
  let offset := match filter_offset filters with Some n => n | None => 0%nat end in
  let status_wanted :=
    match filter_status filters with Some st => st | None => active end in
  gets (fun w =>
    firstn limit
      (skipn offset
         (merge_sort newer_first
            (List.filter (fun r => RunStatus_eqb (status r) status_wanted)
                         (runs w))))).

End RunsModel.

(* ===================================================================== *)
(** * services/storage.service.js *)
(* ===================================================================== *)

Module StorageService.

Section WithEnv.
Variable env : Env.

Definition createRun (options : RunsModel.CreateOptions) : M World Run :=
  RunsModel.createRun env options.

(** [getRun(runId, throwIfNotFound = true)] *)
Definition getRun (runId : string) (throwIfNotFound : bool) : M World (option Run) :=
  let* run := RunsModel.getRun runId in
  match run with
  | None =>
      if throwIfNotFound then
        throw (Exn (Errors.UpstreamArtifactMissingError
                      ("Run not found: " +:+ runId) NoDetails))
      else ret run
  | Some _ => ret run
  end.

Definition saveBrand := RunsModel.saveBrand env.
Definition saveCompetitors := RunsModel.saveCompetitors env.
Definition saveAnalyzedCompetitors := RunsModel.saveAnalyzedCompetitors env.
Definition saveKernel := RunsModel.saveKernel env.
Definition getActiveRunsCount := RunsModel.getActiveRunsCount env.

End WithEnv.

End StorageService.

(* ===================================================================== *)
(** * services/evidence.service.js *)
(* ===================================================================== *)

Module EvidenceService.

(** The object [validateUrl] resolves to. *)
Record UrlVerdict : Type := mkUrlVerdict {
  verdict_valid : bool;
  verdict_url : string;
  verdict_reason : string
}.

(** [calculateConfidencePenalty(invalidCount, totalCount)] *)
Definition calculateConfidencePenalty {rounding : Rounding}
    (invalidCount totalCount : nat) : Q :=
  if Nat.eqb totalCount 0 then 0%Q
  else
    let invalidRatio := round (num_of_nat invalidCount / num_of_nat totalCount)%Q in
    Qmin (round (invalidRatio * round 0.3)) (round 0.3).    (* Max 30% penalty *)

Section WithEnv.
Context {rounding : Rounding}.
Context {api : UrlApi}.
Variable env : Env.

Definition domain_eqb (a b : option string) : bool :=
  match a, b with
  | Some x, Some y => String.eqb x y
  | None, None => true
  | _, _ => false
  end.

(** [allowedDomains.includes(domain)]; [extractDomain] may have returned
    [null] on either side. *)
Definition allowed (allowedDomains : list (option string)) (domain : option string)
  : bool :=
  existsb (domain_eqb domain) allowedDomains.

Definition validateUrl (url : string) (allowedDomains : list (option string))
  : UrlVerdict :=
  let domain := Helpers.extractDomain url in
  if negb (allowed allowedDomains domain) then
    mkUrlVerdict false url "Domain not in allowed list"
  else
    match fetch_head env url with
    | HeadRejects error_message => mkUrlVerdict false url error_message
    | HeadResponse ok http_status final_url =>
        let finalDomain := Helpers.extractDomain final_url in
        if negb (allowed allowedDomains finalDomain) then
          mkUrlVerdict false url "Redirected to different domain"
        else if negb ok then
          mkUrlVerdict false url ("HTTP " +:+ pretty http_status)
        else mkUrlVerdict true url ""
    end.

Definition checkEvidenceRefs (urls : list string)
    (allowedDomains : list (option string)) : EvidenceCheck :=
  if Nat.eqb (length urls) 0 then
    {| valid := []; invalid := []; confidence_penalty := 0 |}
  else
    let results := List.map (fun url => validateUrl url allowedDomains) urls in
    let valid := List.map verdict_url (List.filter verdict_valid results) in
    let invalid :=
      List.map (fun r => (verdict_url r, verdict_reason r))
               (List.filter (fun r => negb (verdict_valid r)) results) in
    let confidencePenalty :=
      calculateConfidencePenalty (length invalid) (length urls) in
    {| valid := valid; invalid := invalid; confidence_penalty := confidencePenalty |}.

End WithEnv.

End EvidenceService.

(* ===================================================================== *)
(** * config/redis.js *)
(* ===================================================================== *)

Module Redis.

Section WithEnv.
Variable env : Env.

Definition alive (e : RedisEntry) : bool :=
  match redis_deadline e with
  | Some deadline => (now env <? deadline)%Z
  | None => true
  end.

Fixpoint lookup_key (key : string) (db : list (string * RedisEntry))
  : option RedisEntry :=
  match db with
  | [] => None
  | (k, e) :: rest => if String.eqb k key then Some e else lookup_key key rest
  end.

Definition remove_key (key : string) (db : list (string * RedisEntry)) :=
  List.filter (fun kv => negb (String.eqb (fst kv) key)) db.

(** The client's commands. *)
Definition client_get (key : string) : M World (option ScrapeResult) :=
  match io_fault env (RedisGET key) with
  | Some e => throw (Exn e)
  | None =>
      gets (fun w =>
        match lookup_key key (redis w) with
        | Some e => if alive e then Some (redis_value e) else None
        | None => None
        end)
  end.

Definition client_store (key : string) (deadline : option Z) (value : ScrapeResult)
  : M World unit :=
  match io_fault env (RedisSETEX key) with
  | Some e => throw (Exn e)
  | None =>
      modify (fun w =>
        set_redis ((key, mkRedisEntry value deadline) :: remove_key key (redis w)) w)
  end.

Definition client_del (key : string) : M World nat :=
  match io_fault env (RedisDEL key) with
  | Some e => throw (Exn e)
  | None =>
      fun w =>
        (Return (match lookup_key key (redis w) with Some _ => 1 | None => 0 end),
         set_redis (remove_key key (redis w)) w)
  end.

(** [set(key, value, ttl = null)]: logs and rethrows. *)
Definition set (key : string) (value : ScrapeResult) (ttl : option Z) : M World unit :=
  try_catch
    (match ttl with
     | Some seconds =>
         if (seconds =? 0)%Z then client_store key None value
         else client_store key (Some (now env + seconds * 1000)%Z) value
     | None => client_store key None value
     end)
    (fun error => throw error).

(** [get(key)]: "Return null on error to allow fallback to database". *)
Definition get (key : string) : M World (option ScrapeResult) :=
  try_catch
    (let* value := client_get key in ret value)
    (fun error => ret None).

(** [del(key)]: logs and rethrows. *)
Definition del (key : string) : M World nat :=
  try_catch (client_del key) (fun error => throw error).

End WithEnv.

End Redis.

(* ===================================================================== *)
(** * db/models/cache.model.js *)
(* ===================================================================== *)

Module CacheModel.

Section WithEnv.
Variable env : Env.

Definition has_hash (h : string) (r : CacheRow) : bool := String.eqb (url_hash r) h.

Definition touch_row (r : CacheRow) : CacheRow :=
  {| url_hash := url_hash r; cache_url := cache_url r;
     cache_content := cache_content r; cache_scraped_at := cache_scraped_at r;
     cache_expires_at := cache_expires_at r; page_count := page_count r;
     total_tokens := total_tokens r; access_count := (access_count r + 1)%Z;
     last_accessed_at := now env |}.

(** [getCachedScraping(url)] *)
Definition getCachedScraping (url : string) : M World (option ScrapeResult) :=
  let urlHash := Helpers.generateUrlHash env url in
  let* rows :=
    (match io_fault env (CacheSELECT urlHash) with
     | Some e => throw (Exn e)
     | None =>
         gets (fun w =>
           List.filter (fun r => (has_hash urlHash r
                                  && (now env <? cache_expires_at r)%Z)%bool)
                       (scraping_cache w))
     end) in
  match rows with
  | first :: _ =>
      (* Update access count and last accessed time *)
      let* _ :=
        (match io_fault env (CacheTOUCH urlHash) with
         | Some e => throw (Exn e)
         | None =>
             modify (fun w =>
               set_scraping_cache
                 (List.map (fun r => if has_hash urlHash r then touch_row r else r)
                           (scraping_cache w)) w)
         end) in
      ret (Some (cache_content first))
  | [] => ret None
  end.

(** [setCachedScraping(url, data, ttl = 86400)]:
    [INSERT ... ON CONFLICT (url_hash) DO UPDATE SET ...] *)
Definition setCachedScraping (url : string) (data : ScrapeResult) (ttl : Z)
  : M World unit :=
  let urlHash := Helpers.generateUrlHash env url in
  let pageCount := length (pages data) in
  let totalTokens := 0%Z in
  let deadline := (now env + ttl * 1000)%Z in
  match io_fault env (CacheUPSERT urlHash) with
  | Some e => throw (Exn e)
  | None =>
      modify (fun w =>
        if existsb (has_hash urlHash) (scraping_cache w) then
          set_scraping_cache
            (List.map
               (fun r =>
                  if has_hash urlHash r then
                    {| url_hash := url_hash r; cache_url := cache_url r;
                       cache_content := data; cache_scraped_at := now env;
                       cache_expires_at := deadline; page_count := pageCount;
                       total_tokens := totalTokens;
                       access_count := (access_count r + 1)%Z;
                       last_accessed_at := last_accessed_at r |}
                  else r)
               (scraping_cache w)) w
        else
          set_scraping_cache
            (scraping_cache w ++
             [{| url_hash := urlHash; cache_url := url; cache_content := data;
                 cache_scraped_at := now env; cache_expires_at := deadline;
                 page_count := pageCount; total_tokens := totalTokens;
                 access_count := 1; last_accessed_at := now env |}]) w)
  end.

(** [invalidateCache(url)] *)
Definition invalidateCache (url : string) : M World bool :=
  let urlHash := Helpers.generateUrlHash env url in
  match io_fault env (CacheDELETE urlHash) with
  | Some e => throw (Exn e)
  | None =>
      fun w =>
        (Return (existsb (has_hash urlHash) (scraping_cache w)),
         set_scraping_cache
           (List.filter (fun r => negb (has_hash urlHash r)) (scraping_cache w)) w)
  end.

(** [cleanExpired()]: [DELETE FROM scraping_cache WHERE expires_at < NOW()];
    the number of rows deleted.  [query_fault] is the error of the statement
    when the database rejects it. *)
Definition cleanExpired (query_fault : option JsError) : M World nat :=
  match query_fault with
  | Some e => throw (Exn e)
  | None =>
      fun w =>
        let expired r := (cache_expires_at r <? now env)%Z in
        (Return (length (List.filter expired (scraping_cache w))),
         set_scraping_cache
           (List.filter (fun r => negb (expired r)) (scraping_cache w)) w)
  end.

End WithEnv.

End CacheModel.

(* ===================================================================== *)
(** * services/cache.service.js *)
(* ===================================================================== *)

Module CacheService.

(** [await Promise.all([a, b])] of two store commands: both are issued; the
    result rejects with the first rejection. *)
Definition both {A B} (a : M World A) (b : M World B) : M World (A * B) :=
  fun w =>
    match a w with
    | (Return x, w1) =>
        match b w1 with
        | (Return y, w2) => (Return (x, y), w2)
        | (Throw t, w2) => (Throw t, w2)
        end
    | (Throw t, w1) => (Throw t, snd (b w1))
    end.

Section WithEnv.
Variable env : Env.

Definition recordCacheHit (t : Tier) : M World unit := emit (CacheHitRecorded t).
Definition recordCacheMiss (t : Tier) : M World unit := emit (CacheMissRecorded t).

Definition cacheKey (url : string) : string :=
  "scrape:" +:+ Helpers.generateUrlHash env url.

(** [getScrapedContent(url)] *)
Definition getScrapedContent (url : string) : M World (option ScrapeResult) :=
  let cacheKey := cacheKey url in
  try_catch
    ((* Try Redis first (fast) *)
     let* redisData := Redis.get env cacheKey in
     match redisData with
     | Some data =>
         let* _ := recordCacheHit tier_redis in
         ret (Some data)
     | None =>
         let* _ := recordCacheMiss tier_redis in
         (* Fallback to PostgreSQL (persistent) *)
         let* dbData := CacheModel.getCachedScraping env url in
         match dbData with
         | Some data =>
             let* _ := recordCacheHit tier_postgres in
             (* Backfill Redis *)
             let* _ := Redis.set env cacheKey data
                         (Some (cache_scrapingTTL (config env))) in
             ret (Some data)
         | None =>
             let* _ := recordCacheMiss tier_postgres in
             ret None
         end
     end)
    (fun error => ret None).

(** [ttl || config.cache.scrapingTTL] *)
Definition actual_ttl (ttl : option Z) : Z :=
  match ttl with
  | Some t => if (t =? 0)%Z then cache_scrapingTTL (config env) else t
  | None => cache_scrapingTTL (config env)
  end.

(** [cacheScrapedContent(url, data, ttl = null)] *)
Definition cacheScrapedContent (url : string) (data : ScrapeResult) (ttl : option Z)
  : M World unit :=
  let actualTtl := actual_ttl ttl in
  let cacheKey := cacheKey url in
  try_catch
    ((* Save to both tiers *)
     let* _ := both (Redis.set env cacheKey data (Some actualTtl))
                    (CacheModel.setCachedScraping env url data actualTtl) in
     ret tt)
    (fun error =>
       (* Don't throw - caching failure shouldn't break the request *)
       ret tt).

(** [invalidate(url)] *)
Definition invalidate (url : string) : M World unit :=
  let cacheKey := cacheKey url in
  try_catch
    (let* _ := both (Redis.del env cacheKey) (CacheModel.invalidateCache env url) in
     ret tt)
    (fun error => ret tt).

End WithEnv.

End CacheService.

(* ===================================================================== *)
(** * services/scraper.service.js *)
(* ===================================================================== *)

Module ScraperService.

Definition commonPaths : list string :=
  [ "/"; "/about"; "/about-us"; "/company"; "/our-story"; "/products";
    "/services"; "/solutions"; "/features"; "/how-it-works"; "/mission";
    "/vision"; "/values"; "/team"; "/careers"; "/blog"; "/news"; "/press";
    "/contact"; "/faq"; "/help" ].

(** [[...new Set(urls)]]: the first occurrence of each element, in order. *)
Fixpoint unique_from (seen : list string) (l : list string) : list string :=
  match l with
  | [] => []
  | x :: rest =>
      if existsb (String.eqb x) seen then unique_from seen rest
      else x :: unique_from (x :: seen) rest
  end.

(** Template-literal rendering of a value that may be [null]. *)
Definition render (x : option string) : string :=
  match x with Some s => s | None => "null" end.

Definition threshold : Q := 0.8.    (* 80% similarity threshold *)

(** [new Set(page.content.toLowerCase().split(/\s+/))] *)
Definition words (p : Page) : gset string :=
  list_to_set (split_spaces (toLowerCase (page_content p))).

(** The inner loop of [deduplicateContent]: is [currentPage] similar to one
    of the pages kept so far? *)
Definition isDuplicate (unique : list Page) (currentPage : Page) : bool :=
  let currentWords := words currentPage in
  existsb
    (fun uniquePage =>
       let uniqueWords := words uniquePage in
       let similarity := Helpers.jaccardSimilarity currentWords uniqueWords in
       Qlt_bool threshold similarity)
    unique.

(** The outer loop, over [pages[1..]], with the array [unique] as
    accumulator. *)
Fixpoint dedup_loop (unique : list Page) (rest : list Page) : list Page :=
  match rest with
  | [] => unique
  | currentPage :: rest' =>
      if isDuplicate unique currentPage then dedup_loop unique rest'
      else dedup_loop (unique ++ [currentPage]) rest'
  end.

Definition deduplicateContent (pages : list Page) : list Page :=
  match pages with
  | [] => []
  | first :: rest => dedup_loop [first] rest
  end.

Section WithEnv.
Context {api : UrlApi}.
Variable env : Env.

Definition recordScraping (domain : option string) (duration : Z) : M World unit :=
  emit (ScrapingRecorded domain duration).

(** [discoverPages(baseUrl)] *)
Definition discoverPages (baseUrl : string) : list string :=
  let domain := Helpers.extractDomain baseUrl in
  let protocol := if startsWith baseUrl "https" then "https" else "http" in
  let baseWithoutProtocol := protocol +:+ "://" +:+ render domain in
  let urls := List.map (fun path => baseWithoutProtocol +:+ path) commonPaths in
  unique_from [] urls.

(** One probe of [validateUrls]: the URL, or [null]. *)
Definition probe (url : string) : option string :=
  match fetch_head env url with
  | HeadResponse ok _ _ => if ok then Some url else None
  | HeadRejects _ => None
  end.

(** [validateUrls(urls)] *)
Definition validateUrls (urls : list string) : list string :=
  omap probe urls.

(** [scrapePages(urls)]: batches of [concurrency] URLs; [fuel] bounds the
    number of batches, and [length urls] of them always suffice. *)
Fixpoint scrapePages_from (fuel : nat) (urls : list string) : list Page :=
  match fuel, urls with
  | O, _ => []
  | _, [] => []
  | S fuel', _ =>
      let concurrency := Pos.to_nat (scraping_concurrency (config env)) in
      let batch := firstn concurrency urls in
      let batchResults := List.map (scrapePage env) batch in
      omap id batchResults ++ scrapePages_from fuel' (skipn concurrency urls)
  end.

Definition scrapePages (urls : list string) : list Page :=
  scrapePages_from (length urls) urls.

(** The loop of [scrapePages] as it is written, for any value of
    [config.scraping.concurrency], a negative one included:
    {[
      for (let i = 0; i < urls.length; i += concurrency) {
        const batch = urls.slice(i, i + concurrency);
        const batchResults = await Promise.all(batch.map(url => this.scrapePage(url)));
        pages.push(...batchResults.filter(p => p !== null));
      }
      return pages;
    ]}
    [fuel] bounds the number of iterations; [None] says that [fuel]
    iterations do not reach the [return]. *)
Fixpoint scrapePages_loop (concurrency : Z) (fuel : nat) (i : Z) (urls : list string)
    (pages : list Page) : option (list Page) :=
  if (i <? Z.of_nat (length urls))%Z then
    match fuel with
    | O => None
    | S fuel' =>
        let batch := slice i (i + concurrency) urls in
        let batchResults := List.map (scrapePage env) batch in
        scrapePages_loop concurrency fuel' (i + concurrency) urls
          (pages ++ omap id batchResults)
    end
  else Some pages.

(** The [try] block of [scrapeWebsite], entered on a cache miss. *)
Definition freshScrape (sanitized : string) (domain : option string)
    (startPerformance : Z) : M World ScrapeResult :=
  try_catch
    ((* Discover candidate URLs *)
     let candidateUrls := discoverPages sanitized in
     (* Validate URLs (parallel HEAD requests) *)
     let validUrls := validateUrls candidateUrls in
     if Nat.eqb (length validUrls) 0 then
       throw (Exn (Errors.InsufficientDataError "No accessible pages found" NoDetails))
     else
       (* Scrape pages in parallel *)
       let pages := scrapePages validUrls in
       (* Deduplicate similar content *)
       let uniquePages := deduplicateContent pages in
       let duration := (now env - startPerformance)%Z in
       let* _ := recordScraping domain duration in
       let result :=
         {| pages := uniquePages;
            metadata :=
              {| meta_url := sanitized; meta_domain := domain;
                 meta_totalCandidates := length candidateUrls;
                 meta_validUrls := length validUrls;
                 meta_scrapedPages := length pages;
                 meta_uniquePages := length uniquePages;
                 meta_durationMs := duration;
                 meta_scrapedAt := now env |} |} in
       (* Cache the result *)
       let* _ := CacheService.cacheScrapedContent env sanitized result None in
       ret result)
    (fun error => throw error).

(** [scrapeWebsite(url)] *)
Definition scrapeWebsite (url : string) : M World ScrapeResult :=
  match Helpers.sanitizeUrl url with
  | Throw t => throw t
  | Return sanitized =>
      let domain := Helpers.extractDomain sanitized in
      let startPerformance := now env in
      (* Check cache first *)
      let* cached := CacheService.getScrapedContent env sanitized in
      match cached with
      | Some hit => ret hit
      | None => freshScrape sanitized domain startPerformance
      end
  end.

(** [scrapeSpecificPages(urls)] *)
Definition scrapeSpecificPages (urls : list string) : list Page :=
  scrapePages (validateUrls urls).

End WithEnv.

End ScraperService.

(* ===================================================================== *)
(** * middleware/error-handler.js *)
(* ===================================================================== *)

Module ErrorHandler.

(** The status line and the [error] field of the reply to a failed request. *)
Record ErrorReply : Type := mkErrorReply {
  reply_status : Z;
  reply_error : string;
  reply_message : string;
  reply_details : Details
}.

(** [errorHandler(error, request, reply)]; the routes throw error objects
    only, and none carries Fastify's [validation] field. *)
Definition errorHandler (error : JsError) : ErrorReply :=
  if isAppError error then
    {| reply_status := match statusCode error with Some sc => sc | None => 500 end;
       reply_error := match code error with Some c => c | None => "" end;
       reply_message := message error;
       reply_details := details error |}
  else
    let statusCode :=
      match statusCode error with
      | Some sc => if (sc =? 0)%Z then 500%Z else sc
      | None => 500%Z
      end in
    {| reply_status := statusCode;
       reply_error := "INTERNAL_ERROR";
       reply_message :=
         if (statusCode =? 500)%Z then "Internal server error" else message error;
       reply_details := NoDetails |}.

End ErrorHandler.

(* ===================================================================== *)
(** * routes/stage1.routes.js *)
(* ===================================================================== *)

Module Stage1Routes.

(** The bodies of the successful replies; the presentation cards, the file
    links and the timing fields are projections of what is kept here. *)
Record BrandSummaryReply : Type := mkBrandSummaryReply {
  bs_run_id : string;
  bs_brand : Validated;
  bs_pages_scraped : nat
}.

Record CompetitorsReply : Type := mkCompetitorsReply {
  cr_run_id : string;
  cr_competitors : list Candidate
}.

Record AnalyzeReply : Type := mkAnalyzeReply {
  ar_run_id : string;
  ar_competitors : list Validated
}.

Record KernelReply : Type := mkKernelReply {
  kr_run_id : string;
  kr_brand : Validated;
  kr_competitors : list Validated;
  kr_kernel : Kernel
}.

(** Reading a property of [null]. *)
Definition null_dereference : JsError :=
  {| name := "TypeError"; message := "Cannot read properties of null";
     code := None; statusCode := None; Js.status := None;
     details := NoDetails; isAppError := false |}.

(** [x || []] *)
Definition or_empty {A} (x : option (list A)) : list A :=
  match x with Some l => l | None => [] end.

Section WithEnv.
Context {rounding : Rounding}.
Context {api : UrlApi}.
Variable env : Env.

(** [Math.max(0, analysis.confidence_0_1 - evidenceCheck.confidence_penalty)];
    [analysis.confidence_0_1] is the number [JSON.parse] read off the
    provider's reply, so the decimal written there, rounded. *)
Definition adjustedConfidence (analysis : Analysis) (evidenceCheck : EvidenceCheck) : Q :=
  Qmax 0 (round (round (an_confidence_0_1 analysis) - confidence_penalty evidenceCheck)).

(** POST /v1/brand-summary, from "Validate evidence" to the reply. *)
Definition brandSummary_conclude (domain : option string) (run : Run)
    (scrapedData : ScrapeResult) (brandAnalysis : Analysis)
  : M World BrandSummaryReply :=
  (* Validate evidence *)
  let evidenceCheck :=
    EvidenceService.checkEvidenceRefs env
      (or_empty (an_evidence_refs brandAnalysis)) [domain] in
  (* Adjust confidence *)
  let adjustedConfidence := adjustedConfidence brandAnalysis evidenceCheck in
  if Qlt_bool adjustedConfidence (round 0.6) then
    throw (Exn (Errors.LowConfidenceError "Analysis confidence too low"
                  (ConfidenceDetails adjustedConfidence (invalid evidenceCheck))))
  else
    let brandData :=
      {| from_analysis := brandAnalysis;
         confidence_0_1 := adjustedConfidence;
         evidence_validation := evidenceCheck |} in
    (* Save to database *)
    let* _ := StorageService.saveBrand env (run_id run) brandData in
    ret {| bs_run_id := run_id run; bs_brand := brandData;
           bs_pages_scraped := length (pages scrapedData) |}.

(** POST /v1/brand-summary *)
Definition brandSummary (body : Validation.BrandSummaryBody)
  : M World BrandSummaryReply :=
  let* _ := Validation.validate body (Validation.validateBrandSummary env)
              "Brand Summary Request" in
  let brand_url := Validation.body_brand_url body in
  let domain := Helpers.extractDomain brand_url in
  (* Create run *)
  let* run := StorageService.createRun env RunsModel.no_options in
  (* Scrape website *)
  let* scrapedData := ScraperService.scrapeWebsite env brand_url in
  if Nat.ltb (length (pages scrapedData)) 3 then
    throw (Exn (Errors.InsufficientDataError
                  "Insufficient pages scraped (minimum 3 required)" NoDetails))
  else
    (* Analyze brand with OpenAI *)
    let* brandAnalysis := OpenAIService.analyzeBrand env scrapedData in
    brandSummary_conclude domain run scrapedData brandAnalysis.

(** POST /v1/competitors *)
Definition competitors_route (body : Validation.CompetitorsBody)
  : M World CompetitorsReply :=
  let* _ := Validation.validate body Validation.validateCompetitors
              "Competitors Request" in
  let run_id := Validation.comp_run_id body in
  (* Get run *)
  let* run := StorageService.getRun run_id true in
  match run with
  | None => throw (Exn null_dereference)
  | Some run =>
      match brand_data run with
      | None =>
          throw (Exn (Errors.UpstreamArtifactMissingError
                        "Brand analysis not found for this run" NoDetails))
      | Some brand =>
          (* Discover competitors with OpenAI *)
          let* competitorsResult := OpenAIService.findCompetitors env brand in
          let competitors := or_empty (competitors competitorsResult) in
          (* Filter low confidence *)
          let filteredCompetitors :=
            List.filter (fun c => Qle_bool (round 0.6) (round (cand_confidence_0_1 c)))
                        competitors in
          (* Save to database *)
          let* _ := StorageService.saveCompetitors env run_id filteredCompetitors in
          ret {| cr_run_id := run_id; cr_competitors := filteredCompetitors |}
      end
  end.

(** The per-domain task of POST /v1/competitors/analyze. *)
Definition analyze_domain (domain : string) : M World Validated :=
  (* Scrape competitor website *)
  let* scrapedData := ScraperService.scrapeWebsite env ("https://" +:+ domain) in
  (* Analyze with OpenAI *)
  let* analysis := OpenAIService.analyzeCompetitor env domain scrapedData in
  (* Validate evidence *)
  let evidenceCheck :=
    EvidenceService.checkEvidenceRefs env
      (or_empty (an_evidence_refs analysis)) [Some domain] in
  let adjustedConfidence := adjustedConfidence analysis evidenceCheck in
  ret {| from_analysis := analysis;
         confidence_0_1 := adjustedConfidence;
         evidence_validation := evidenceCheck |}.

(** POST /v1/competitors/analyze *)
Definition competitorsAnalyze (body : Validation.CompetitorsAnalyzeBody)
  : M World AnalyzeReply :=
  let* _ := Validation.validate body Validation.validateCompetitorsAnalyze
              "Competitors Analyze Request" in
  let run_id := Validation.analyze_run_id body in
  let domains := Validation.analyze_domains body in
  (* Get run *)
  let* run := StorageService.getRun run_id true in
  match run with
  | None => throw (Exn null_dereference)
  | Some run =>
      match competitors_10 run with
      | None =>
          throw (Exn (Errors.UpstreamArtifactMissingError
                        "Competitors not discovered yet" NoDetails))
      | Some _ =>
          (* Analyze competitors in parallel *)
          let* analyses := mapM analyze_domain domains in
          (* Save to database *)
          let* _ := StorageService.saveAnalyzedCompetitors env run_id analyses in
          ret {| ar_run_id := run_id; ar_competitors := analyses |}
      end
  end.

(** POST /v1/kernel *)
Definition kernel_route (body : Validation.KernelBody) : M World KernelReply :=
  let* _ := Validation.validate body Validation.validateKernel "Kernel Request" in
  let run_id := Validation.kernel_run_id body in
  (* Get run *)
  let* run := StorageService.getRun run_id true in
  match run with
  | None => throw (Exn null_dereference)
  | Some run =>
      match brand_data run with
      | None =>
          throw (Exn (Errors.UpstreamArtifactMissingError
                        "Brand analysis not found" NoDetails))
      | Some brand =>
          match competitors_selected run with
          | None | Some [] =>
              throw (Exn (Errors.UpstreamArtifactMissingError
                            "No analyzed competitors found" NoDetails))
          | Some selected =>
              (* Assemble kernel with OpenAI *)
              let* kernel := OpenAIService.assembleKernel env brand selected in
              (* Save to database *)
              let* _ := StorageService.saveKernel env run_id kernel in
              ret {| kr_run_id := run_id; kr_brand := brand;
                     kr_competitors := selected; kr_kernel := kernel |}
          end
      end
  end.

End WithEnv.

(** What the client receives: status 200, or the error handler's reply. *)
Definition http_status_of {A} (c : Completion A) : Z :=
  match c with
  | Return _ => 200
  | Throw (Exn e) => ErrorHandler.reply_status (ErrorHandler.errorHandler e)
  | Throw Undefined => 500
  end.

Definition error_code_of {A} (c : Completion A) : option string :=
  match c with
  | Return _ => None
  | Throw (Exn e) => Some (ErrorHandler.reply_error (ErrorHandler.errorHandler e))
  | Throw Undefined => Some "INTERNAL_ERROR"
  end.

End Stage1Routes.

(* ===================================================================== *)
(** * services/browser-pool.service.js *)
(* ===================================================================== *)

Module BrowserPool.

(** An entry of [this.browsers], [{ id, browser, inUse }].  The entries are
    objects: [getBrowser] hands out a reference to one, and [releaseBrowser]
    writes through the reference it is given.  A reference is the position
    of the object in [heap]. *)
Record BrowserObj : Type := mkBrowserObj {
  id : nat;
  inUse : bool
}.

Definition Ref : Type := nat.

Record Pool : Type := mkPool {
  poolSize : nat;
  heap : list BrowserObj;            (* every entry created so far *)
  browsers : list Ref;               (* this.browsers *)
  availableBrowsers : list nat;      (* this.availableBrowsers *)
  initialized : bool;
  gauge : list (nat * Z)             (* updateBrowserPool(total, inUse) *)
}.

Definition set_heap (h : list BrowserObj) (p : Pool) : Pool :=
  {| poolSize := poolSize p; heap := h; browsers := browsers p;
     availableBrowsers := availableBrowsers p; initialized := initialized p;
     gauge := gauge p |}.

Definition set_browsers (b : list Ref) (p : Pool) : Pool :=
  {| poolSize := poolSize p; heap := heap p; browsers := b;
     availableBrowsers := availableBrowsers p; initialized := initialized p;
     gauge := gauge p |}.

Definition set_availableBrowsers (a : list nat) (p : Pool) : Pool :=
  {| poolSize := poolSize p; heap := heap p; browsers := browsers p;
     availableBrowsers := a; initialized := initialized p; gauge := gauge p |}.

Definition set_initialized (b : bool) (p : Pool) : Pool :=
  {| poolSize := poolSize p; heap := heap p; browsers := browsers p;
     availableBrowsers := availableBrowsers p; initialized := b; gauge := gauge p |}.

(** [new BrowserPool(poolSize)] *)
Definition new (poolSize : nat) : Pool :=
  {| poolSize := poolSize; heap := []; browsers := []; availableBrowsers := [];
     initialized := false; gauge := [] |}.

Record Stats : Type := mkStats {
  stats_total : nat;
  stats_inUse : Z;                   (* poolSize - availableBrowsers.length *)
  stats_available : nat;
  stats_initialized : bool
}.

(** [getStats()] *)
Definition getStats (p : Pool) : Stats :=
  {| stats_total := poolSize p;
     stats_inUse := (Z.of_nat (poolSize p) - Z.of_nat (length (availableBrowsers p)))%Z;
     stats_available := length (availableBrowsers p);
     stats_initialized := initialized p |}.

(** [updateMetrics()] *)
Definition updateMetrics : M Pool unit :=
  modify (fun p =>
    let stats := getStats p in
    {| poolSize := poolSize p; heap := heap p; browsers := browsers p;
       availableBrowsers := availableBrowsers p; initialized := initialized p;
       gauge := gauge p ++ [(stats_total stats, stats_inUse stats)] |}).

(** One turn of the loop of [init], after the launch: the two [push]es. *)
Definition push_browser (i : nat) (p : Pool) : Pool :=
  set_availableBrowsers (availableBrowsers p ++ [i])
    (set_browsers (browsers p ++ [length (heap p)])
       (set_heap (heap p ++ [{| id := i; inUse := false |}]) p)).

(** The loop of [init] over the indices [ids]; [launch i] is the error
    [chromium.launch] rejects with at turn [i], if it does. *)
Fixpoint launch_from (launch : nat -> option JsError) (ids : list nat) : M Pool unit :=
  match ids with
  | [] => ret tt
  | i :: rest =>
      match launch i with
      | Some error => throw (Exn error)
      | None =>
          let* _ := modify (push_browser i) in
          launch_from launch rest
      end
  end.

(** [init()] *)
Definition init (launch : nat -> option JsError) : M Pool unit :=
  fun p =>
    if initialized p then (Return tt, p)
    else
      try_catch
        (let* _ := launch_from launch (seq 0 (poolSize p)) in
         let* _ := modify (set_initialized true) in
         updateMetrics)
        (fun error => throw error) p.

Definition not_initialized : JsError := plainError "Browser pool not initialized".

Definition wait_timeout : JsError :=
  plainError "Timeout waiting for available browser".

(** Writing [inUse] of [undefined]. *)
Definition undefined_entry : JsError :=
  {| name := "TypeError"; message := "Cannot set properties of undefined";
     code := None; statusCode := None; Js.status := None;
     details := NoDetails; isAppError := false |}.

Definition mark (b : bool) (obj : BrowserObj) : BrowserObj :=
  {| id := id obj; inUse := b |}.

(** The end of [getBrowser], from [shift()] on; [browserId :: rest] is the
    queue before the [shift]. *)
Definition acquire (browserId : nat) (rest : list nat) : M Pool Ref :=
  fun p =>
    let p1 := set_availableBrowsers rest p in
    match browsers p1 !! browserId with
    | None => (Throw (Exn undefined_entry), p1)
    | Some browserObj =>
        let p2 := set_heap (alter (mark true) browserObj (heap p1)) p1 in
        let (_, p3) := updateMetrics p2 in
        (Return browserObj, p3)
    end.

(** The loop of [getBrowser].  Each wait lasts 100 ms and the clock is read
    [100 * k] ms after the start at the k-th test, so [remaining] counts the
    waits left before [Date.now() - start > timeout]; [others k] is what the
    other tasks do to the pool during the k-th wait.  Between the test that
    ends the loop and the [shift()] nothing else runs. *)
Fixpoint wait_from (remaining k : nat) (others : nat -> Pool -> Pool) : M Pool Ref :=
  fun p =>
    match availableBrowsers p with
    | browserId :: rest => acquire browserId rest p
    | [] =>
        match remaining with
        | O => (Throw (Exn wait_timeout), p)
        | S remaining' => wait_from remaining' (S k) others (others k p)
        end
    end.

Definition waits_before (timeout : Z) : nat :=
  if (timeout <? 0)%Z then 0 else Z.to_nat (timeout / 100) + 1.

(** [getBrowser(timeout = 30000)] *)
Definition getBrowser (timeout : Z) (others : nat -> Pool -> Pool) : M Pool Ref :=
  fun p =>
    if negb (initialized p) then (Throw (Exn not_initialized), p)
    else wait_from (waits_before timeout) 0 others p.

(** [releaseBrowser(browserObj)]; [None] is [null]. *)
Definition releaseBrowser (browserObj : option Ref) : M Pool unit :=
  fun p =>
    match browserObj with
    | None => (Return tt, p)
    | Some r =>
        match heap p !! r with
        | None => (Return tt, p)
        | Some obj =>
            if negb (inUse obj) then (Return tt, p)
            else
              let p1 := set_heap (alter (mark false) r (heap p)) p in
              let p2 := set_availableBrowsers (availableBrowsers p1 ++ [id obj]) p1 in
              updateMetrics p2
        end
    end.

(** [releaseContext(context, browserObj)]: a failure of [context.close()] is
    logged, and the browser is released in either case. *)
Definition releaseContext (context_close_fails : bool) (browserObj : option Ref)
  : M Pool unit :=
  releaseBrowser browserObj.

(** [close()]: a failure to close a browser is logged. *)
Definition close : M Pool unit :=
  fun p =>
    if negb (initialized p) then (Return tt, p)
    else (Return tt,
          set_initialized false (set_availableBrowsers [] (set_browsers [] p))).

End BrowserPool.

(* ===================================================================== *)
(** * services/scraper.service.js: [scrapePage] and the pool *)
(* ===================================================================== *)

Module PageScraper.

(** What happens to a page load once a browser is held. *)
Inductive PageLoad : Type :=
| ContextRejects                   (* browserPool.getContext rejects *)
| LoadRejects (context_close_fails : bool)
                                   (* newPage, goto, evaluate, title or
                                      page.close rejects *)
| Loaded (page : Page) (context_close_fails : bool).

(** [scrapePage(url)], as far as the pool is concerned: [load] is the fate of
    the page, [others] what the other tasks do while this one waits for a
    browser, and [meanwhile] what they do while the page loads. *)
Definition scrapePage (load : PageLoad) (others : nat -> BrowserPool.Pool -> BrowserPool.Pool)
    (meanwhile : BrowserPool.Pool -> BrowserPool.Pool)
  : M BrowserPool.Pool (option Page) :=
  fun p =>
    match BrowserPool.getBrowser 30000 others p with
    | (Throw _, p1) =>
        (* catch: return null; finally: browserObj is null *)
        (Return None, p1)
    | (Return browserObj, p1) =>
        match load with
        | ContextRejects =>
            (* catch: return null; finally: context is null *)
            (Return None, p1)
        | LoadRejects context_close_fails =>
            let (_, p2) :=
              BrowserPool.releaseContext context_close_fails (Some browserObj)
                (meanwhile p1) in
            (Return None, p2)
        | Loaded page context_close_fails =>
            let (_, p2) :=
              BrowserPool.releaseContext context_close_fails (Some browserObj)
                (meanwhile p1) in
            (Return (Some page), p2)
        end
    end.

End PageScraper.

(* ===================================================================== *)
(** * routes/health.routes.js, with the health checks of database.js and
      redis.js *)
(* ===================================================================== *)

Module HealthRoutes.

(** What the probes of one request find. *)
Record Probes : Type := mkProbes {
  openai_apiKey : option string;         (* config.openai.apiKey *)
  select_now : option JsError;           (* [SELECT NOW()] rejects *)
  ping : JsError + string                (* [client.ping()] *)
}.

(** [db.healthCheck()]: the [status] of the object it resolves to. *)
Definition db_healthCheck (probes : Probes) : string :=
  match select_now probes with
  | None => "ok"
  | Some _ => "error"
  end.

(** [redis.healthCheck()]: the [status] of the object it resolves to. *)
Definition redis_healthCheck (probes : Probes) : string :=
  match ping probes with
  | inr result => if String.eqb result "PONG" then "ok" else "error"
  | inl _ => "error"
  end.

Record Reply : Type := mkReply {
  reply_code : Z;
  reply_status : string
}.

(** GET /health *)
Definition health (probes : Probes) (pool : BrowserPool.Pool) : Reply :=
  let checks :=
    [ match openai_apiKey probes with
      | Some key => if String.eqb key "" then "error" else "ok"
      | None => "error"
      end;
      if BrowserPool.initialized pool then "ok" else "error";
      db_healthCheck probes;
      redis_healthCheck probes ] in
  let isHealthy := forallb (fun status => String.eqb status "ok") checks in
  {| reply_code := if isHealthy then 200 else 503;
     reply_status := if isHealthy then "healthy" else "unhealthy" |}.

(** GET /health/ready *)
Definition ready (probes : Probes) (pool : BrowserPool.Pool) : Reply :=
  let ready :=
    (BrowserPool.initialized pool && String.eqb (db_healthCheck probes) "ok")%bool in
  {| reply_code := if ready then 200 else 503;
     reply_status := if ready then "ready" else "not_ready" |}.

End HealthRoutes.

(* ===================================================================== *)
(** * A concrete platform, for running the code *)
(* ===================================================================== *)

(** An instance of [UrlApi] for strings of the form
    [scheme://host/path#fragment] with a lower-case scheme and host, on which
    it agrees with the platform's parser: the path of a URL without one is
    [/], and an empty fragment is dropped. *)
Module SimpleUrl.

Record t : Type := mk {
  protocol : string;      (* with the trailing colon *)
  hostname : string;
  pathname : string;
  hash : string           (* empty, or with the leading # *)
}.

(** The text before the first [c], and the text after it if there is one. *)
Fixpoint break_on (c : ascii) (s : string) : string * option string :=
  match s with
  | EmptyString => (EmptyString, None)
  | String d rest =>
      if Ascii.eqb d c then (EmptyString, Some rest)
      else let (before, after) := break_on c rest in (String d before, after)
  end.

Definition is_letter (c : ascii) : bool :=
  let n := nat_of_ascii c in
  ((Nat.leb 97 n && Nat.leb n 122) || (Nat.leb 65 n && Nat.leb n 90))%bool.

Definition invalid_url : JsError :=
  {| name := "TypeError"; message := "Invalid URL"; code := Some "ERR_INVALID_URL";
     statusCode := None; Js.status := None; details := NoDetails;
     isAppError := false |}.

Definition parse (s : string) : JsError + t :=
  match break_on ":" s with
  | (scheme, Some rest) =>
      if (negb (String.eqb scheme "") && Validation.all_chars is_letter scheme
          && String.prefix "//" rest)%bool then
        let rest := String.substring 2 (String.length rest - 2) rest in
        let (before_hash, fragment) := break_on "#" rest in
        let (host, path) := break_on "/" before_hash in
        if String.eqb host "" then inl invalid_url
        else
          inr {| protocol := scheme +:+ ":";
                 hostname := host;
                 pathname := match path with
                             | Some p => String "/" p
                             | None => "/"
                             end;
                 hash := match fragment with
                         | Some f => if String.eqb f "" then "" else String "#" f
                         | None => ""
                         end |}
      else inl invalid_url
  | (_, None) => inl invalid_url
  end.

(** [c] does not occur in [s]. *)
Definition lacks (c : ascii) (s : string) : bool :=
  Validation.all_chars (fun d => negb (Ascii.eqb d c)) s.

Definition clear_hash (u : t) : t :=
  {| protocol := protocol u; hostname := hostname u; pathname := pathname u;
     hash := "" |}.

Definition toString (u : t) : string :=
  protocol u +:+ "//" +:+ hostname u +:+ pathname u +:+ hash u.

End SimpleUrl.

#[export] Instance simple_url_api : UrlApi :=
  {| URL := SimpleUrl.t;
     URL_new := SimpleUrl.parse;
     URL_protocol := SimpleUrl.protocol;
     URL_hostname := SimpleUrl.hostname;
     URL_clear_hash := SimpleUrl.clear_hash;
     URL_toString := SimpleUrl.toString |}.

(** Concrete environments and worlds used to run the code. *)
Module Scenario.

Definition default_config : Config :=
  {| scraping_concurrency := 5; cache_scrapingTTL := 86400;
     openai_model := "gpt-4o-mini" |}.

Definition syntax_error : JsError :=
  {| name := "SyntaxError"; message := "Unexpected end of JSON input";
     code := None; statusCode := None; Js.status := None;
     details := NoDetails; isAppError := false |}.

(** The error object the provider SDK rejects with on an HTTP error status. *)
Definition api_error (http : Z) : JsError :=
  {| name := "APIError"; message := pretty http +:+ " status code (no body)";
     code := None; statusCode := None; Js.status := Some http;
     details := NoDetails; isAppError := false |}.

Definition connection_refused : JsError :=
  {| name := "Error"; message := "connect ECONNREFUSED"; code := Some "ECONNREFUSED";
     statusCode := None; Js.status := None; details := NoDetails;
     isAppError := false |}.

(** An environment from the parts a scenario varies; the rest is fixed: the
    clock reads 1 000 000 ms, every identifier drawn is the nil UUID, the
    hash function is a stand-in that tags its argument (no statement depends
    on the digests), and replies that are not JSON never arrive. *)
Definition make (provider : nat -> Prompt -> ProviderReply)
    (fetch_head : string -> HeadReply) (scrapePage : string -> option Page)
    (io_fault : IoOp -> option JsError) : Env :=
  {| config := default_config;
     now := 1000000;
     uuidv4 := fun _ => "00000000-0000-0000-0000-000000000000";
     sha256_hex := fun url => "sha256(" +:+ url +:+ ")";
     ajv_format_uri := fun _ => true;
     provider := provider;
     JSON_parse_analysis := fun _ => inl syntax_error;
     JSON_parse_discovery := fun _ => inl syntax_error;
     JSON_parse_kernel := fun _ => inl syntax_error;
     fetch_head := fetch_head;
     scrapePage := scrapePage;
     io_fault := io_fault |}.

Definition provider_rejecting (http : Z) : nat -> Prompt -> ProviderReply :=
  fun _ _ => ProviderRejects (api_error http).

Definition web_down : string -> HeadReply := fun _ => HeadRejects "fetch failed".

Definition web_all_ok : string -> HeadReply := fun url => HeadResponse true 200 url.

Definition no_browser : string -> option Page := fun _ => None.

Definition no_fault : IoOp -> option JsError := fun _ => None.

(** The provider answers every request with HTTP [http]; nothing else is
    reachable. *)
Definition env_provider_rejecting (http : Z) : Env :=
  make (provider_rejecting http) web_down no_browser no_fault.

Definition offline : Env := env_provider_rejecting 500.

(** Every page of the web answers the probe with 200 and no redirect. *)
Definition env_web_ok : Env :=
  make (provider_rejecting 500) web_all_ok no_browser no_fault.

(** One citation, on the allowed domain and reachable. *)
Definition one_valid_citation : list string := ["https://example.com/about"].

Definition check_of_one_valid_citation : EvidenceCheck :=
  EvidenceService.checkEvidenceRefs env_web_ok one_valid_citation
    [Some "example.com"].

Definition empty_world : World :=
  {| runs := []; scraping_cache := []; redis := []; events := [];
     uuids_drawn := 0; api_metrics := [] |}.

Definition empty_scrape : ScrapeResult :=
  {| pages := [];
     metadata := {| meta_url := ""; meta_domain := None; meta_totalCandidates := 0;
                    meta_validUrls := 0; meta_scrapedPages := 0;
                    meta_uniquePages := 0; meta_durationMs := 0;
                    meta_scrapedAt := 0 |} |}.

(** An active run whose deadline, 999 999, passed one millisecond before the
    scenario clock reads 1 000 000. *)
Definition expired_run : Run :=
  {| run_id := "run_0a1b2c3d"; created_at := 0; updated_at := 0;
     expires_at := 999999; status := active;
     brand_data := None; brand_summary := None; competitors_10 := None;
     competitors_selected := None; kernel_data := None; report_md := None;
     run_metadata := [] |}.

Definition world_with_expired_run : World :=
  {| runs := [expired_run]; scraping_cache := []; redis := []; events := [];
     uuids_drawn := 0; api_metrics := [] |}.

(** Only the root page of example.com answers the probe, and no page can be
    loaded in a browser. *)
Definition only_root_reachable : string -> HeadReply :=
  fun url =>
    if String.eqb url "https://example.com/" then HeadResponse true 200 url
    else HeadResponse false 404 url.

Definition env_no_page_loads : Env :=
  make (provider_rejecting 500) only_root_reachable no_browser no_fault.

(** Two pages whose words differ in case only, apart from one word each. *)
Definition page_upper : Page :=
  {| page_url := "https://example.com/"; page_title := "Home";
     page_content := "a A b B c C d D e E x"; page_scrapedAt := 1000000 |}.

Definition page_lower : Page :=
  {| page_url := "https://example.com/about"; page_title := "About";
     page_content := "a A b B c C d D e E y"; page_scrapedAt := 1000000 |}.

(** Redis is unreachable while PostgreSQL holds an entry for the URL. *)
Definition redis_get_fails : IoOp -> option JsError :=
  fun op => match op with RedisGET _ => Some connection_refused | _ => None end.

Definition env_redis_down : Env :=
  make (provider_rejecting 500) web_down no_browser redis_get_fails.

Definition cached_page : Page :=
  {| page_url := "https://example.com/"; page_title := "Example Domain";
     page_content := "example domain"; page_scrapedAt := 900000 |}.

Definition cached_scrape : ScrapeResult :=
  {| pages := [cached_page];
     metadata := {| meta_url := "https://example.com/";
                    meta_domain := Some "example.com"; meta_totalCandidates := 21;
                    meta_validUrls := 1; meta_scrapedPages := 1;
                    meta_uniquePages := 1; meta_durationMs := 0;
                    meta_scrapedAt := 900000 |} |}.

Definition world_with_durable_entry : World :=
  {| runs := [];
     scraping_cache :=
       [{| url_hash := "sha256(https://example.com/)";
           cache_url := "https://example.com/"; cache_content := cached_scrape;
           cache_scraped_at := 900000; cache_expires_at := 87300000;
           page_count := 1; total_tokens := 0; access_count := 1;
           last_accessed_at := 900000 |}];
     redis := []; events := []; uuids_drawn := 0; api_metrics := [] |}.

(** A store due for cleaning at the scenario clock, 1 000 000: the expired
    run, a cache row whose deadline was 999 999, and two metrics that refer
    to the run, the first taken thirty days and one millisecond ago. *)
Definition world_to_clean : World :=
  {| runs := [expired_run];
     scraping_cache :=
       [{| url_hash := "sha256(https://example.com/)";
           cache_url := "https://example.com/"; cache_content := cached_scrape;
           cache_scraped_at := 900000; cache_expires_at := 999999;
           page_count := 1; total_tokens := 0; access_count := 1;
           last_accessed_at := 900000 |}];
     redis := []; events := []; uuids_drawn := 0;
     api_metrics :=
       [{| metric_id := 1; metric_timestamp := 1000000 - 2592000001;
           metric_run_id := Some "run_0a1b2c3d" |};
        {| metric_id := 2; metric_timestamp := 999000;
           metric_run_id := Some "run_0a1b2c3d" |}] |}.

(** A run whose discovery kept no candidate: the slot holds an empty list. *)
Definition run_without_candidates : Run :=
  {| run_id := "run_0a1b2c3d"; created_at := 0; updated_at := 0;
     expires_at := 604800000; status := active;
     brand_data := None; brand_summary := None; competitors_10 := Some [];
     competitors_selected := None; kernel_data := None; report_md := None;
     run_metadata := [] |}.

Definition world_without_candidates : World :=
  {| runs := [run_without_candidates]; scraping_cache := []; redis := [];
     events := []; uuids_drawn := 0; api_metrics := [] |}.

Definition sample_analysis : Analysis :=
  {| an_name := "Example"; an_domain := "example.com"; an_tagline := "For examples";
     an_category := "Documentation"; an_value_propositions := ["Stable"];
     an_target_audience := "Authors"; an_positioning := "Reserved domain";
     an_key_features := ["Always there"]; an_summary := Some "A reserved domain.";
     an_pricing_approach := None; an_strengths := []; an_weaknesses := [];
     an_differentiation := None;
     an_evidence_refs := Some ["https://example.com/about"];
     an_confidence_0_1 := 0.9 |}.

Definition sample_brand : Validated :=
  {| from_analysis := sample_analysis; confidence_0_1 := 0.9;
     evidence_validation :=
       {| valid := ["https://example.com/about"]; invalid := [];
          confidence_penalty := 0 |} |}.

(** Forty citations, three on the brand's domain and thirty-seven on
    another. *)
Definition forty_citations : list string :=
  repeat "https://example.com/about" 3 ++ repeat "https://example.org/praise" 37.

(** An analysis of reported confidence 0.8775 that cites them. *)
Definition analysis_0_8775 : Analysis :=
  {| an_name := "Example"; an_domain := "example.com"; an_tagline := "For examples";
     an_category := "Documentation"; an_value_propositions := ["Stable"];
     an_target_audience := "Authors"; an_positioning := "Reserved domain";
     an_key_features := ["Always there"]; an_summary := Some "A reserved domain.";
     an_pricing_approach := None; an_strengths := []; an_weaknesses := [];
     an_differentiation := None;
     an_evidence_refs := Some forty_citations;
     an_confidence_0_1 := 0.8775 |}.

Definition sample_kernel : Kernel :=
  {| k_brand_unique := ["reserved"]; k_shared := []; k_white_space := [];
     k_gap_map := []; k_strengths := []; k_opportunities := []; k_risks := [];
     k_recommendations := ["Keep it"]; k_report_md := None |}.

Definition sample_candidate (confidence : Q) : Candidate :=
  {| cand_name := "Rival"; cand_domain := "example.org";
     cand_confidence_0_1 := confidence; cand_reason := "Same category" |}.

(** A run that holds a brand and nothing else. *)
Definition run_with_brand : Run :=
  {| run_id := "run_0a1b2c3d"; created_at := 0; updated_at := 0;
     expires_at := 604800000; status := active;
     brand_data := Some sample_brand; brand_summary := Some "A reserved domain.";
     competitors_10 := None;
     competitors_selected := None; kernel_data := None; report_md := None;
     run_metadata := [] |}.

Definition world_with_brand : World :=
  {| runs := [run_with_brand]; scraping_cache := []; redis := [];
     events := []; uuids_drawn := 0; api_metrics := [] |}.

(** The provider answers every request, and the discovery it sends names
    one candidate of confidence 0.9 and one of confidence 0.5. *)
Definition discovered : Discovery :=
  {| competitors := Some [sample_candidate 0.9; sample_candidate 0.5] |}.

Definition env_discovering : Env :=
  {| config := default_config;
     now := 1000000;
     uuidv4 := fun _ => "00000000-0000-0000-0000-000000000000";
     sha256_hex := fun url => "sha256(" +:+ url +:+ ")";
     ajv_format_uri := fun _ => true;
     provider := fun _ _ => ChatCompletion 120 "{}";
     JSON_parse_analysis := fun _ => inl syntax_error;
     JSON_parse_discovery := fun _ => inr discovered;
     JSON_parse_kernel := fun _ => inl syntax_error;
     fetch_head := web_down;
     scrapePage := no_browser;
     io_fault := no_fault |}.

End Scenario.

(* ===================================================================== *)
(** * Vocabulary of the statements *)
(* ===================================================================== *)

Module Spec.

(** The parsed JSON of a provider reply, when the reply is a completion
    whose content parses. *)
Definition parsed_json {J} (JSON_parse : string -> JsError + J)
    (reply : ProviderReply) : option J :=
  match reply with
  | ChatCompletion _ content =>
      match JSON_parse content with inr json => Some json | inl _ => None end
  | ProviderRejects _ => None
  end.

(** The token set and the similarity of section 4.2 of the specification:
    "Jaccard similarity on whitespace-split token sets", on the page content
    as it is. *)
Definition spec_tokens (p : Page) : gset string :=
  list_to_set (split_spaces (page_content p)).

Definition spec_jaccard (p q : Page) : Q :=
  Helpers.jaccardSimilarity (spec_tokens p) (spec_tokens q).

(** The similarity the code computes: on the lower-cased content. *)
Definition similarity (p q : Page) : Q :=
  Helpers.jaccardSimilarity (ScraperService.words p) (ScraperService.words q).

(** What a lookup of the scrape cache yields, tier by tier. *)
Definition fast_tier (env : Env) (url : string) (w : World) : option ScrapeResult :=
  let key := CacheService.cacheKey env url in
  match io_fault env (RedisGET key) with
  | Some _ => None                       (* a failed read is a miss *)
  | None =>
      match Redis.lookup_key key (redis w) with
      | Some e => if Redis.alive env e then Some (redis_value e) else None
      | None => None
      end
  end.

Definition durable_tier (env : Env) (url : string) (w : World) : option ScrapeResult :=
  let h := Helpers.generateUrlHash env url in
  match List.filter (fun r => (CacheModel.has_hash h r
                               && (now env <? cache_expires_at r)%Z)%bool)
                    (scraping_cache w) with
  | first :: _ => Some (cache_content first)
  | [] => None
  end.

Definition lookup (env : Env) (url : string) (w : World) : option ScrapeResult :=
  let key := CacheService.cacheKey env url in
  let h := Helpers.generateUrlHash env url in
  match fast_tier env url w with
  | Some data => Some data
  | None =>
      match io_fault env (CacheSELECT h) with
      | Some _ => None
      | None =>
          match durable_tier env url w with
          | Some data =>
              match io_fault env (CacheTOUCH h), io_fault env (RedisSETEX key) with
              | None, None => Some data
              | _, _ => None
              end
          | None => None
          end
      end
  end.

(** Is the outcome the prerequisite-missing failure, with the world as it
    was? *)
Definition prerequisite_missing {A} (w : World) (out : Completion A * World) : Prop :=
  snd out = w
  /\ Stage1Routes.http_status_of (fst out) = 424%Z
  /\ Stage1Routes.error_code_of (fst out) = Some "UPSTREAM_ARTIFACT_MISSING".

(** The rows of the durable tier a lookup of hash [h] can return. *)
Definition readable (env : Env) (h : string) (r : CacheRow) : bool :=
  (CacheModel.has_hash h r && (now env <? cache_expires_at r)%Z)%bool.

(** The rows [getRun] can see: the identifier matches and the status is
    [active]. *)
Definition visible (runId : string) (r : Run) : bool :=
  (RunsModel.has_id runId r && RunStatus_eqb (status r) active)%bool.

(** No two pages at distinct positions are more than 80% similar. *)
Definition pairwise_dissimilar (l : list Page) : Prop :=
  forall (i j : nat) (p q : Page),
    i <> j -> l !! i = Some p -> l !! j = Some q -> (similarity p q <= 0.8)%Q.

(** The world after the effects [es] have been observed, the stores being
    as they were. *)
Definition observed (es : list Event) (w : World) : World :=
  {| runs := runs w; scraping_cache := scraping_cache w; redis := redis w;
     events := events w ++ es; uuids_drawn := uuids_drawn w;
     api_metrics := api_metrics w |}.

(** The effects of the attempts number [from + 1] to [from + count] of a
    [retry] over [n] attempts that all fail: each attempt is observed as
    [ev], and every attempt but the [n]-th is followed by a wait of
    [baseDelay * 2 ^ k] after attempt [k + 1]. *)
Definition backoff_trace (ev : Event) (baseDelay : Z) (n from count : nat)
  : list Event :=
  flat_map
    (fun k => ev :: (if Nat.ltb (S k) n
                     then [Slept (baseDelay * 2 ^ Z.of_nat k)%Z] else []))
    (seq from count).

(** The traffic of one call of the gateway, started in [w]: [calls] calls
    of the SDK, between one and three, and [requests] requests to the
    provider, between one and three per call; each request after the first
    of a call follows a wait of the SDK, and each call after the first a
    wait of [retry], of 2000 ms and then 4000 ms.  No reply before the last
    one parsed; the call returns exactly when the last reply parses, and
    then returns its JSON. *)
Definition gateway_traffic {J} (env : Env) (JSON_parse : string -> JsError + J)
    (prompt : Prompt) (w : World) (out : Completion J * World) : Prop :=
  exists calls requests : nat,
    (1 <= calls <= 3)%nat
    /\ (calls <= requests <= 3 * calls)%nat
    /\ provider_calls (snd out) = (provider_calls w + calls)%nat
    /\ http_requests (snd out) = (http_requests w + requests)%nat
    /\ sdk_backoffs (snd out) = (sdk_backoffs w + (requests - calls))%nat
    /\ sleeps (snd out) = sleeps w ++ firstn (calls - 1) [2000; 4000]%Z
    /\ (forall j, (j < requests - 1)%nat ->
          parsed_json JSON_parse (provider env (http_requests w + j) prompt) = None)
    /\ match fst out with
       | Return json =>
           parsed_json JSON_parse
             (provider env (http_requests w + requests - 1) prompt) = Some json
       | Throw _ =>
           calls = 3%nat
           /\ parsed_json JSON_parse
                (provider env (http_requests w + requests - 1) prompt) = None
       end.

(** The two failures of the LLM gateway, as the error handler reports
    them. *)
Definition gateway_failure (e : JsError) : Prop :=
  isAppError e = true
  /\ ((statusCode e = Some 503%Z /\ code e = Some "OPENAI_ERROR")
      \/ (statusCode e = Some 504%Z /\ code e = Some "OPENAI_TIMEOUT")).

(** What a service method of the gateway leaves behind, started in [w]: the
    stores as they were, its outcome recorded last. *)
Definition gateway_outcome {J} (endpoint : Endpoint) (w : World)
    (out : Completion J * World) : Prop :=
  (exists es, snd out = observed es w)
  /\ match fst out with
     | Return _ =>
         last (events (snd out)) = Some (OpenAICallRecorded endpoint "success")
     | Throw t =>
         last (events (snd out)) = Some (OpenAICallRecorded endpoint "error")
         /\ exists e, t = Exn e /\ gateway_failure e
     end.

(** The state of a pool that was initialized once: the entries are the
    objects 0 .. poolSize - 1, each under its own number, and the queue
    holds, without repetition, the numbers of the entries that are not in
    use. *)
Definition pool_consistent (p : BrowserPool.Pool) : Prop :=
  BrowserPool.initialized p = true
  /\ BrowserPool.browsers p = seq 0 (BrowserPool.poolSize p)
  /\ List.map BrowserPool.id (BrowserPool.heap p) = seq 0 (BrowserPool.poolSize p)
  /\ NoDup (BrowserPool.availableBrowsers p)
  /\ forall i, i ∈ BrowserPool.availableBrowsers p
               <-> BrowserPool.heap p !! i = Some (BrowserPool.mkBrowserObj i false).

(** The entries in use. *)
Definition held (p : BrowserPool.Pool) : list nat :=
  List.map BrowserPool.id (List.filter BrowserPool.inUse (BrowserPool.heap p)).

End Spec.

(* ===================================================================== *)
(** * Properties *)
(* ===================================================================== *)

Lemma Qlt_bool_iff (x y : Q) : Qlt_bool x y = true <-> (x < y)%Q.
Proof.
  unfold Qlt_bool. rewrite negb_true_iff. split.
  - intros H. apply Qnot_le_lt. intros Hle.
    apply Qle_bool_iff in Hle. congruence.
  - intros H. destruct (Qle_bool y x) eqn:E; [|reflexivity].
    apply Qle_bool_iff in E. exfalso. eapply Qlt_not_le; eauto.
Qed.

Lemma Qlt_bool_false_iff (x y : Q) : Qlt_bool x y = false <-> (y <= x)%Q.
Proof.
  unfold Qlt_bool. rewrite negb_false_iff. apply Qle_bool_iff.
Qed.

(** ** The run store *)

(** C1. [RunStore.Get] is expected to hide an active run whose deadline has
    passed.  [getRun] filters on the status only: whatever the clock and the
    deadline, the single active row of a table is returned; at the scenario
    clock the expired run is returned by [getRun] (no NotFound) although
    [getActiveRunsCount], which does compare [expires_at] with the clock,
    does not count it. *)
Theorem getRun_returns_expired_active_run :
  (forall (id : string) (created deadline : Z) (w : World),
      let row := {| run_id := id; created_at := created; updated_at := created;
                    expires_at := deadline; status := active;
                    brand_data := None; brand_summary := None;
                    competitors_10 := None; competitors_selected := None;
                    kernel_data := None; report_md := None; run_metadata := [] |} in
      StorageService.getRun id true (set_runs [row] w)
      = (Return (Some row), set_runs [row] w))
  /\ (expires_at Scenario.expired_run < now Scenario.offline)%Z
  /\ fst (StorageService.getRun "run_0a1b2c3d" true Scenario.world_with_expired_run)
     = Return (Some Scenario.expired_run)
  /\ fst (StorageService.getActiveRunsCount Scenario.offline
            Scenario.world_with_expired_run) = Return 0.
Proof.
  split; [|repeat split; vm_compute; reflexivity].
  intros id created deadline w row.
  unfold StorageService.getRun, RunsModel.getRun, bind, gets, ret. simpl.
  unfold RunsModel.has_id. simpl. rewrite String.eqb_refl. reflexivity.
Qed.

(** ** The LLM gateway *)

Section Gateway.
Variable env : Env.

Lemma provider_calls_emit (e : Event) (w : World) :
  provider_calls (snd (emit e w))
  = (provider_calls w + (if is_provider_call e then 1 else 0))%nat.
Proof.
  unfold provider_calls, emit, modify. simpl.
  rewrite List.filter_app, List.length_app. simpl.
  destruct (is_provider_call e); reflexivity.
Qed.

Lemma sleeps_emit (e : Event) (w : World) :
  sleeps (snd (emit e w))
  = sleeps w ++ match sleep_of e with Some ms => [ms] | None => [] end.
Proof.
  unfold sleeps, emit, modify. simpl. rewrite omap_app. simpl.
  destruct (sleep_of e); reflexivity.
Qed.

Ltac tally :=
  unfold provider_calls, sleeps; simpl;
  repeat rewrite ?List.filter_app, ?List.length_app, ?omap_app; simpl;
  rewrite ?app_nil_r; try lia; try reflexivity.

Ltac tally_requests :=
  unfold http_requests, sdk_backoffs; simpl;
  repeat rewrite ?List.filter_app, ?List.length_app; simpl;
  try lia; try reflexivity.

Lemma classify_never_client_error (e : JsError) :
  Helpers.is_client_error (OpenAIService.classify e) = false.
Proof.
  unfold OpenAIService.classify.
  repeat match goal with |- context [if ?b then _ else _] => destruct b end;
    reflexivity.
Qed.

Lemma http_requests_emit (e : Event) (w : World) :
  http_requests (snd (emit e w))
  = (http_requests w + (if is_http_request e then 1 else 0))%nat.
Proof.
  unfold http_requests, emit, modify. simpl.
  rewrite List.filter_app, List.length_app. simpl.
  destruct (is_http_request e); reflexivity.
Qed.

Lemma sdk_backoffs_emit (e : Event) (w : World) :
  sdk_backoffs (snd (emit e w))
  = (sdk_backoffs w + (if is_sdk_backoff e then 1 else 0))%nat.
Proof.
  unfold sdk_backoffs, emit, modify. simpl.
  rewrite List.filter_app, List.length_app. simpl.
  destruct (is_sdk_backoff e); reflexivity.
Qed.

Lemma sdk_request_step (retries : nat) (endpoint : Endpoint) (prompt : Prompt)
    (w : World) :
  OpenAIService.sdk_request env retries endpoint prompt w
  = match provider env (http_requests w) prompt with
    | ChatCompletion tokens content =>
        (Return (tokens, content), snd (emit (HttpRequestSent endpoint) w))
    | ProviderRejects e =>
        match retries with
        | S retries' =>
            if OpenAIService.sdk_shouldRetry e then
              OpenAIService.sdk_request env retries' endpoint prompt
                (snd (emit (SdkBackoff (OpenAIService.sdk_maxRetries - retries'))
                        (snd (emit (HttpRequestSent endpoint) w))))
            else (Throw (Exn e), snd (emit (HttpRequestSent endpoint) w))
        | O => (Throw (Exn e), snd (emit (HttpRequestSent endpoint) w))
        end
    end.
Proof. destruct retries; reflexivity. Qed.

(** One call of the SDK with [retries] retries left: it sends [k] requests,
    [1 <= k <= retries + 1], each but the first after a wait of its own;
    every request before the last was rejected with a failure to retry; the
    call returns the completion of the last reply, or throws the error of
    the last reply when no retry is left or the failure is not one to
    retry. *)
Lemma sdk_request_outcome (retries : nat) (endpoint : Endpoint) (prompt : Prompt)
    (w : World) :
  let out := OpenAIService.sdk_request env retries endpoint prompt w in
  exists k,
    (1 <= k <= S retries)%nat
    /\ http_requests (snd out) = (http_requests w + k)%nat
    /\ sdk_backoffs (snd out) = (sdk_backoffs w + (k - 1))%nat
    /\ provider_calls (snd out) = provider_calls w
    /\ sleeps (snd out) = sleeps w
    /\ (forall j, (j < k - 1)%nat ->
          exists e, provider env (http_requests w + j) prompt = ProviderRejects e)
    /\ match fst out with
       | Return (tokens, content) =>
           provider env (http_requests w + k - 1) prompt = ChatCompletion tokens content
       | Throw t =>
           exists e, t = Exn e
                     /\ provider env (http_requests w + k - 1) prompt = ProviderRejects e
                     /\ (k = S retries \/ OpenAIService.sdk_shouldRetry e = false)
       end.
Proof.
  assert (One : forall w,
            http_requests (snd (emit (HttpRequestSent endpoint) w))
            = (http_requests w + 1)%nat
            /\ sdk_backoffs (snd (emit (HttpRequestSent endpoint) w))
               = (sdk_backoffs w + (1 - 1))%nat
            /\ provider_calls (snd (emit (HttpRequestSent endpoint) w))
               = provider_calls w
            /\ sleeps (snd (emit (HttpRequestSent endpoint) w)) = sleeps w).
  { intros v. rewrite http_requests_emit, sdk_backoffs_emit, provider_calls_emit,
      sleeps_emit. simpl. rewrite app_nil_r. repeat split; lia. }
  revert w. induction retries as [|retries IH]; intros w out; subst out;
    rewrite sdk_request_step;
    destruct (provider env (http_requests w) prompt) as [tokens content|e] eqn:P.
  - exists 1%nat. cbn [fst snd]. destruct (One w) as (A & B & C & D).
    split; [lia|]. split; [exact A|]. split; [exact B|]. split; [exact C|].
    split; [exact D|]. split; [intros j Hj; lia|].
    replace (http_requests w + 1 - 1)%nat with (http_requests w) by lia. exact P.
  - exists 1%nat. cbn [fst snd]. destruct (One w) as (A & B & C & D).
    split; [lia|]. split; [exact A|]. split; [exact B|]. split; [exact C|].
    split; [exact D|]. split; [intros j Hj; lia|].
    replace (http_requests w + 1 - 1)%nat with (http_requests w) by lia.
    exists e. split; [reflexivity|]. split; [exact P|]. left. reflexivity.
  - exists 1%nat. cbn [fst snd]. destruct (One w) as (A & B & C & D).
    split; [lia|]. split; [exact A|]. split; [exact B|]. split; [exact C|].
    split; [exact D|]. split; [intros j Hj; lia|].
    replace (http_requests w + 1 - 1)%nat with (http_requests w) by lia. exact P.
  - destruct (OpenAIService.sdk_shouldRetry e) eqn:R.
    + set (w2 := snd (emit (SdkBackoff (OpenAIService.sdk_maxRetries - retries))
                        (snd (emit (HttpRequestSent endpoint) w)))).
      assert (H2 : http_requests w2 = S (http_requests w))
        by (subst w2; rewrite !http_requests_emit; simpl; lia).
      assert (B2 : sdk_backoffs w2 = S (sdk_backoffs w))
        by (subst w2; rewrite !sdk_backoffs_emit; simpl; lia).
      assert (C2 : provider_calls w2 = provider_calls w)
        by (subst w2; rewrite !provider_calls_emit; simpl; lia).
      assert (S2 : sleeps w2 = sleeps w)
        by (subst w2; rewrite !sleeps_emit; simpl; rewrite !app_nil_r; reflexivity).
      destruct (IH w2) as (k & Hk & Hh & Hb & Hc & Hs & Hbefore & Hlast).
      exists (S k). split; [lia|]. split; [lia|]. split; [lia|].
      split; [congruence|]. split; [congruence|]. split.
      { intros [|j] Hj.
        - exists e. rewrite Nat.add_0_r. exact P.
        - destruct (Hbefore j) as [e' He']; [lia|]. exists e'.
          rewrite H2 in He'. rewrite <- He'. f_equal. lia. }
      rewrite H2 in Hlast.
      replace (http_requests w + S k - 1)%nat with (S (http_requests w) + k - 1)%nat
        by lia.
      destruct (fst (OpenAIService.sdk_request env retries endpoint prompt w2))
        as [[tokens content]|t]; [exact Hlast|].
      destruct Hlast as (e' & -> & Pe & Hor). exists e'.
      split; [reflexivity|]. split; [exact Pe|].
      destruct Hor as [-> | Hn]; [left; reflexivity|right; exact Hn].
    + exists 1%nat. cbn [fst snd]. destruct (One w) as (A & B & C & D).
      split; [lia|]. split; [exact A|]. split; [exact B|]. split; [exact C|].
      split; [exact D|]. split; [intros j Hj; lia|].
      replace (http_requests w + 1 - 1)%nat with (http_requests w) by lia.
      exists e. split; [reflexivity|]. split; [exact P|]. right. exact R.
Qed.

Lemma callOpenAI_unfold {J} (JSON_parse : string -> JsError + J)
    (endpoint : Endpoint) (prompt : Prompt) (w : World) :
  OpenAIService.callOpenAI env JSON_parse endpoint prompt w
  = match OpenAIService.sdk_request env OpenAIService.sdk_maxRetries endpoint prompt
            (snd (emit (ProviderCalled endpoint) w)) with
    | (Return (tokens, content), w1) =>
        match JSON_parse content with
        | inr json => (Return json, snd (emit (TokensRecorded endpoint tokens) w1))
        | inl syntax_error =>
            (Throw (Exn (OpenAIService.classify syntax_error)),
             snd (emit (TokensRecorded endpoint tokens) w1))
        end
    | (Throw (Exn e), w1) => (Throw (Exn (OpenAIService.classify e)), w1)
    | (Throw Undefined, w1) =>
        (Throw (Exn {| name := "TypeError";
                       message := "Cannot read properties of undefined";
                       code := None; statusCode := None; Js.status := None;
                       details := NoDetails; isAppError := false |}), w1)
    end.
Proof.
  unfold OpenAIService.callOpenAI, OpenAIService.chat_completions_create, try_catch,
    bind, OpenAIService.recordOpenAITokens, emit, modify. cbn [snd].
  destruct (OpenAIService.sdk_request env OpenAIService.sdk_maxRetries endpoint prompt _)
    as [[[tokens content]|[e|]] w1]; [destruct (JSON_parse content)|..]; reflexivity.
Qed.

(** One attempt of [callOpenAI]: one call of the SDK and up to three
    requests; either the JSON of the last reply comes back, or the
    classified error is thrown. *)
Lemma callOpenAI_attempt {J} (JSON_parse : string -> JsError + J)
    (endpoint : Endpoint) (prompt : Prompt) (w : World) :
  let out := OpenAIService.callOpenAI env JSON_parse endpoint prompt w in
  exists k,
    (1 <= k <= 3)%nat
    /\ http_requests (snd out) = (http_requests w + k)%nat
    /\ sdk_backoffs (snd out) = (sdk_backoffs w + (k - 1))%nat
    /\ provider_calls (snd out) = S (provider_calls w)
    /\ sleeps (snd out) = sleeps w
    /\ (forall j, (j < k - 1)%nat ->
          Spec.parsed_json JSON_parse (provider env (http_requests w + j) prompt) = None)
    /\ match fst out with
       | Return json =>
           Spec.parsed_json JSON_parse (provider env (http_requests w + k - 1) prompt)
           = Some json
       | Throw t =>
           Spec.parsed_json JSON_parse (provider env (http_requests w + k - 1) prompt)
           = None
           /\ exists e, t = Exn (OpenAIService.classify e)
       end.
Proof.
  intros out. subst out. rewrite callOpenAI_unfold.
  set (w0 := snd (emit (ProviderCalled endpoint) w)).
  assert (H0 : http_requests w0 = http_requests w)
    by (subst w0; rewrite http_requests_emit; simpl; lia).
  assert (B0 : sdk_backoffs w0 = sdk_backoffs w)
    by (subst w0; rewrite sdk_backoffs_emit; simpl; lia).
  assert (C0 : provider_calls w0 = S (provider_calls w))
    by (subst w0; rewrite provider_calls_emit; simpl; lia).
  assert (S0 : sleeps w0 = sleeps w)
    by (subst w0; rewrite sleeps_emit; simpl; rewrite app_nil_r; reflexivity).
  destruct (sdk_request_outcome OpenAIService.sdk_maxRetries endpoint prompt w0)
    as (k & Hk & Hh & Hb & Hc & Hs & Hbefore & Hlast).
  rewrite H0 in Hh, Hbefore, Hlast. rewrite B0 in Hb. rewrite C0 in Hc.
  rewrite S0 in Hs. unfold OpenAIService.sdk_maxRetries in Hk.
  exists k.
  assert (Hnone : forall j, (j < k - 1)%nat ->
            Spec.parsed_json JSON_parse (provider env (http_requests w + j) prompt)
            = None).
  { intros j Hj. destruct (Hbefore j Hj) as [e ->]. reflexivity. }
  destruct (OpenAIService.sdk_request env OpenAIService.sdk_maxRetries endpoint prompt w0)
    as [[[tokens content]|t] w1] eqn:E; cbn [fst snd] in Hh, Hb, Hc, Hs, Hlast.
  - unfold Spec.parsed_json. rewrite Hlast.
    destruct (JSON_parse content) as [e|json]; cbn [fst snd];
      rewrite http_requests_emit, sdk_backoffs_emit, provider_calls_emit, sleeps_emit;
      cbn [is_http_request is_sdk_backoff is_provider_call sleep_of];
      rewrite app_nil_r, !Nat.add_0_r;
      (split; [lia|]); (split; [exact Hh|]); (split; [exact Hb|]);
      (split; [exact Hc|]); (split; [exact Hs|]); (split; [exact Hnone|]).
    + split; [reflexivity|]. exists e. reflexivity.
    + reflexivity.
  - destruct Hlast as (e & -> & Pe & _). cbn [fst snd].
    (split; [lia|]); (split; [exact Hh|]); (split; [exact Hb|]); (split; [exact Hc|]);
    (split; [exact Hs|]); (split; [exact Hnone|]).
    split; [rewrite Pe; reflexivity|]. exists e. reflexivity.
Qed.

(** Every request rejected with [e]: an attempt of [callOpenAI] sends three
    requests when [e] is a failure the SDK retries, one otherwise, and
    throws [classify e]. *)
Lemma callOpenAI_rejected {J} (JSON_parse : string -> JsError + J)
    (endpoint : Endpoint) (prompt : Prompt) (w : World) (e : JsError) :
  (forall n, provider env n prompt = ProviderRejects e) ->
  exists w',
    OpenAIService.callOpenAI env JSON_parse endpoint prompt w
    = (Throw (Exn (OpenAIService.classify e)), w')
    /\ provider_calls w' = S (provider_calls w)
    /\ sleeps w' = sleeps w
    /\ http_requests w'
       = (http_requests w + if OpenAIService.sdk_shouldRetry e then 3 else 1)%nat
    /\ sdk_backoffs w'
       = (sdk_backoffs w + if OpenAIService.sdk_shouldRetry e then 2 else 0)%nat
    /\ exists es, w' = Spec.observed es w.
Proof.
  intros H. rewrite callOpenAI_unfold. unfold OpenAIService.sdk_maxRetries.
  rewrite sdk_request_step, H. destruct (OpenAIService.sdk_shouldRetry e) eqn:R.
  - rewrite sdk_request_step, H, R, sdk_request_step, H.
    eexists. split; [reflexivity|].
    rewrite !provider_calls_emit, !sleeps_emit, !http_requests_emit, !sdk_backoffs_emit.
    cbn [is_http_request is_sdk_backoff is_provider_call sleep_of].
    rewrite !app_nil_r. split; [lia|]. split; [reflexivity|]. split; [lia|].
    split; [lia|].
    exists [ProviderCalled endpoint; HttpRequestSent endpoint;
            SdkBackoff (OpenAIService.sdk_maxRetries - 1); HttpRequestSent endpoint;
            SdkBackoff (OpenAIService.sdk_maxRetries - 0); HttpRequestSent endpoint].
    unfold Spec.observed. cbn. rewrite <- !app_assoc. reflexivity.
  - eexists. split; [reflexivity|].
    rewrite !provider_calls_emit, !sleeps_emit, !http_requests_emit, !sdk_backoffs_emit.
    cbn [is_http_request is_sdk_backoff is_provider_call sleep_of].
    rewrite !app_nil_r. split; [lia|]. split; [reflexivity|]. split; [lia|].
    split; [lia|].
    exists [ProviderCalled endpoint; HttpRequestSent endpoint].
    unfold Spec.observed. cbn. rewrite <- !app_assoc. reflexivity.
Qed.

Lemma retry_from_step {A} (fn : M World A) (maxAttempts : nat) (baseDelay : Z)
    (remaining attempt : nat) (lastError : Thrown) (w : World) :
  Helpers.retry_from fn maxAttempts baseDelay (S remaining) attempt lastError w
  = match fn w with
    | (Return x, w') => (Return x, w')
    | (Throw (Exn error), w') =>
        if Helpers.is_client_error error then (Throw (Exn error), w')
        else
          Helpers.retry_from fn maxAttempts baseDelay remaining (S attempt)
            (Exn error)
            (if Nat.ltb attempt maxAttempts
             then snd (Helpers.sleep (baseDelay * 2 ^ (Z.of_nat attempt - 1)) w')
             else w')
    | (Throw Undefined, w') =>
        (Throw (Exn {| name := "TypeError";
                       message := "Cannot read properties of undefined";
                       code := None; statusCode := None; Js.status := None;
                       details := NoDetails; isAppError := false |}), w')
    end.
Proof.
  simpl. unfold try_catch at 1.
  destruct (fn w) as [[x|[error|]] w']; try reflexivity.
  destruct (Helpers.is_client_error error); [reflexivity|].
  unfold bind. destruct (Nat.ltb attempt maxAttempts); reflexivity.
Qed.

Section GatewayCall.
Variable J : Type.
Variable JSON_parse : string -> JsError + J.
Variable endpoint : Endpoint.
Variable prompt : Prompt.

(** The loop of [retry] from attempt number [attempt] on, with [remaining]
    attempts left out of three. *)
Lemma retry_from_traffic (remaining attempt : nat) (lastError : Thrown) (w : World) :
  (attempt + remaining = 4)%nat -> (1 <= attempt)%nat -> (1 <= remaining)%nat ->
  let out :=
    Helpers.retry_from (OpenAIService.callOpenAI env JSON_parse endpoint prompt)
      3 2000 remaining attempt lastError w in
  exists calls requests : nat,
    (1 <= calls <= remaining)%nat
    /\ (calls <= requests <= 3 * calls)%nat
    /\ provider_calls (snd out) = (provider_calls w + calls)%nat
    /\ http_requests (snd out) = (http_requests w + requests)%nat
    /\ sdk_backoffs (snd out) = (sdk_backoffs w + (requests - calls))%nat
    /\ sleeps (snd out)
       = sleeps w ++ firstn (calls - 1) (skipn (attempt - 1) [2000; 4000]%Z)
    /\ (forall j, (j < requests - 1)%nat ->
          Spec.parsed_json JSON_parse (provider env (http_requests w + j) prompt) = None)
    /\ match fst out with
       | Return json =>
           Spec.parsed_json JSON_parse
             (provider env (http_requests w + requests - 1) prompt) = Some json
       | Throw _ =>
           calls = remaining
           /\ Spec.parsed_json JSON_parse
                (provider env (http_requests w + requests - 1) prompt) = None
       end.
Proof.
  revert attempt lastError w.
  induction remaining as [|r IH]; intros attempt lastError w Hsum Ha Hr out; [lia|].
  subst out. rewrite retry_from_step.
  destruct (callOpenAI_attempt JSON_parse endpoint prompt w)
    as (k & Hk & Hh & Hb & Hc & Hs & Hbefore & Hlast).
  destruct (OpenAIService.callOpenAI env JSON_parse endpoint prompt w)
    as [[json|t] w1] eqn:E; cbn [fst snd] in Hh, Hb, Hc, Hs, Hlast.
  - exists 1%nat, k. cbn [fst snd].
    split; [lia|]. split; [lia|]. split; [lia|]. split; [exact Hh|].
    split; [exact Hb|]. split; [cbn; rewrite app_nil_r; exact Hs|].
    split; [exact Hbefore|exact Hlast].
  - destruct Hlast as (Hlast & e & ->). rewrite classify_never_client_error.
    destruct r as [|r].
    + assert (attempt = 3)%nat as -> by lia.
      change (Nat.ltb 3 3) with false. cbv iota.
      cbn [Helpers.retry_from throw fst snd].
      exists 1%nat, k.
      split; [lia|]. split; [lia|]. split; [lia|]. split; [exact Hh|].
      split; [exact Hb|]. split; [cbn; rewrite app_nil_r; exact Hs|].
      split; [exact Hbefore|]. split; [reflexivity|exact Hlast].
    + assert (Hlt : Nat.ltb attempt 3 = true) by (apply Nat.ltb_lt; lia).
      rewrite Hlt. cbv iota.
      set (delay := (2000 * 2 ^ (Z.of_nat attempt - 1))%Z).
      set (w2 := snd (Helpers.sleep delay w1)).
      assert (H2 : http_requests w2 = (http_requests w + k)%nat)
        by (subst w2; unfold Helpers.sleep; rewrite http_requests_emit; simpl; lia).
      assert (B2 : sdk_backoffs w2 = (sdk_backoffs w + (k - 1))%nat)
        by (subst w2; unfold Helpers.sleep; rewrite sdk_backoffs_emit; simpl; lia).
      assert (C2 : provider_calls w2 = S (provider_calls w))
        by (subst w2; unfold Helpers.sleep; rewrite provider_calls_emit; simpl; lia).
      assert (S2 : sleeps w2 = sleeps w ++ [delay])
        by (subst w2; unfold Helpers.sleep; rewrite sleeps_emit, Hs; reflexivity).
      destruct (IH (S attempt) (Exn (OpenAIService.classify e)) w2)
        as (calls & requests & Hcalls & Hreq & Pc & Ph & Pb & Ps & Pbefore & Plast);
        [lia|lia|lia|].
      exists (S calls), (k + requests)%nat.
      split; [lia|]. split; [lia|]. split; [lia|]. split; [lia|]. split; [lia|].
      split.
      { rewrite Ps, S2, <- app_assoc. f_equal.
        replace (S attempt - 1)%nat with attempt by lia.
        replace (S calls - 1)%nat with calls by lia.
        destruct calls as [|calls]; [lia|]. subst delay.
        replace (S calls - 1)%nat with calls by lia.
        destruct attempt as [|[|[|attempt]]]; try lia.
        - change (2000 * 2 ^ (Z.of_nat 1 - 1))%Z with 2000%Z. reflexivity.
        - change (2000 * 2 ^ (Z.of_nat 2 - 1))%Z with 4000%Z.
          destruct calls; reflexivity. }
      assert (Hidx : forall j, (k <= j)%nat ->
                (http_requests w2 + (j - k) = http_requests w + j)%nat) by (intros; lia).
      split.
      { intros j Hj. destruct (Nat.lt_ge_cases j (k - 1)) as [L|G]; [apply Hbefore; exact L|].
        destruct (Nat.eq_dec j (k - 1)) as [-> | N].
        - replace (http_requests w + (k - 1))%nat with (http_requests w + k - 1)%nat
            by lia. exact Hlast.
        - rewrite <- (Hidx j) by lia. apply Pbefore. lia. }
      replace (http_requests w + (k + requests) - 1)%nat
        with (http_requests w2 + requests - 1)%nat by lia.
      destruct (fst (Helpers.retry_from
                       (OpenAIService.callOpenAI env JSON_parse endpoint prompt)
                       3 2000 (S r) (S attempt) (Exn (OpenAIService.classify e)) w2)).
      * exact Plast.
      * destruct Plast as [-> Pl]. split; [reflexivity|exact Pl].
Qed.

Lemma call_with_retry_traffic (w : World) :
  Spec.gateway_traffic env JSON_parse prompt w
    (OpenAIService.call_with_retry env JSON_parse endpoint prompt w).
Proof.
  unfold Spec.gateway_traffic, OpenAIService.call_with_retry, Helpers.retry.
  destruct (retry_from_traffic (remaining := 3) (attempt := 1) Undefined w)
    as (calls & requests & H); [lia|lia|lia|].
  exists calls, requests. exact H.
Qed.

(** The bookkeeping of a service method records the outcome and changes
    no count. *)
Lemma recorded_counts (call : M World J) (w : World) :
  let out := OpenAIService.recorded endpoint call w in
  provider_calls (snd out) = provider_calls (snd (call w))
  /\ http_requests (snd out) = http_requests (snd (call w))
  /\ sdk_backoffs (snd out) = sdk_backoffs (snd (call w))
  /\ sleeps (snd out) = sleeps (snd (call w))
  /\ fst out = fst (call w).
Proof.
  unfold OpenAIService.recorded, try_catch, bind, OpenAIService.recordOpenAICall.
  destruct (call w) as [[x|t] w1]; unfold emit, modify, ret, throw; cbn [fst snd];
    (split; [tally|]); (split; [tally_requests|]); (split; [tally_requests|]);
    (split; [tally|reflexivity]).
Qed.

Lemma recorded_traffic (w : World) :
  Spec.gateway_traffic env JSON_parse prompt w
    (OpenAIService.recorded endpoint
       (OpenAIService.call_with_retry env JSON_parse endpoint prompt) w).
Proof.
  destruct (call_with_retry_traffic w)
    as (calls & requests & A & B & C & D & E & F & G & H).
  destruct (recorded_counts
              (OpenAIService.call_with_retry env JSON_parse endpoint prompt) w)
    as (C' & D' & E' & F' & R').
  exists calls, requests. rewrite C', D', E', F', R'.
  repeat (split; [assumption|]). exact H.
Qed.

(** Every request rejected with [e]: three attempts, each of three requests
    when [e] is a failure the SDK retries and of one otherwise, and the
    waits of [retry] in between. *)
Lemma call_with_retry_rejected (w : World) (e : JsError) :
  (forall n, provider env n prompt = ProviderRejects e) ->
  let out := OpenAIService.call_with_retry env JSON_parse endpoint prompt w in
  fst out = Throw (Exn (OpenAIService.classify e))
  /\ provider_calls (snd out) = (provider_calls w + 3)%nat
  /\ sleeps (snd out) = sleeps w ++ [2000; 4000]%Z
  /\ http_requests (snd out)
     = (http_requests w + if OpenAIService.sdk_shouldRetry e then 9 else 3)%nat
  /\ sdk_backoffs (snd out)
     = (sdk_backoffs w + if OpenAIService.sdk_shouldRetry e then 6 else 0)%nat.
Proof.
  intros H out. subst out. unfold OpenAIService.call_with_retry, Helpers.retry.
  destruct (callOpenAI_rejected JSON_parse endpoint w H)
    as (w1 & E1 & C1 & S1 & H1 & B1 & _).
  rewrite retry_from_step, E1, classify_never_client_error.
  change (Nat.ltb 1 3) with true. cbv iota.
  change (2000 * 2 ^ (Z.of_nat 1 - 1))%Z with 2000%Z.
  set (v1 := snd (Helpers.sleep 2000 w1)).
  destruct (callOpenAI_rejected JSON_parse endpoint v1 H)
    as (w2 & E2 & C2 & S2 & H2 & B2 & _).
  rewrite retry_from_step, E2, classify_never_client_error.
  change (Nat.ltb 2 3) with true. cbv iota.
  change (2000 * 2 ^ (Z.of_nat 2 - 1))%Z with 4000%Z.
  set (v2 := snd (Helpers.sleep 4000 w2)).
  destruct (callOpenAI_rejected JSON_parse endpoint v2 H)
    as (w3 & E3 & C3 & S3 & H3 & B3 & _).
  rewrite retry_from_step, E3, classify_never_client_error.
  change (Nat.ltb 3 3) with false. cbv iota.
  cbn [Helpers.retry_from throw fst snd].
  subst v1 v2. unfold Helpers.sleep in *.
  rewrite provider_calls_emit in C2, C3. rewrite sleeps_emit in S2, S3.
  rewrite http_requests_emit in H2, H3. rewrite sdk_backoffs_emit in B2, B3.
  cbn [is_provider_call is_http_request is_sdk_backoff sleep_of] in *.
  split; [reflexivity|]. split; [lia|].
  split; [rewrite S3, S2, S1, <- app_assoc; reflexivity|].
  destruct (OpenAIService.sdk_shouldRetry e); split; lia.
Qed.

End GatewayCall.

End Gateway.

(** C8. A call of the gateway is expected to make between one and three
    outbound requests, with waits of 2 s and then 4 s between them.  Each of
    the four service methods makes between one and three calls of the SDK,
    [retry] waiting 2000 ms and then 4000 ms between them, and the call whose
    last reply parses ends the sequence with that JSON; but each call of the
    SDK sends up to three requests, the SDK resending by its default policy
    after a wait of its own, so a call of the gateway sends up to nine.
    When the provider answers every request 500 (or 429, or any status the
    SDK retries), [analyzeBrand] sends nine requests, six of them by the SDK
    after its own waits, before it fails with 503; for a status the SDK does
    not retry, such as 401, it sends three. *)
Theorem gateway_call_sends_up_to_nine_requests :
  forall (env : Env) (w : World),
    (forall scrapedData,
        Spec.gateway_traffic env (JSON_parse_analysis env) (BrandPrompt scrapedData) w
          (OpenAIService.analyzeBrand env scrapedData w))
    /\ (forall brandData,
           Spec.gateway_traffic env (JSON_parse_discovery env)
             (CompetitorsPrompt brandData) w
             (OpenAIService.findCompetitors env brandData w))
    /\ (forall domain scrapedData,
           Spec.gateway_traffic env (JSON_parse_analysis env)
             (CompetitorAnalysisPrompt domain scrapedData) w
             (OpenAIService.analyzeCompetitor env domain scrapedData w))
    /\ (forall brand competitors,
           Spec.gateway_traffic env (JSON_parse_kernel env)
             (KernelPrompt brand competitors) w
             (OpenAIService.assembleKernel env brand competitors w))
    /\ (forall (http : Z) scrapedData,
           let out :=
             OpenAIService.analyzeBrand (Scenario.env_provider_rejecting http)
               scrapedData w in
           let resent := OpenAIService.sdk_shouldRetry (Scenario.api_error http) in
           provider_calls (snd out) = (provider_calls w + 3)%nat
           /\ sleeps (snd out) = sleeps w ++ [2000; 4000]%Z
           /\ http_requests (snd out)
              = (http_requests w + if resent then 9 else 3)%nat
           /\ sdk_backoffs (snd out) = (sdk_backoffs w + if resent then 6 else 0)%nat
           /\ fst out = Throw (Exn (OpenAIService.classify (Scenario.api_error http))))
    /\ statusCode (OpenAIService.classify (Scenario.api_error 500)) = Some 503%Z
    /\ OpenAIService.sdk_shouldRetry (Scenario.api_error 500) = true
    /\ OpenAIService.sdk_shouldRetry (Scenario.api_error 429) = true
    /\ OpenAIService.sdk_shouldRetry (Scenario.api_error 401) = false.
Proof.
  intros env w.
  split; [intros; apply recorded_traffic|].
  split; [intros; apply recorded_traffic|].
  split; [intros; apply recorded_traffic|].
  split; [intros; apply recorded_traffic|].
  split; [|repeat split].
  intros http scrapedData out resent. subst out resent.
  unfold OpenAIService.analyzeBrand.
  destruct (recorded_counts brand_analysis
              (OpenAIService.call_with_retry (Scenario.env_provider_rejecting http)
                 (JSON_parse_analysis (Scenario.env_provider_rejecting http))
                 brand_analysis (BrandPrompt scrapedData)) w)
    as (C & H & B & S & R).
  destruct (@call_with_retry_rejected (Scenario.env_provider_rejecting http) _
              (JSON_parse_analysis (Scenario.env_provider_rejecting http))
              brand_analysis (BrandPrompt scrapedData) w
              (Scenario.api_error http) (fun _ => eq_refl))
    as (R' & C' & S' & H' & B').
  rewrite C, H, B, S, R.
  split; [exact C'|]. split; [exact S'|]. split; [exact H'|]. split; [exact B'|].
  exact R'.
Qed.

(** The provider down (every request answered 500), one call of
    [analyzeBrand] from the empty store: nine requests in three calls of the
    SDK, and the reply to the caller is 503. *)
Lemma analyzeBrand_with_the_provider_down :
  http_requests
    (snd (OpenAIService.analyzeBrand Scenario.offline Scenario.empty_scrape
            Scenario.empty_world)) = 9%nat
  /\ provider_calls
       (snd (OpenAIService.analyzeBrand Scenario.offline Scenario.empty_scrape
               Scenario.empty_world)) = 3%nat
  /\ sdk_backoffs
       (snd (OpenAIService.analyzeBrand Scenario.offline Scenario.empty_scrape
               Scenario.empty_world)) = 6%nat
  /\ sleeps
       (snd (OpenAIService.analyzeBrand Scenario.offline Scenario.empty_scrape
               Scenario.empty_world)) = [2000; 4000]%Z
  /\ Stage1Routes.http_status_of
       (fst (OpenAIService.analyzeBrand Scenario.offline Scenario.empty_scrape
               Scenario.empty_world)) = 503%Z.
Proof. repeat split; vm_compute; reflexivity. Qed.

(** C2. A 4xx reply other than 429, and a 401 in particular, is expected to
    end the call after one request.  Whatever HTTP status the provider
    rejects every request with, the gateway calls the provider three times
    (three requests for a status the SDK does not resend on, such as 401)
    and waits 2000 ms and 4000 ms in between: [callOpenAI] rethrows the
    failure as an [OpenAIError], whose [statusCode] is 503, so the 4xx test
    of [retry] never fires.  For 401 the error finally thrown is "Invalid
    OpenAI API key". *)
Theorem rejected_requests_are_retried :
  forall (http : Z) (J : Type) (JSON_parse : string -> JsError + J)
         (endpoint : Endpoint) (prompt : Prompt) (w : World),
    let env := Scenario.env_provider_rejecting http in
    let out := OpenAIService.call_with_retry env JSON_parse endpoint prompt w in
    provider_calls (snd out) = (provider_calls w + 3)%nat
    /\ sleeps (snd out) = sleeps w ++ [2000; 4000]%Z
    /\ fst out = Throw (Exn (OpenAIService.classify (Scenario.api_error http)))
    /\ OpenAIService.classify (Scenario.api_error 401)
       = Errors.OpenAIError "Invalid OpenAI API key" (ProviderStatus 401)
    /\ statusCode (OpenAIService.classify (Scenario.api_error 401)) = Some 503%Z
    /\ Helpers.is_client_error (OpenAIService.classify (Scenario.api_error 401)) = false.
Proof.
  intros http J JSON_parse endpoint prompt w env out.
  destruct (@call_with_retry_rejected env _ JSON_parse endpoint prompt w
              (Scenario.api_error http) (fun _ => eq_refl))
    as (R & C & S & _).
  fold out in R, C, S.
  split; [exact C|]. split; [exact S|]. split; [exact R|].
  repeat split; vm_compute; reflexivity.
Qed.

(** ** The evidence validator *)

Lemma num_of_nat_nonneg (n : nat) : (0 <= num_of_nat n)%Q.
Proof.
  unfold num_of_nat. change 0%Q with (inject_Z 0). rewrite <- Zle_Qle. lia.
Qed.

Lemma num_of_nat_pos (n : nat) : (0 < n)%nat -> (0 < num_of_nat n)%Q.
Proof.
  intros H. unfold num_of_nat. change 0%Q with (inject_Z 0).
  rewrite <- Zlt_Qlt. lia.
Qed.

Lemma ratio_bounds (i t : nat) :
  (i <= t)%nat -> (0 < t)%nat ->
  (0 <= num_of_nat i / num_of_nat t <= 1)%Q.
Proof.
  intros Hit Ht. pose proof (num_of_nat_pos Ht) as Hpos. split.
  - apply Qle_shift_div_l; [assumption|]. rewrite Qmult_0_l. apply num_of_nat_nonneg.
  - apply Qle_shift_div_r; [assumption|]. rewrite Qmult_1_l.
    unfold num_of_nat. rewrite <- Zle_Qle. lia.
Qed.

Lemma ratio_pos (i t : nat) :
  (0 < i)%nat -> (0 < t)%nat -> (0 < num_of_nat i / num_of_nat t)%Q.
Proof.
  intros Hi Ht. apply Qlt_shift_div_l; [apply num_of_nat_pos; assumption|].
  rewrite Qmult_0_l. apply num_of_nat_pos; assumption.
Qed.

Lemma penalty_bounds (i t : nat) :
  (i <= t)%nat ->
  (0 <= EvidenceService.calculateConfidencePenalty i t <= 0.3)%Q
  /\ (EvidenceService.calculateConfidencePenalty i t == 0 <-> i = 0%nat \/ t = 0%nat)%Q.
Proof.
  intros Hit. unfold EvidenceService.calculateConfidencePenalty.
  destruct (Nat.eqb_spec t 0) as [-> | Ht].
  - split; [split; [apply Qle_refl | discriminate]|]. split; [intros _; now right|reflexivity].
  - assert (0 < t)%nat as Hpos by lia.
    destruct (ratio_bounds Hit Hpos) as [Hlo Hhi].
    set (ratio := (num_of_nat i / num_of_nat t)%Q) in *.
    destruct (Q.min_spec (ratio * 0.3) 0.3) as [[Hlt Heq]|[Hle Heq]]; rewrite Heq.
    + split; [split; lra|]. split.
      * intros H0. left. destruct i; [reflexivity|]. exfalso.
        assert (0 < ratio)%Q by (apply ratio_pos; lia). lra.
      * intros [-> | ->]; [|lia]. subst ratio. unfold num_of_nat. simpl.
        unfold Qdiv. rewrite Qmult_0_l. reflexivity.
    + split; [split; lra|]. split.
      * intros H0. exfalso. lra.
      * intros [-> | ->]; [|lia]. exfalso. subst ratio. unfold num_of_nat in Hle.
        simpl in Hle. unfold Qdiv in Hle. rewrite !Qmult_0_l in Hle. lra.
Qed.

(** C4 (as amended). For every list of evidence URLs, with [t] URLs of
    which [i] are invalid: [i <= t]; the penalty is 0 when [t = 0] and
    [min (i/t * 0.3) 0.3] otherwise; it lies in [0, 0.3]; and it is 0 exactly
    when no URL of the list is invalid (in particular for the empty list). *)
Theorem penalty_formula_and_bounds :
  forall (api : UrlApi) (env : Env) (urls : list string)
         (allowedDomains : list (option string)),
    let check := EvidenceService.checkEvidenceRefs env urls allowedDomains in
    let i := length (invalid check) in
    let t := length urls in
    (i <= t)%nat
    /\ (confidence_penalty check ==
        if Nat.eqb t 0 then 0
        else Qmin (num_of_nat i / num_of_nat t * 0.3) 0.3)%Q
    /\ (0 <= confidence_penalty check <= 0.3)%Q
    /\ (confidence_penalty check == 0 <-> invalid check = [])%Q.
Proof.
  intros api env urls allowedDomains check i t.
  assert (Hit : (i <= t)%nat).
  { subst i t check. unfold EvidenceService.checkEvidenceRefs.
    destruct (Nat.eqb (length urls) 0); simpl; [lia|].
    rewrite List.length_map.
    etransitivity; [apply List.filter_length_le|]. rewrite List.length_map. lia. }
  assert (Hpen : (confidence_penalty check
                  == EvidenceService.calculateConfidencePenalty i t)%Q).
  { subst i t check. unfold EvidenceService.checkEvidenceRefs.
    destruct (Nat.eqb_spec (length urls) 0) as [E|E]; simpl.
    - rewrite E. reflexivity.
    - reflexivity. }
  destruct (penalty_bounds Hit) as [Hb Hz].
  split; [exact Hit|]. split; [|split].
  - rewrite Hpen. unfold EvidenceService.calculateConfidencePenalty. reflexivity.
  - rewrite Hpen. exact Hb.
  - rewrite Hpen, Hz. split.
    + intros [H|H].
      * destruct (invalid check); [reflexivity|discriminate].
      * assert (i = 0)%nat by lia. destruct (invalid check); [reflexivity|discriminate].
    + intros H. left. subst i. rewrite H. reflexivity.
Qed.

(** C4 (as stated) fails: a non-empty list whose only URL is valid has
    penalty 0. *)
Lemma penalty_zero_on_nonempty_valid_list :
  valid Scenario.check_of_one_valid_citation = Scenario.one_valid_citation
  /\ ~ ((confidence_penalty Scenario.check_of_one_valid_citation == 0)%Q
        <-> Scenario.one_valid_citation = []).
Proof.
  split; [vm_compute; reflexivity|].
  intros [H _]. assert (E : Scenario.one_valid_citation = []).
  { apply H. vm_compute. reflexivity. }
  discriminate E.
Qed.

(** ** The confidence gate of BrandSummary *)


(** The gate on doubles, where an exact computation gives 0.6: an analysis
    of reported confidence 0.8775 with 37 of its 40 citations invalid.  The
    penalty is 0.2775 and [0.8775 - 0.2775] is 0.6 on the rationals, so the
    phase replies; on doubles the penalty is 0.27750000000000002 and the
    difference 0.5999999999999999 (5404319552844594 / 2^53), one unit in the
    last place below the double of 0.6 (5404319552844595 / 2^53), so the
    phase fails with 422. *)
Lemma gate_on_doubles_near_the_threshold :
  (confidence_penalty
     (EvidenceService.checkEvidenceRefs (rounding := exact_arithmetic)
        Scenario.env_web_ok Scenario.forty_citations [Some "example.com"])
   == 0.2775)%Q
  /\ Stage1Routes.http_status_of
       (fst (Stage1Routes.brandSummary_conclude (rounding := exact_arithmetic)
               Scenario.env_web_ok (Some "example.com") Scenario.expired_run
               Scenario.empty_scrape Scenario.analysis_0_8775
               Scenario.world_with_expired_run)) = 200%Z
  /\ confidence_penalty
       (EvidenceService.checkEvidenceRefs (rounding := binary64)
          Scenario.env_web_ok Scenario.forty_citations [Some "example.com"])
     = (4998995586381251 # 18014398509481984)%Q
  /\ round (Rounding := binary64) 0.6 = (5404319552844595 # 9007199254740992)%Q
  /\ (exists invalidEvidence,
         length invalidEvidence = 37%nat
         /\ Stage1Routes.brandSummary_conclude (rounding := binary64)
              Scenario.env_web_ok (Some "example.com") Scenario.expired_run
              Scenario.empty_scrape Scenario.analysis_0_8775
              Scenario.world_with_expired_run
            = (Throw (Exn (Errors.LowConfidenceError "Analysis confidence too low"
                             (ConfidenceDetails
                                (2702159776422297 # 4503599627370496)
                                invalidEvidence))),
               Scenario.world_with_expired_run))
  /\ Stage1Routes.http_status_of
       (fst (Stage1Routes.brandSummary_conclude (rounding := binary64)
               Scenario.env_web_ok (Some "example.com") Scenario.expired_run
               Scenario.empty_scrape Scenario.analysis_0_8775
               Scenario.world_with_expired_run)) = 422%Z.
Proof.
  split; [vm_compute; reflexivity|]. split; [vm_compute; reflexivity|].
  split; [vm_compute; reflexivity|]. split; [vm_compute; reflexivity|].
  split; [|vm_compute; reflexivity].
  eexists. split; [|vm_compute; reflexivity]. vm_compute. reflexivity.
Qed.

(** ** The phase gate *)

Lemma getRun_unknown (runId : string) (w : World) :
  List.find (fun r => (RunsModel.has_id runId r
                       && RunStatus_eqb (status r) active)%bool) (runs w) = None ->
  StorageService.getRun runId true w
  = (Throw (Exn (Errors.UpstreamArtifactMissingError
                   ("Run not found: " +:+ runId) NoDetails)), w).
Proof.
  intros H. unfold StorageService.getRun, RunsModel.getRun, bind, gets.
  rewrite H. reflexivity.
Qed.

Lemma getRun_known (runId : string) (w : World) (run : Run) :
  List.find (fun r => (RunsModel.has_id runId r
                       && RunStatus_eqb (status r) active)%bool) (runs w) = Some run ->
  StorageService.getRun runId true w = (Return (Some run), w).
Proof.
  intros H. unfold StorageService.getRun, RunsModel.getRun, bind, gets.
  rewrite H. reflexivity.
Qed.

(** For a request that passes the schema check, an unknown run identifier
    fails each non-initial phase with 424 UPSTREAM_ARTIFACT_MISSING and
    leaves the world, the run store included, as it was. *)
Lemma phase_gate_unknown_run (api : UrlApi) (env : Env) (w : World) :
  (forall b, Validation.validateCompetitors b = true ->
     RunsModel.getRun (Validation.comp_run_id b) w = (Return None, w) ->
     Spec.prerequisite_missing w (Stage1Routes.competitors_route env b w))
  /\ (forall b, Validation.validateCompetitorsAnalyze b = true ->
     RunsModel.getRun (Validation.analyze_run_id b) w = (Return None, w) ->
     Spec.prerequisite_missing w (Stage1Routes.competitorsAnalyze env b w))
  /\ (forall b, Validation.validateKernel b = true ->
     RunsModel.getRun (Validation.kernel_run_id b) w = (Return None, w) ->
     Spec.prerequisite_missing w (Stage1Routes.kernel_route env b w)).
Proof.
  split; [|split]; intros b Hv Hg;
    unfold Stage1Routes.competitors_route, Stage1Routes.competitorsAnalyze,
      Stage1Routes.kernel_route, Validation.validate, StorageService.getRun;
    rewrite Hv; unfold bind at 1; simpl; unfold bind; rewrite Hg;
    unfold Spec.prerequisite_missing; simpl; repeat split.
Qed.

(** A known run whose required slot was never written fails the same way. *)
Lemma phase_gate_absent_slot (api : UrlApi) (env : Env) (w : World) (run : Run) :
  (forall b, Validation.validateCompetitors b = true ->
     RunsModel.getRun (Validation.comp_run_id b) w = (Return (Some run), w) ->
     brand_data run = None ->
     Spec.prerequisite_missing w (Stage1Routes.competitors_route env b w))
  /\ (forall b, Validation.validateCompetitorsAnalyze b = true ->
     RunsModel.getRun (Validation.analyze_run_id b) w = (Return (Some run), w) ->
     competitors_10 run = None ->
     Spec.prerequisite_missing w (Stage1Routes.competitorsAnalyze env b w))
  /\ (forall b, Validation.validateKernel b = true ->
     RunsModel.getRun (Validation.kernel_run_id b) w = (Return (Some run), w) ->
     brand_data run = None \/ competitors_selected run = None
       \/ competitors_selected run = Some [] ->
     Spec.prerequisite_missing w (Stage1Routes.kernel_route env b w)).
Proof.
  split; [|split]; intros b Hv Hg Hs;
    unfold Stage1Routes.competitors_route, Stage1Routes.competitorsAnalyze,
      Stage1Routes.kernel_route, Validation.validate, StorageService.getRun;
    rewrite Hv; unfold bind at 1; simpl; unfold bind; rewrite Hg; simpl;
    unfold Spec.prerequisite_missing;
    try (rewrite Hs; simpl; repeat split; fail).
  destruct Hs as [Hs|[Hs|Hs]]; rewrite ?Hs; simpl; try (repeat split; fail);
    destruct (brand_data run); try rewrite Hs; simpl; repeat split.
Qed.

(** C6. The testing guide of the repository expects
    [POST /v1/kernel {"run_id": "run_fake-id"}] to fail with 424
    UPSTREAM_ARTIFACT_MISSING.  The identifier does not match
    [^run_[a-f0-9-]+$] (the letter k), so in every environment and world the
    request is rejected by the schema check with 400 VALIDATION_ERROR before
    the run store is consulted; the world is left as it was.  The same
    identifier is rejected by the two other non-initial phases. *)
Theorem unknown_run_id_of_the_guide_is_rejected_as_invalid :
  forall (api : UrlApi) (env : Env) (w : World),
    let out := Stage1Routes.kernel_route env (Validation.mkKernelBody "run_fake-id") w in
    Validation.matches_run_id_pattern "run_fake-id" = false
    /\ out = (Throw (Exn (Errors.ValidationError "Kernel Request validation failed"
                            (ValidationDetails "Kernel Request"))), w)
    /\ Stage1Routes.http_status_of (fst out) = 400%Z
    /\ Stage1Routes.error_code_of (fst out) = Some "VALIDATION_ERROR"
    /\ Stage1Routes.http_status_of
         (fst (Stage1Routes.competitors_route env
                 (Validation.mkCompetitorsBody "example.com" "run_fake-id") w)) = 400%Z
    /\ Stage1Routes.http_status_of
         (fst (Stage1Routes.competitorsAnalyze env
                 (Validation.mkCompetitorsAnalyzeBody "run_fake-id" ["example.com"]) w))
       = 400%Z.
Proof.
  intros api env w out. repeat split.
Qed.

(** The gate of CompetitorsAnalyze tests the slot for [null] only: a run
    whose discovery kept no candidate passes it, and the phase goes on to
    scrape (here the scrape fails, the web being down), whereas the gate of
    Kernel also refuses an empty list. *)
Lemma analyze_gate_admits_empty_candidate_list :
  Stage1Routes.error_code_of
    (fst (Stage1Routes.competitorsAnalyze Scenario.offline
            (Validation.mkCompetitorsAnalyzeBody "run_0a1b2c3d" ["example.com"])
            Scenario.world_without_candidates))
  = Some "INSUFFICIENT_DATA".
Proof. vm_compute. reflexivity. Qed.

(** ** Deduplication *)

Lemma jaccardSimilarity_sym (a b : gset string) :
  Helpers.jaccardSimilarity a b = Helpers.jaccardSimilarity b a.
Proof.
  unfold Helpers.jaccardSimilarity.
  assert (E : filter (fun x => x ∈ b) a = filter (fun x => x ∈ a) b).
  { apply set_eq. intros x. rewrite !elem_of_filter. tauto. }
  rewrite E. rewrite (comm_L (∪) a b). reflexivity.
Qed.

Lemma similarity_sym (p q : Page) : Spec.similarity p q = Spec.similarity q p.
Proof. apply jaccardSimilarity_sym. Qed.

Lemma isDuplicate_iff (unique : list Page) (p : Page) :
  ScraperService.isDuplicate unique p = true
  <-> exists u, In u unique /\ (0.8 < Spec.similarity p u)%Q.
Proof.
  unfold ScraperService.isDuplicate. rewrite existsb_exists.
  split; intros (u & Hin & H); exists u; (split; [exact Hin|]);
    apply Qlt_bool_iff; exact H.
Qed.

Lemma isDuplicate_false (unique : list Page) (p u : Page) :
  ScraperService.isDuplicate unique p = false -> In u unique ->
  (Spec.similarity p u <= 0.8)%Q.
Proof.
  intros H Hin. apply Qnot_lt_le. intros Hlt.
  assert (ScraperService.isDuplicate unique p = true)
    by (apply isDuplicate_iff; eauto).
  congruence.
Qed.

Lemma dedup_loop_extends (rest unique : list Page) :
  exists kept, ScraperService.dedup_loop unique rest = unique ++ kept
               /\ sublist kept rest.
Proof.
  revert unique. induction rest as [|p rest IH]; intros unique; simpl.
  - exists []. rewrite app_nil_r. split; [reflexivity|constructor].
  - destruct (ScraperService.isDuplicate unique p).
    + destruct (IH unique) as (kept & E & S). exists kept.
      split; [exact E|]. apply sublist_cons. exact S.
    + destruct (IH (unique ++ [p])) as (kept & E & S). exists (p :: kept).
      split; [rewrite E, <- app_assoc; reflexivity|].
      apply sublist_skip. exact S.
Qed.

Lemma pairwise_dissimilar_snoc (unique : list Page) (p : Page) :
  Spec.pairwise_dissimilar unique ->
  ScraperService.isDuplicate unique p = false ->
  Spec.pairwise_dissimilar (unique ++ [p]).
Proof.
  intros HP Hd i j a b Hij Hi Hj.
  assert (Hlast : forall k x, (unique ++ [p]) !! k = Some x ->
            (unique !! k = Some x /\ (k < length unique)%nat)
            \/ (k = length unique /\ x = p)).
  { intros k x Hk. destruct (Nat.lt_ge_cases k (length unique)) as [Hlt|Hge].
    - left. rewrite lookup_app_l in Hk by exact Hlt. auto.
    - right. rewrite lookup_app_r in Hk by exact Hge.
      destruct (k - length unique)%nat eqn:E; simpl in Hk; [|discriminate].
      split; [lia|congruence]. }
  destruct (Hlast _ _ Hi) as [[Hi' Li]|[Ei ->]];
    destruct (Hlast _ _ Hj) as [[Hj' Lj]|[Ej ->]].
  - eapply HP; eauto.
  - rewrite similarity_sym. eapply isDuplicate_false; [exact Hd|].
    apply list_elem_of_In. eapply list_elem_of_lookup_2; eauto.
  - eapply isDuplicate_false; [exact Hd|].
    apply list_elem_of_In. eapply list_elem_of_lookup_2; eauto.
  - lia.
Qed.

Lemma dedup_loop_dissimilar (rest unique : list Page) :
  Spec.pairwise_dissimilar unique ->
  Spec.pairwise_dissimilar (ScraperService.dedup_loop unique rest).
Proof.
  revert unique. induction rest as [|p rest IH]; intros unique HP; simpl.
  - exact HP.
  - destruct (ScraperService.isDuplicate unique p) eqn:E.
    + apply IH. exact HP.
    + apply IH. apply pairwise_dissimilar_snoc; assumption.
Qed.

(** C7 (as amended). Deduplication keeps the first page and goes through
    the rest greedily, discarding a page exactly when its Jaccard
    similarity to some page kept so far exceeds 0.8, where the similarity is
    taken on the whitespace-split token sets of the lower-cased contents;
    hence no two pages at distinct positions of the output are more than 0.8
    similar in that sense, and the output is a subsequence of the input. *)
Theorem dedup_greedy_on_lowercased_tokens :
  forall (first : Page) (rest : list Page),
    let out := ScraperService.deduplicateContent (first :: rest) in
    (exists kept, out = first :: kept /\ sublist kept rest)
    /\ sublist out (first :: rest)
    /\ out = ScraperService.dedup_loop [first] rest
    /\ (forall unique p rest',
          ScraperService.dedup_loop unique (p :: rest')
          = if ScraperService.isDuplicate unique p
            then ScraperService.dedup_loop unique rest'
            else ScraperService.dedup_loop (unique ++ [p]) rest')
    /\ (forall unique p,
          ScraperService.isDuplicate unique p = true
          <-> exists u, In u unique /\ (0.8 < Spec.similarity p u)%Q)
    /\ Spec.pairwise_dissimilar out.
Proof.
  intros first rest out.
  destruct (dedup_loop_extends rest [first]) as (kept & E & S).
  split; [exists kept; split; [exact E|exact S]|].
  split; [subst out; simpl; rewrite E; simpl; apply sublist_skip; exact S|].
  split; [reflexivity|]. split; [reflexivity|].
  split; [apply isDuplicate_iff|].
  subst out. simpl. apply dedup_loop_dissimilar.
  intros i j p q Hij Hi Hj.
  destruct i, j; simpl in *; try discriminate; lia.
Qed.

(** C7 (as stated) fails on token sets of the contents as they are: the two
    pages share ten of their twelve tokens (similarity 10/12 > 0.8), yet
    both are kept, because on the lower-cased contents they share five of
    seven (5/7 <= 0.8). *)
Lemma dedup_keeps_pages_similar_up_to_case :
  ScraperService.deduplicateContent [Scenario.page_upper; Scenario.page_lower]
  = [Scenario.page_upper; Scenario.page_lower]
  /\ (0.8 < Spec.spec_jaccard Scenario.page_lower Scenario.page_upper)%Q
  /\ ~ (forall i j p q, i <> j ->
          ScraperService.deduplicateContent
            [Scenario.page_upper; Scenario.page_lower] !! i = Some p ->
          ScraperService.deduplicateContent
            [Scenario.page_upper; Scenario.page_lower] !! j = Some q ->
          (Spec.spec_jaccard p q <= 0.8)%Q).
Proof.
  assert (H : (0.8 < Spec.spec_jaccard Scenario.page_lower Scenario.page_upper)%Q)
    by (vm_compute; reflexivity).
  split; [vm_compute; reflexivity|]. split; [exact H|].
  intros C. specialize (C 1%nat 0%nat Scenario.page_lower Scenario.page_upper).
  apply (Qlt_not_le _ _ H). apply C; [lia| |]; vm_compute; reflexivity.
Qed.

(** ** The URL canonicalizer *)

Section Canonicalizer.
Context {api : UrlApi}.

Lemma sanitizeUrl_accepts (U s : string) :
  Helpers.sanitizeUrl U = Return s
  <-> exists u, URL_new U = inr u
                /\ Helpers.allowed_protocol (URL_protocol u) = true
                /\ s = URL_toString (URL_clear_hash u).
Proof.
  unfold Helpers.sanitizeUrl, Helpers.sanitizeUrl_body. split.
  - destruct (URL_new U) as [e|u]; [discriminate|].
    destruct (Helpers.allowed_protocol (URL_protocol u)) eqn:E; simpl;
      [|discriminate].
    intros H. exists u. split; [reflexivity|]. split; [exact E|]. congruence.
  - intros (u & -> & E & ->). rewrite E. reflexivity.
Qed.

Lemma prefix_append (p x : string) : String.prefix p (p +:+ x) = true.
Proof.
  induction p as [|c p IH]; simpl.
  - destruct x; reflexivity.
  - destruct (ascii_dec c c) as [_|N]; [exact IH|contradiction].
Qed.

Lemma sanitizeUrl_rejects (U : string) :
  (exists s, Helpers.sanitizeUrl U = Return s)
  \/ (exists e, Helpers.sanitizeUrl U = Throw (Exn e)
                /\ String.prefix "Invalid URL: " (message e) = true
                /\ ((exists type_error, URL_new U = inl type_error)
                    \/ (exists u, URL_new U = inr u
                        /\ URL_protocol u <> "http:"
                        /\ URL_protocol u <> "https:"))).
Proof.
  unfold Helpers.sanitizeUrl, Helpers.sanitizeUrl_body.
  destruct (URL_new U) as [e|u] eqn:EU.
  - right. eexists. split; [reflexivity|]. split; [apply prefix_append|]. left. eauto.
  - destruct (Helpers.allowed_protocol (URL_protocol u)) eqn:E; simpl.
    + left. eauto.
    + right. eexists. split; [reflexivity|]. split; [apply prefix_append|]. right.
      exists u. split; [reflexivity|].
      unfold Helpers.allowed_protocol in E. apply orb_false_iff in E as [E1 E2].
      apply String.eqb_neq in E1, E2. auto.
Qed.

(** C9. The canonicalizer is idempotent on the URLs it accepts; it accepts
    exactly the inputs the platform parses to an [http:] or [https:] URL and
    returns their serialization without the fragment; every other input -
    one the parser rejects, or one with another scheme - is rejected with an
    error.  Idempotence rests on the round-trip guarantee of the platform's
    URL parser and serializer ([UrlLaws]). *)
Theorem sanitizeUrl_idempotent_http_only (laws : UrlLaws api) (U : string) :
  (forall s, Helpers.sanitizeUrl U = Return s -> Helpers.sanitizeUrl s = Return s)
  /\ (forall s, Helpers.sanitizeUrl U = Return s
                <-> exists u, URL_new U = inr u
                      /\ (URL_protocol u = "http:" \/ URL_protocol u = "https:")
                      /\ s = URL_toString (URL_clear_hash u))
  /\ ((forall u, URL_new U = inr u ->
                 URL_protocol u <> "http:" /\ URL_protocol u <> "https:")
      -> exists e, Helpers.sanitizeUrl U = Throw (Exn e)
                   /\ String.prefix "Invalid URL: " (message e) = true).
Proof.
  assert (P : forall p, Helpers.allowed_protocol p = true
                        <-> p = "http:" \/ p = "https:").
  { intros p. unfold Helpers.allowed_protocol. rewrite orb_true_iff.
    rewrite !String.eqb_eq. reflexivity. }
  split; [|split].
  - intros s H. apply sanitizeUrl_accepts in H as (u & Hu & Hp & ->).
    apply sanitizeUrl_accepts. exists (URL_clear_hash u).
    split; [eapply URL_reparse; exact Hu|].
    split; [rewrite URL_clear_hash_protocol; exact Hp|].
    rewrite URL_clear_hash_idem. reflexivity.
  - intros s. rewrite sanitizeUrl_accepts.
    split; intros (u & Hu & Hp & Hs); exists u; (split; [exact Hu|]);
      (split; [apply P; exact Hp|exact Hs]).
  - intros Hbad. destruct (sanitizeUrl_rejects U) as [[s Hs]|(e & He & Hm & _)].
    + apply sanitizeUrl_accepts in Hs as (u & Hu & Hp & _).
      apply P in Hp. destruct (Hbad u Hu) as [N1 N2]. destruct Hp; contradiction.
    + exists e. auto.
Qed.

End Canonicalizer.

(** ** The concrete platform satisfies the URL laws *)

Module SimpleUrlFacts.
Import SimpleUrl.

Lemma append_cons (c : ascii) (a b : string) :
  String c a +:+ b = String c (a +:+ b).
Proof. reflexivity. Qed.

Lemma append_nil_r (s : string) : s +:+ "" = s.
Proof.
  induction s as [|c s IH]; [reflexivity|]. rewrite append_cons, IH. reflexivity.
Qed.

Lemma append_assoc (a b c : string) : (a +:+ b) +:+ c = a +:+ (b +:+ c).
Proof.
  induction a as [|x a IH]; [reflexivity|]. rewrite !append_cons, IH. reflexivity.
Qed.

Lemma substring_all (s : string) : String.substring 0 (String.length s) s = s.
Proof. induction s as [|c s IH]; [reflexivity|]. simpl. f_equal. exact IH. Qed.

Lemma lacks_append (c : ascii) (a b : string) :
  lacks c (a +:+ b) = (lacks c a && lacks c b)%bool.
Proof.
  unfold lacks. induction a as [|x a IH]; [reflexivity|].
  rewrite append_cons. simpl. rewrite IH, andb_assoc. reflexivity.
Qed.

Lemma break_on_spec (c : ascii) (s a : string) (o : option string) :
  break_on c s = (a, o) ->
  lacks c a = true
  /\ match o with Some b => s = a +:+ String c b | None => s = a end.
Proof.
  revert a o. induction s as [|d s IH]; simpl; intros a o H.
  - inversion H; subst. split; reflexivity.
  - destruct (Ascii.eqb d c) eqn:E.
    + inversion H; subst. apply Ascii.eqb_eq in E. subst. split; reflexivity.
    + destruct (break_on c s) as [before after]. inversion H; subst.
      destruct (IH _ _ eq_refl) as [L S]. split.
      * unfold lacks in *. simpl. rewrite E, L. reflexivity.
      * destruct o; rewrite ?append_cons; congruence.
Qed.

Lemma break_on_found (c : ascii) (a b : string) :
  lacks c a = true -> break_on c (a +:+ String c b) = (a, Some b).
Proof.
  unfold lacks. induction a as [|d a IH]; intros H.
  - change ("" +:+ String c b) with (String c b). simpl.
    rewrite Ascii.eqb_refl. reflexivity.
  - rewrite append_cons. simpl in *.
    apply andb_true_iff in H as [H1 H2]. apply negb_true_iff in H1.
    rewrite H1, (IH H2). reflexivity.
Qed.

Lemma break_on_missing (c : ascii) (a : string) :
  lacks c a = true -> break_on c a = (a, None).
Proof.
  unfold lacks. induction a as [|d a IH]; simpl; intros H; [reflexivity|].
  apply andb_true_iff in H as [H1 H2]. apply negb_true_iff in H1.
  rewrite H1, (IH H2). reflexivity.
Qed.

Lemma letters_lack_colon (s : string) :
  Validation.all_chars is_letter s = true -> lacks ":" s = true.
Proof.
  unfold lacks. induction s as [|d s IH]; simpl; intros H; [reflexivity|].
  apply andb_true_iff in H as [H1 H2]. rewrite (IH H2), andb_true_r.
  destruct (Ascii.eqb d ":") eqn:E; [|reflexivity].
  apply Ascii.eqb_eq in E. subst. discriminate H1.
Qed.

(** What a successfully parsed URL looks like. *)
Lemma parse_shape (s : string) (u : t) :
  parse s = inr u ->
  exists scheme host p,
    protocol u = scheme +:+ ":" /\ hostname u = host /\ pathname u = String "/" p
    /\ String.eqb scheme "" = false
    /\ Validation.all_chars is_letter scheme = true
    /\ String.eqb host "" = false
    /\ lacks "/" host = true /\ lacks "#" host = true /\ lacks "#" p = true.
Proof.
  unfold parse. destruct (break_on ":" s) as [scheme [rest|]] eqn:B; [|discriminate].
  destruct (String.eqb scheme "") eqn:E1; simpl; [discriminate|].
  destruct (Validation.all_chars is_letter scheme) eqn:E2; simpl; [|discriminate].
  destruct (String.prefix "//" rest) eqn:E3; [|discriminate].
  destruct (break_on "#" _) as [before_hash fragment] eqn:B2.
  destruct (break_on "/" before_hash) as [host path] eqn:B3.
  destruct (String.eqb host "") eqn:E4; [discriminate|].
  intros H. inversion H; subst; clear H. simpl.
  apply break_on_spec in B2 as [L2 _]. apply break_on_spec in B3 as [L3 S3].
  destruct path as [p|].
  - exists scheme, host, p. subst before_hash.
    rewrite lacks_append in L2. apply andb_true_iff in L2 as [L2a L2b].
    unfold lacks in L2b. simpl in L2b. repeat split; auto.
  - exists scheme, host, "". subst before_hash. repeat split; auto.
Qed.

Lemma reparse (s : string) (u : t) :
  parse s = inr u -> parse (toString (clear_hash u)) = inr (clear_hash u).
Proof.
  intros H.
  destruct (parse_shape H) as (scheme & host & p & Hp & Hh & Hpath & E1 & E2 & E4
                               & L1 & L2 & L3).
  destruct u as [pr ho pa ha]. simpl in *. subst pr ho pa.
  unfold toString, clear_hash. simpl.
  rewrite append_nil_r, append_assoc. simpl.
  unfold parse.
  replace (scheme +:+ ":" +:+ "//" +:+ host +:+ String "/" p)
    with (scheme +:+ String ":" (String "/" (String "/" (host +:+ String "/" p))))
    by reflexivity.
  rewrite (break_on_found _ (letters_lack_colon E2)).
  rewrite E1, E2. simpl.
  rewrite Nat.sub_0_r, substring_all.
  assert (L : lacks "#" (host +:+ String "/" p) = true).
  { rewrite lacks_append, L2. unfold lacks in *. simpl. exact L3. }
  rewrite (break_on_missing L), (break_on_found _ L1), E4.
  destruct (host +:+ String "/" p); reflexivity.
Qed.

End SimpleUrlFacts.

#[export] Instance simple_url_laws : UrlLaws simple_url_api.
Proof.
  constructor.
  - exact SimpleUrlFacts.reparse.
  - intros u. reflexivity.
  - intros u. reflexivity.
Qed.

(** C9 at a concrete URL of the concrete platform. *)
Lemma sanitizeUrl_idempotent_witness :
  Helpers.sanitizeUrl "https://example.com/about#team" = Return "https://example.com/about"
  /\ Helpers.sanitizeUrl "https://example.com/about" = Return "https://example.com/about".
Proof.
  assert (H : Helpers.sanitizeUrl "https://example.com/about#team"
              = Return "https://example.com/about") by (vm_compute; reflexivity).
  split; [exact H|].
  exact (proj1 (sanitizeUrl_idempotent_http_only simple_url_laws
                  "https://example.com/about#team") _ H).
Defined.

(** ** The scrape cache *)

(** Case analysis on the innermost scrutinee, until none is left. *)
Ltac split_cases :=
  repeat match goal with
         | |- context [match ?x with _ => _ end] =>
             lazymatch x with
             | context [match _ with _ => _ end] => fail
             | _ => destruct x eqn:?; simpl; try reflexivity; try congruence
             end
         end.

Lemma getScrapedContent_lookup (env : Env) (url : string) (w : World) :
  fst (CacheService.getScrapedContent env url w) = Return (Spec.lookup env url w).
Proof.
  unfold CacheService.getScrapedContent, Spec.lookup, Spec.fast_tier,
    Spec.durable_tier, try_catch, bind, Redis.get, Redis.client_get,
    CacheModel.getCachedScraping, Redis.set, Redis.client_store,
    CacheService.recordCacheHit, CacheService.recordCacheMiss, try_catch, bind,
    gets, ret, throw, emit, modify.
  simpl. split_cases.
Qed.

Lemma cacheScrapedContent_returns (env : Env) (url : string) (data : ScrapeResult)
    (ttl : option Z) (w : World) :
  fst (CacheService.cacheScrapedContent env url data ttl w) = Return tt.
Proof.
  unfold CacheService.cacheScrapedContent, try_catch, bind, CacheService.both.
  split_cases.
Qed.

(** [scrapeWebsite] by cases: a rejected URL, a cache hit, a cache miss. *)
Lemma scrapeWebsite_dispatch (api : UrlApi) (env : Env) (url : string) (w : World) :
  match Helpers.sanitizeUrl url with
  | Throw t => ScraperService.scrapeWebsite env url w = (Throw t, w)
  | Return sanitized =>
      let w1 := snd (CacheService.getScrapedContent env sanitized w) in
      match Spec.lookup env sanitized w with
      | Some hit => ScraperService.scrapeWebsite env url w = (Return hit, w1)
      | None =>
          ScraperService.scrapeWebsite env url w
          = ScraperService.freshScrape env sanitized
              (Helpers.extractDomain sanitized) (now env) w1
      end
  end.
Proof.
  unfold ScraperService.scrapeWebsite.
  destruct (Helpers.sanitizeUrl url) as [sanitized|t]; [|reflexivity].
  pose proof (getScrapedContent_lookup env sanitized w) as H.
  unfold bind. destruct (CacheService.getScrapedContent env sanitized w) as [c w1].
  simpl in *. subst c. destruct (Spec.lookup env sanitized w); reflexivity.
Qed.

(** C10 (as amended). A cache lookup never throws.  A failed read of the
    fast tier is absorbed by the Redis wrapper and counts as a fast-tier
    miss, so the lookup goes on to the durable tier; a failure of the
    durable-tier read (the SELECT or the access-count UPDATE) or of the
    fast-tier backfill makes the lookup return [null], like a miss on both
    tiers; the result is given by [Spec.lookup].  On [null] the scraper goes
    on to a fresh scrape. *)
Theorem cache_lookup_never_throws :
  forall (api : UrlApi) (env : Env) (url : string) (w : World),
    fst (CacheService.getScrapedContent env url w) = Return (Spec.lookup env url w)
    /\ (forall e, io_fault env (RedisGET (CacheService.cacheKey env url)) = Some e ->
          Spec.fast_tier env url w = None)
    /\ (forall e, Spec.fast_tier env url w = None ->
          io_fault env (CacheSELECT (Helpers.generateUrlHash env url)) = Some e
          \/ io_fault env (CacheTOUCH (Helpers.generateUrlHash env url)) = Some e
          \/ io_fault env (RedisSETEX (CacheService.cacheKey env url)) = Some e ->
          fst (CacheService.getScrapedContent env url w) = Return None)
    /\ match Helpers.sanitizeUrl url with
       | Throw t => ScraperService.scrapeWebsite env url w = (Throw t, w)
       | Return sanitized =>
           let w1 := snd (CacheService.getScrapedContent env sanitized w) in
           match Spec.lookup env sanitized w with
           | Some hit => ScraperService.scrapeWebsite env url w = (Return hit, w1)
           | None =>
               ScraperService.scrapeWebsite env url w
               = ScraperService.freshScrape env sanitized
                   (Helpers.extractDomain sanitized) (now env) w1
           end
       end.
Proof.
  intros api env url w. split; [apply getScrapedContent_lookup|].
  split; [|split; [|apply scrapeWebsite_dispatch]].
  - intros e H. unfold Spec.fast_tier. rewrite H. reflexivity.
  - intros e Hfast H. rewrite getScrapedContent_lookup. f_equal.
    unfold Spec.lookup. rewrite Hfast.
    destruct (io_fault env (CacheSELECT _)); [reflexivity|].
    destruct (Spec.durable_tier env url w); [|reflexivity].
    destruct (io_fault env (CacheTOUCH _)); [reflexivity|].
    destruct (io_fault env (RedisSETEX _)); [reflexivity|].
    destruct H as [H|[H|H]]; discriminate H.
Qed.

(** C10 (as stated) fails: the read of the fast tier throws, and the lookup
    returns the entry of the durable tier, not [null]. *)
Lemma fast_tier_failure_falls_back_to_durable_tier :
  fst (Redis.client_get Scenario.env_redis_down
         (CacheService.cacheKey Scenario.env_redis_down "https://example.com/")
         Scenario.world_with_durable_entry)
  = Throw (Exn Scenario.connection_refused)
  /\ fst (CacheService.getScrapedContent Scenario.env_redis_down
            "https://example.com/" Scenario.world_with_durable_entry)
     = Return (Some Scenario.cached_scrape)
  /\ fst (CacheService.getScrapedContent Scenario.env_redis_down
            "https://example.com/" Scenario.world_with_durable_entry)
     <> Return None.
Proof.
  split; [vm_compute; reflexivity|]. split; [vm_compute; reflexivity|].
  vm_compute. discriminate.
Qed.

(** ** The scrape pipeline *)

Lemma omap_id_map {A B} (f : A -> option B) (l : list A) :
  omap id (List.map f l) = omap f l.
Proof.
  induction l as [|x l IH]; [reflexivity|].
  simpl. destruct (f x); [f_equal|]; exact IH.
Qed.

(** The batches of [scrapePages] cover the whole list: the result is the
    list of the pages that could be loaded, in the order of the URLs. *)
Lemma scrapePages_from_all (env : Env) (fuel : nat) (urls : list string) :
  (length urls <= fuel)%nat ->
  ScraperService.scrapePages_from env fuel urls = omap (scrapePage env) urls.
Proof.
  revert urls. induction fuel as [|fuel IH]; intros urls Hlen.
  - destruct urls; [reflexivity|simpl in Hlen; lia].
  - destruct urls as [|u urls]; [reflexivity|].
    cbn [ScraperService.scrapePages_from].
    set (k := Pos.to_nat (scraping_concurrency (config env))).
    assert (Hk : (0 < k)%nat) by (subst k; lia).
    rewrite IH.
    + rewrite omap_id_map, <- omap_app, firstn_skipn. reflexivity.
    + rewrite List.length_skipn. simpl in *. lia.
Qed.

Lemma scrapePages_all (env : Env) (urls : list string) :
  ScraperService.scrapePages env urls = omap (scrapePage env) urls.
Proof. apply scrapePages_from_all. lia. Qed.

Lemma freshScrape_outcome (api : UrlApi) (env : Env) (sanitized : string)
    (domain : option string) (start : Z) (w : World) :
  let validUrls :=
    ScraperService.validateUrls env (ScraperService.discoverPages sanitized) in
  let out := ScraperService.freshScrape env sanitized domain start w in
  match validUrls with
  | [] =>
      out = (Throw (Exn (Errors.InsufficientDataError
                           "No accessible pages found" NoDetails)), w)
  | _ :: _ =>
      exists result, fst out = Return result
        /\ pages result
           = ScraperService.deduplicateContent (omap (scrapePage env) validUrls)
  end.
Proof.
  intros validUrls out.
  subst out. unfold ScraperService.freshScrape, try_catch.
  fold validUrls.
  destruct validUrls as [|u rest] eqn:E.
  - reflexivity.
  - cbn [length Nat.eqb]. unfold bind at 1.
    cbn [ScraperService.recordScraping emit modify].
    unfold bind.
    match goal with
    | |- context [CacheService.cacheScrapedContent env sanitized ?r None ?w1] =>
        pose proof (cacheScrapedContent_returns env sanitized r None w1) as H;
        destruct (CacheService.cacheScrapedContent env sanitized r None w1)
          as [c w2]
    end.
    simpl in H. subst c. eexists. split; [reflexivity|].
    simpl. rewrite scrapePages_all. reflexivity.
Qed.

(** C3 (as amended). On a cache miss, when the probe step yields no
    accessible URL the scrape fails with [InsufficientDataError]; when it
    yields at least one, the scrape does not fail, whatever the individual
    probes and page loads did: it returns the deduplicated list of the pages
    that could be loaded, which is empty when none could.  (A URL the
    canonicalizer rejects fails with its error, and a cache hit is returned
    as it is.) *)
Theorem scrape_fails_only_without_accessible_url :
  forall (api : UrlApi) (env : Env) (url : string) (w : World),
    let out := ScraperService.scrapeWebsite env url w in
    match Helpers.sanitizeUrl url with
    | Throw t => out = (Throw t, w)
    | Return sanitized =>
        let w1 := snd (CacheService.getScrapedContent env sanitized w) in
        let validUrls :=
          ScraperService.validateUrls env (ScraperService.discoverPages sanitized) in
        let loaded := omap (scrapePage env) validUrls in
        validUrls = omap (ScraperService.probe env)
                         (ScraperService.discoverPages sanitized)
        /\ ScraperService.scrapePages env validUrls = loaded
        /\ match Spec.lookup env sanitized w with
           | Some hit => out = (Return hit, w1)
           | None =>
               match validUrls with
               | [] =>
                   out = (Throw (Exn (Errors.InsufficientDataError
                                        "No accessible pages found" NoDetails)), w1)
                   /\ Stage1Routes.http_status_of (fst out) = 424%Z
                   /\ Stage1Routes.error_code_of (fst out) = Some "INSUFFICIENT_DATA"
               | _ :: _ =>
                   exists result, fst out = Return result
                     /\ pages result = ScraperService.deduplicateContent loaded
               end
           end
    end.
Proof.
  intros api env url w out. subst out.
  pose proof (scrapeWebsite_dispatch api env url w) as D.
  destruct (Helpers.sanitizeUrl url) as [sanitized|t]; [|exact D].
  cbv zeta in *. split; [reflexivity|]. split; [apply scrapePages_all|].
  destruct (Spec.lookup env sanitized w) as [hit|]; [exact D|].
  rewrite D.
  pose proof (freshScrape_outcome api env sanitized (Helpers.extractDomain sanitized)
                (now env) (snd (CacheService.getScrapedContent env sanitized w))) as F.
  cbv zeta in F.
  destruct (ScraperService.validateUrls env (ScraperService.discoverPages sanitized)).
  - rewrite F. repeat split.
  - exact F.
Qed.

(** C3 (as stated) fails for a fetch step that yields no page: the probe
    finds the root page, no page can be loaded, and the scrape returns a
    result with an empty page list (no failure) and stores it in both tiers
    of the cache. *)
Lemma scrape_without_pages_returns_and_caches :
  ScraperService.validateUrls Scenario.env_no_page_loads
    (ScraperService.discoverPages "https://example.com/")
  = ["https://example.com/"]
  /\ ScraperService.scrapePages Scenario.env_no_page_loads ["https://example.com/"]
     = []
  /\ (exists result,
        fst (ScraperService.scrapeWebsite Scenario.env_no_page_loads
               "https://example.com" Scenario.empty_world) = Return result
        /\ pages result = [])
  /\ List.map page_count
       (scraping_cache
          (snd (ScraperService.scrapeWebsite Scenario.env_no_page_loads
                  "https://example.com" Scenario.empty_world))) = [0%nat]
  /\ List.map fst
       (redis
          (snd (ScraperService.scrapeWebsite Scenario.env_no_page_loads
                  "https://example.com" Scenario.empty_world)))
     = ["scrape:sha256(https://example.com/)"].
Proof.
  repeat split; try (vm_compute; reflexivity).
  eexists. split; vm_compute; reflexivity.
Qed.

(* ===================================================================== *)
(** * Further properties of the run store

    The [runs] relation is keyed by the identifier that runs.model.js binds
    to its queries, a string; the type schema.sql gives the column ([UUID])
    is not part of the model, so an insert is rejected for a duplicate key
    only. *)
(* ===================================================================== *)

Unset Implicit Arguments.

Lemma set_runs_same (w : World) : set_runs (runs w) w = w.
Proof. destruct w; reflexivity. Qed.

Lemma apply_update_keeps_key (u : RunsModel.ColumnUpdate) (r : Run) :
  run_id (RunsModel.apply_update u r) = run_id r
  /\ status (RunsModel.apply_update u r) = status r
  /\ created_at (RunsModel.apply_update u r) = created_at r
  /\ expires_at (RunsModel.apply_update u r) = expires_at r.
Proof. destruct u; repeat split. Qed.

Lemma fold_updates_keeps_key (us : list RunsModel.ColumnUpdate) (r : Run) :
  let r' := fold_left (fun r u => RunsModel.apply_update u r) us r in
  run_id r' = run_id r /\ status r' = status r
  /\ created_at r' = created_at r /\ expires_at r' = expires_at r.
Proof.
  revert r. induction us as [|u us IH]; intros r; simpl; [repeat split|].
  destruct (IH (RunsModel.apply_update u r)) as (A & B & C & D).
  destruct (apply_update_keeps_key u r) as (A' & B' & C' & D').
  repeat split; congruence.
Qed.

Lemma find_map_same_test {A} (p : A -> bool) (f : A -> A) (l : list A) :
  (forall x, p (f x) = p x) ->
  List.find p (List.map f l) = option_map f (List.find p l).
Proof.
  intros H. induction l as [|x l IH]; simpl; [reflexivity|].
  rewrite H. destruct (p x); [reflexivity|exact IH].
Qed.

Lemma map_unchanged {A} (f : A -> A) (l : list A) :
  (forall x, In x l -> f x = x) -> List.map f l = l.
Proof.
  intros H. induction l as [|x l IH]; simpl; [reflexivity|].
  rewrite H by (left; reflexivity). f_equal. apply IH. intros y Hy. apply H.
  right. exact Hy.
Qed.

Lemma getRun_find (runId : string) (w : World) :
  RunsModel.getRun runId w = (Return (List.find (Spec.visible runId) (runs w)), w).
Proof. reflexivity. Qed.

(** The row [updateRun] leaves in place of [r]. *)
Lemma updateRun_found (env : Env) (runId : string) (updates : list RunsModel.ColumnUpdate)
    (w : World) (run : Run) :
  List.filter (fun u => negb (RunsModel.is_id_update u)) updates <> [] ->
  List.find (Spec.visible runId) (runs w) = Some run ->
  let w' := snd (RunsModel.updateRun env runId updates w) in
  List.find (Spec.visible runId) (runs w')
  = Some (RunsModel.touch env
       (fold_left (fun r u => RunsModel.apply_update u r)
          (List.filter (fun u => negb (RunsModel.is_id_update u)) updates) run))
  /\ length (runs w') = length (runs w).
Proof.
  intros Hne Hfind w'. subst w'. unfold RunsModel.updateRun.
  set (fields := List.filter (fun u => negb (RunsModel.is_id_update u)) updates) in *.
  destruct fields as [|f fs] eqn:E; [congruence|]. cbn [length Nat.eqb].
  cbn [snd runs set_runs].
  rewrite List.length_map. split; [|reflexivity].
  rewrite find_map_same_test.
  - rewrite Hfind. cbn [option_map].
    apply List.find_some in Hfind as [_ Hp]. apply andb_true_iff in Hp as [Hid _].
    rewrite Hid. reflexivity.
  - intros x. destruct (RunsModel.has_id runId x) eqn:Hx; [|reflexivity].
    unfold Spec.visible, RunsModel.has_id in *. cbn [RunsModel.touch run_id status].
    destruct (fold_updates_keeps_key (f :: fs) x) as (A & B & _).
    rewrite A, B. reflexivity.
Qed.

(** X1. Round trip of the four artifact writes: on a run that [getRun]
    returns, each [save...] is followed by a [getRun] that returns the run
    with the written slot holding the artifact, the other artifact slots as
    they were, and [updated_at] set to the clock; no row is added.  The two
    text columns are written with the artifact: [brand_summary] holds the
    summary and [report_md] the report, and where the summary or the report
    is missing or empty the column holds the four letters [null], not SQL
    NULL, since [updateRun] passes every value of type [object], [null]
    among them, through [JSON.stringify]. *)
Theorem save_then_get_round_trip (env : Env) (runId : string) (w : World) (run : Run)
    (brandData : Validated) (candidates : list Candidate)
    (analyzed : list Validated) (kernelData : Kernel) :
  RunsModel.getRun runId w = (Return (Some run), w) ->
  (let w' := snd (StorageService.saveBrand env runId brandData w) in
   exists run', RunsModel.getRun runId w' = (Return (Some run'), w')
     /\ brand_data run' = Some brandData
     /\ brand_summary run'
        = Some match an_summary (from_analysis brandData) with
               | Some summary => if String.eqb summary "" then "null" else summary
               | None => "null"
               end
     /\ report_md run' = report_md run
     /\ competitors_10 run' = competitors_10 run
     /\ competitors_selected run' = competitors_selected run
     /\ kernel_data run' = kernel_data run
     /\ updated_at run' = now env /\ length (runs w') = length (runs w))
  /\ (let w' := snd (StorageService.saveCompetitors env runId candidates w) in
      exists run', RunsModel.getRun runId w' = (Return (Some run'), w')
        /\ competitors_10 run' = Some candidates
        /\ brand_data run' = brand_data run
        /\ competitors_selected run' = competitors_selected run
        /\ kernel_data run' = kernel_data run)
  /\ (let w' := snd (StorageService.saveAnalyzedCompetitors env runId analyzed w) in
      exists run', RunsModel.getRun runId w' = (Return (Some run'), w')
        /\ competitors_selected run' = Some analyzed
        /\ brand_data run' = brand_data run
        /\ competitors_10 run' = competitors_10 run
        /\ kernel_data run' = kernel_data run)
  /\ (let w' := snd (StorageService.saveKernel env runId kernelData w) in
      exists run', RunsModel.getRun runId w' = (Return (Some run'), w')
        /\ kernel_data run' = Some kernelData
        /\ report_md run'
           = Some match k_report_md kernelData with
                  | Some report => if String.eqb report "" then "null" else report
                  | None => "null"
                  end
        /\ brand_summary run' = brand_summary run
        /\ brand_data run' = brand_data run
        /\ competitors_10 run' = competitors_10 run
        /\ competitors_selected run' = competitors_selected run).
Proof.
  intros Hget. rewrite getRun_find in Hget. inversion Hget as [Hfind]. clear Hget.
  repeat split.
  - destruct (updateRun_found env runId
                [RunsModel.set_brand_data brandData;
                 RunsModel.set_brand_summary
                   (RunsModel.or_null (an_summary (from_analysis brandData)))]
                w run) as [F L]; [discriminate|exact Hfind|].
    eexists. rewrite getRun_find.
    unfold StorageService.saveBrand, RunsModel.saveBrand. rewrite F.
    split; [reflexivity|]. repeat split; [|exact L].
    cbn. destruct (an_summary (from_analysis brandData)) as [summary|]; cbn;
      [destruct (String.eqb summary "")|]; reflexivity.
  - destruct (updateRun_found env runId [RunsModel.set_competitors_10 candidates]
                w run) as [F L]; [discriminate|exact Hfind|].
    eexists. rewrite getRun_find.
    unfold StorageService.saveCompetitors, RunsModel.saveCompetitors. rewrite F.
    split; [reflexivity|]. repeat split.
  - destruct (updateRun_found env runId [RunsModel.set_competitors_selected analyzed]
                w run) as [F L]; [discriminate|exact Hfind|].
    eexists. rewrite getRun_find.
    unfold StorageService.saveAnalyzedCompetitors, RunsModel.saveAnalyzedCompetitors.
    rewrite F. split; [reflexivity|]. repeat split.
  - destruct (updateRun_found env runId
                [RunsModel.set_kernel_data kernelData;
                 RunsModel.set_report_md (RunsModel.or_null (k_report_md kernelData))]
                w run) as [F L]; [discriminate|exact Hfind|].
    eexists. rewrite getRun_find.
    unfold StorageService.saveKernel, RunsModel.saveKernel. rewrite F.
    split; [reflexivity|]. repeat split.
    cbn. destruct (k_report_md kernelData) as [report|]; cbn;
      [destruct (String.eqb report "")|]; reflexivity.
Qed.

Lemma save_then_get_round_trip_witness :
  exists run',
    RunsModel.getRun "run_0a1b2c3d"
      (snd (StorageService.saveBrand Scenario.offline "run_0a1b2c3d"
              Scenario.sample_brand Scenario.world_with_expired_run))
    = (Return (Some run'),
       snd (StorageService.saveBrand Scenario.offline "run_0a1b2c3d"
              Scenario.sample_brand Scenario.world_with_expired_run))
    /\ brand_data run' = Some Scenario.sample_brand
    /\ brand_summary run' = Some "A reserved domain."
    /\ report_md run' = None.
Proof.
  destruct (proj1 (save_then_get_round_trip Scenario.offline "run_0a1b2c3d"
                     Scenario.world_with_expired_run Scenario.expired_run
                     Scenario.sample_brand [] [] Scenario.sample_kernel eq_refl))
    as (run' & G & B & S & R & _).
  exists run'. split; [exact G|]. split; [exact B|]. split; [exact S|exact R].
Defined.

Lemma a_missing_report_is_stored_as_text :
  exists run',
    RunsModel.getRun "run_0a1b2c3d"
      (snd (StorageService.saveKernel Scenario.offline "run_0a1b2c3d"
              Scenario.sample_kernel Scenario.world_with_expired_run))
    = (Return (Some run'),
       snd (StorageService.saveKernel Scenario.offline "run_0a1b2c3d"
              Scenario.sample_kernel Scenario.world_with_expired_run))
    /\ k_report_md Scenario.sample_kernel = None
    /\ report_md run' = Some "null".
Proof.
  eexists. split; [vm_compute; reflexivity|]. split; reflexivity.
Qed.

Lemma find_none_of_no_id (runId : string) (l : list Run) :
  existsb (RunsModel.has_id runId) l = false ->
  List.find (Spec.visible runId) l = None /\ List.find (RunsModel.has_id runId) l = None.
Proof.
  induction l as [|r l IH]; simpl; [auto|].
  intros H. apply orb_false_iff in H as [H1 H2]. unfold Spec.visible at 1.
  rewrite H1. simpl. apply IH. exact H2.
Qed.

(** X2. Writing under an identifier no row carries changes nothing: every
    [updateRun], hence every [save...], resolves to [undefined] and leaves
    the world as it was. *)
Theorem update_of_unknown_run_changes_nothing (env : Env) (runId : string)
    (updates : list RunsModel.ColumnUpdate) (w : World) :
  existsb (RunsModel.has_id runId) (runs w) = false ->
  RunsModel.updateRun env runId updates w = (Return None, w)
  /\ (forall b, StorageService.saveBrand env runId b w = (Return None, w))
  /\ (forall k, StorageService.saveKernel env runId k w = (Return None, w)).
Proof.
  intros H. destruct (find_none_of_no_id _ _ H) as [Hv Hi].
  assert (G : forall us, RunsModel.updateRun env runId us w = (Return None, w)).
  { intros us. unfold RunsModel.updateRun.
    destruct (Nat.eqb _ 0).
    - rewrite getRun_find, Hv. reflexivity.
    - rewrite map_unchanged.
      + rewrite Hi, set_runs_same. reflexivity.
      + intros x Hx. destruct (RunsModel.has_id runId x) eqn:E; [|reflexivity].
        exfalso. assert (existsb (RunsModel.has_id runId) (runs w) = true)
          by (apply existsb_exists; eauto). congruence. }
  split; [apply G|]. split; intros; apply G.
Qed.

Lemma update_of_unknown_run_witness :
  StorageService.saveBrand Scenario.offline "run_ffff" Scenario.sample_brand
    Scenario.world_with_expired_run
  = (Return None, Scenario.world_with_expired_run).
Proof.
  exact (proj1 (proj2 (update_of_unknown_run_changes_nothing Scenario.offline
                         "run_ffff" [] Scenario.world_with_expired_run eq_refl))
           Scenario.sample_brand).
Defined.

(** X3. [deleteRun] is a soft delete: it reports whether a row carried the
    identifier, keeps every row, and afterwards [getRun] finds no run under
    that identifier, so the storage service answers
    [UpstreamArtifactMissingError]; runs with another identifier are read as
    before. *)
Theorem deleted_run_is_not_found :
  forall (env : Env) (runId : string) (w : World),
    let w' := snd (RunsModel.deleteRun env runId w) in
    fst (RunsModel.deleteRun env runId w)
    = Return (existsb (RunsModel.has_id runId) (runs w))
    /\ length (runs w') = length (runs w)
    /\ RunsModel.getRun runId w' = (Return None, w')
    /\ StorageService.getRun runId true w'
       = (Throw (Exn (Errors.UpstreamArtifactMissingError
                        ("Run not found: " +:+ runId) NoDetails)), w')
    /\ (forall other, String.eqb other runId = false ->
          fst (RunsModel.getRun other w') = fst (RunsModel.getRun other w)).
Proof.
  intros env runId w w'. subst w'. unfold RunsModel.deleteRun. cbn [fst snd].
  cbn [runs set_runs]. rewrite List.length_map.
  split; [reflexivity|]. split; [reflexivity|].
  match goal with |- context [List.map ?f (runs w)] => set (mark := f) end.
  assert (N : List.find (Spec.visible runId) (List.map mark (runs w)) = None).
  { induction (runs w) as [|r l IH]; [reflexivity|]. simpl.
    unfold Spec.visible at 1. subst mark. cbv beta.
    destruct (RunsModel.has_id runId r) eqn:E.
    - unfold RunsModel.has_id in *. simpl. rewrite E. simpl. exact IH.
    - rewrite E. simpl. exact IH. }
  split; [rewrite getRun_find; cbn [runs set_runs]; rewrite N; reflexivity|].
  split.
  - unfold StorageService.getRun, bind. rewrite getRun_find. cbn [runs set_runs].
    rewrite N. reflexivity.
  - intros other Hne. rewrite !getRun_find. cbn [fst runs set_runs]. f_equal.
    clear N. induction (runs w) as [|r l IH]; [reflexivity|]. simpl.
    assert (M : Spec.visible other (mark r) = Spec.visible other r
                /\ (Spec.visible other r = true -> mark r = r)).
    { subst mark. cbv beta. unfold Spec.visible, RunsModel.has_id.
      destruct (String.eqb (run_id r) runId) eqn:E.
      - apply String.eqb_eq in E. simpl. rewrite E, String.eqb_sym, Hne.
        split; [reflexivity|discriminate].
      - split; reflexivity. }
    destruct M as [M1 M2]. rewrite M1.
    destruct (Spec.visible other r) eqn:V; [rewrite M2; reflexivity|exact IH].
Qed.

Lemma filter_length_split {A} (p : A -> bool) (l : list A) :
  (length (List.filter p l) + length (List.filter (fun x => negb (p x)) l)
   = length l)%nat.
Proof.
  induction l as [|x l IH]; simpl; [reflexivity|].
  destruct (p x); simpl; lia.
Qed.

Lemma filter_of_filter_implied {A} (p q : A -> bool) (l : list A) :
  (forall x, p x = true -> q x = true) ->
  List.filter p (List.filter q l) = List.filter p l.
Proof.
  intros H. induction l as [|x l IH]; simpl; [reflexivity|].
  destruct (q x) eqn:Q; simpl.
  - rewrite IH. reflexivity.
  - destruct (p x) eqn:P; [rewrite (H _ P) in Q; discriminate|exact IH].
Qed.

Lemma find_app_none {A} (p : A -> bool) (l1 l2 : list A) :
  List.find p l1 = None -> List.find p (l1 ++ l2) = List.find p l2.
Proof.
  induction l1 as [|x l1 IH]; simpl; [reflexivity|].
  destruct (p x); [discriminate|exact IH].
Qed.

(** X4. [cleanup_expired_data()] deletes from three relations and reports
    the three numbers of deleted rows.  From [runs] go exactly the rows whose
    deadline lies before the clock and that are not archived; from
    [scraping_cache] exactly the rows whose deadline lies before the clock;
    from [api_metrics] exactly the rows older than thirty days
    (2 592 000 000 ms), and a metric that stays and refers to a run that
    went loses the reference.  Rows at their deadline or after stay, so the
    count of active runs ([getActiveRunsCount]) and the answer of the
    durable cache tier to every URL are the same before and after; Redis
    and the observed effects are not touched. *)
Theorem cleanup_deletes_expired_rows_of_three_relations :
  forall (env : Env) (w : World),
    let out := RunsModel.cleanup_expired_data env w in
    let w' := snd out in
    (exists stats,
        fst out = Return stats
        /\ (RunsModel.deleted_runs stats + length (runs w') = length (runs w))%nat
        /\ (RunsModel.deleted_cache stats + length (scraping_cache w')
            = length (scraping_cache w))%nat
        /\ (RunsModel.deleted_metrics stats + length (api_metrics w')
            = length (api_metrics w))%nat)
    /\ (forall r, In r (runs w')
                  <-> In r (runs w)
                      /\ (status r = archived \/ (now env <= expires_at r)%Z))
    /\ (forall c, In c (scraping_cache w')
                  <-> In c (scraping_cache w) /\ (now env <= cache_expires_at c)%Z)
    /\ (forall m, In m (api_metrics w')
                  <-> exists m0,
                        In m0 (api_metrics w)
                        /\ (now env - 2592000000 <= metric_timestamp m0)%Z
                        /\ metric_id m = metric_id m0
                        /\ metric_timestamp m = metric_timestamp m0
                        /\ metric_run_id m
                           = match metric_run_id m0 with
                             | Some runId =>
                                 if existsb
                                      (fun r => String.eqb (run_id r) runId
                                                && (expires_at r <? now env)%Z
                                                && negb (RunStatus_eqb (status r)
                                                                       archived))
                                      (runs w)
                                 then None else Some runId
                             | None => None
                             end)
    /\ fst (RunsModel.getActiveRunsCount env w')
       = fst (RunsModel.getActiveRunsCount env w)
    /\ (forall url, Spec.durable_tier env url w' = Spec.durable_tier env url w)
    /\ redis w' = redis w /\ events w' = events w.
Proof.
  intros env w out w'. subst w' out. unfold RunsModel.cleanup_expired_data.
  cbn [fst snd runs set_runs scraping_cache set_scraping_cache api_metrics
       set_api_metrics redis events].
  split.
  { eexists. split; [reflexivity|].
    cbn [RunsModel.deleted_runs RunsModel.deleted_cache RunsModel.deleted_metrics].
    split; [apply filter_length_split|]. split; [apply filter_length_split|].
    rewrite filter_length_split, length_map. reflexivity. }
  split.
  { intros r. rewrite List.filter_In. apply and_iff_compat_l.
    rewrite negb_true_iff, andb_false_iff, negb_false_iff, Z.ltb_ge.
    destruct (status r); simpl; split; intros [H|H]; auto; try discriminate. }
  split.
  { intros c. rewrite List.filter_In, negb_true_iff, Z.ltb_ge. reflexivity. }
  split.
  { intros m. rewrite List.filter_In, List.in_map_iff, negb_true_iff, Z.ltb_ge.
    assert (K : forall runId,
               existsb (RunsModel.has_id runId)
                 (List.filter
                    (fun r => (expires_at r <? now env)%Z
                              && negb (RunStatus_eqb (status r) archived))
                    (runs w))
               = existsb
                   (fun r => String.eqb (run_id r) runId
                             && (expires_at r <? now env)%Z
                             && negb (RunStatus_eqb (status r) archived))
                   (runs w)).
    { intros runId. induction (runs w) as [|r l IH]; [reflexivity|].
      cbn [List.filter existsb]. rewrite <- IH. unfold RunsModel.has_id.
      destruct ((expires_at r <? now env)%Z
                && negb (RunStatus_eqb (status r) archived)) eqn:D.
      - cbn [existsb]. unfold RunsModel.has_id. rewrite <- andb_assoc, D, andb_true_r.
        reflexivity.
      - rewrite <- andb_assoc, D, andb_false_r. reflexivity. }
    assert (T : forall m0,
               metric_id (RunsModel.on_delete_set_null
                            (List.filter
                               (fun r => (expires_at r <? now env)%Z
                                         && negb (RunStatus_eqb (status r) archived))
                               (runs w)) m0) = metric_id m0
               /\ metric_timestamp (RunsModel.on_delete_set_null
                            (List.filter
                               (fun r => (expires_at r <? now env)%Z
                                         && negb (RunStatus_eqb (status r) archived))
                               (runs w)) m0) = metric_timestamp m0
               /\ metric_run_id (RunsModel.on_delete_set_null
                            (List.filter
                               (fun r => (expires_at r <? now env)%Z
                                         && negb (RunStatus_eqb (status r) archived))
                               (runs w)) m0)
                  = match metric_run_id m0 with
                    | Some runId =>
                        if existsb
                             (fun r => String.eqb (run_id r) runId
                                       && (expires_at r <? now env)%Z
                                       && negb (RunStatus_eqb (status r) archived))
                             (runs w)
                        then None else Some runId
                    | None => None
                    end).
    { intros m0. unfold RunsModel.on_delete_set_null.
      destruct (metric_run_id m0) as [runId|] eqn:R.
      - rewrite K. destruct (existsb _ (runs w)); cbn; rewrite ?R; auto.
      - rewrite R. auto. }
    unfold RunsModel.thirty_days.
    change (30 * 24 * 60 * 60 * 1000)%Z with 2592000000%Z.
    split.
    - intros [(m0 & <- & Hin) Hage]. exists m0.
      destruct (T m0) as (T1 & T2 & T3). rewrite T2 in Hage.
      repeat split; assumption.
    - intros (m0 & Hin & Hage & E1 & E2 & E3).
      destruct (T m0) as (T1 & T2 & T3).
      assert (E : RunsModel.on_delete_set_null
                    (List.filter
                       (fun r => (expires_at r <? now env)%Z
                                 && negb (RunStatus_eqb (status r) archived))
                       (runs w)) m0 = m).
      { destruct m as [i t r]. cbn in E1, E2, E3.
        destruct (RunsModel.on_delete_set_null _ m0) as [i' t' r'].
        cbn in T1, T2, T3. congruence. }
      split; [exists m0; split; assumption|]. rewrite E2. exact Hage. }
  split.
  { unfold RunsModel.getActiveRunsCount, gets.
    cbn [fst runs set_runs set_api_metrics set_scraping_cache].
    rewrite filter_of_filter_implied; [reflexivity|].
    intros x H. apply andb_true_iff in H as [_ H]. apply Z.ltb_lt in H.
    rewrite negb_true_iff, andb_false_iff. left. apply Z.ltb_ge. lia. }
  split; [|split; reflexivity].
  intros url. unfold Spec.durable_tier.
  cbn [scraping_cache set_scraping_cache set_api_metrics].
  rewrite filter_of_filter_implied; [reflexivity|].
  intros x H. apply andb_true_iff in H as [_ H]. apply Z.ltb_lt in H.
  rewrite negb_true_iff. apply Z.ltb_ge. lia.
Qed.

(** At the scenario clock the three deletes take one row each, and the
    metric that stays no longer refers to the run. *)
Lemma cleanup_of_a_store_due_for_cleaning :
  RunsModel.cleanup_expired_data Scenario.offline Scenario.world_to_clean
  = (Return {| RunsModel.deleted_runs := 1; RunsModel.deleted_cache := 1;
               RunsModel.deleted_metrics := 1 |},
     {| runs := []; scraping_cache := []; redis := []; events := [];
        uuids_drawn := 0;
        api_metrics := [{| metric_id := 2; metric_timestamp := 999000;
                           metric_run_id := None |}] |}).
Proof. vm_compute. reflexivity. Qed.

(** X5. [createRun()] draws the next identifier, prefixed [run_].  When no
    row carries it (and the relation takes the identifier as it is, see
    above), the run is appended with status [active], the deadline seven
    days (604 800 000 ms) after the clock and every artifact slot empty, and
    [getRun] returns it; when a row already carries it, the insert is
    rejected and the rows stay as they were. *)
Theorem created_run_is_found :
  forall (env : Env) (w : World),
    let runId := "run_" +:+ uuidv4 env (uuids_drawn w) in
    let out := RunsModel.createRun env RunsModel.no_options w in
    if existsb (RunsModel.has_id runId) (runs w) then
      (exists e, fst out = Throw (Exn e) /\ isAppError e = false)
      /\ runs (snd out) = runs w
    else
      exists run,
        fst out = Return run
        /\ run_id run = runId /\ status run = active
        /\ created_at run = now env
        /\ expires_at run = (now env + 604800000)%Z
        /\ brand_data run = None /\ competitors_10 run = None
        /\ competitors_selected run = None /\ kernel_data run = None
        /\ runs (snd out) = runs w ++ [run]
        /\ RunsModel.getRun runId (snd out) = (Return (Some run), snd out).
Proof.
  intros env w runId out. subst out. unfold RunsModel.createRun, bind.
  cbn [RunsModel.or_null RunsModel.opt_run_id RunsModel.no_options].
  unfold Helpers.generateRunId. cbn [runs]. fold runId.
  destruct (existsb (RunsModel.has_id runId) (runs w)) eqn:E.
  - split; [eexists; split; reflexivity|reflexivity].
  - eexists. split; [reflexivity|]. cbn [run_id status created_at expires_at
      brand_data competitors_10 competitors_selected kernel_data snd runs set_runs].
    repeat split.
    rewrite getRun_find. cbn [runs set_runs]. f_equal. f_equal.
    destruct (find_none_of_no_id _ _ E) as [Hv _].
    rewrite (find_app_none _ _ _ Hv). simpl. unfold Spec.visible, RunsModel.has_id. simpl.
    rewrite String.eqb_refl. reflexivity.
Qed.

#[export] Instance newer_first_total : Total RunsModel.newer_first.
Proof. intros a b. unfold RunsModel.newer_first. lia. Qed.

#[export] Instance newer_first_transitive : Transitive RunsModel.newer_first.
Proof. intros a b c. unfold RunsModel.newer_first. lia. Qed.

(** X6. [listRuns] never changes the store and returns the window
    [offset, offset + limit) (by default the first 50) of the rows with the
    requested status ([active] by default), ordered newest first: some
    ordering of exactly the rows of the table with that status, newest
    first, has the returned rows at these positions.  So the number of rows
    returned is the smaller of [limit] and the number of rows with the status
    past the first [offset]; every returned row is in the table and has the
    status; and from offset 0, when [limit] is at least the number of rows
    with the status, every such row is returned.  The deadline of a run plays
    no role: a run past its deadline is listed like any other. *)
Theorem listRuns_window :
  forall (filters : RunsModel.ListFilters) (w : World),
    let limit := match RunsModel.filter_limit filters with Some n => n | None => 50%nat end in
    let offset := match RunsModel.filter_offset filters with Some n => n | None => 0%nat end in
    let wanted :=
      match RunsModel.filter_status filters with Some st => st | None => active end in
    let matching := List.filter (fun r => RunStatus_eqb (status r) wanted) (runs w) in
    exists ordered rows,
      RunsModel.listRuns filters w = (Return rows, w)
      /\ Permutation ordered matching
      /\ StronglySorted RunsModel.newer_first ordered
      /\ rows = firstn limit (skipn offset ordered)
      /\ length rows = Nat.min limit (length matching - offset)
      /\ (forall r, In r rows -> In r (runs w) /\ status r = wanted)
      /\ StronglySorted RunsModel.newer_first rows
      /\ (offset = 0%nat -> (length matching <= limit)%nat ->
          forall r, In r (runs w) -> status r = wanted -> In r rows).
Proof.
  intros filters w limit offset wanted matching.
  set (sorted := @merge_sort _ RunsModel.newer_first RunsModel.newer_first_dec matching).
  assert (P : Permutation sorted matching) by apply merge_sort_Permutation.
  assert (S : StronglySorted RunsModel.newer_first sorted)
    by (apply StronglySorted_merge_sort; apply _).
  assert (M : forall r, In r matching <-> In r (runs w) /\ status r = wanted).
  { intros r. subst matching. rewrite List.filter_In. apply and_iff_compat_l.
    destruct (status r), wanted; simpl; split; congruence. }
  exists sorted, (firstn limit (skipn offset sorted)).
  split; [reflexivity|]. split; [exact P|]. split; [exact S|].
  split; [reflexivity|]. split.
  { rewrite length_take, length_drop. pose proof (Permutation_length P) as L. lia. }
  split.
  { intros r Hr. apply M. apply list_elem_of_In in Hr.
    eapply elem_of_sublist in Hr; [|apply sublist_take].
    eapply elem_of_sublist in Hr; [|apply sublist_drop].
    rewrite P in Hr. apply list_elem_of_In. exact Hr. }
  split.
  { pose proof S as S'.
    rewrite <- (take_drop offset sorted) in S'. apply StronglySorted_app_1_r in S'.
    rewrite <- (take_drop limit (drop offset sorted)) in S'.
    apply StronglySorted_app_1_l in S'. exact S'. }
  intros Ho Hl r Hin Hst. rewrite Ho, drop_0.
  pose proof (Permutation_length P) as L.
  rewrite firstn_all2 by (unfold limit in *; lia).
  apply list_elem_of_In. rewrite P. apply list_elem_of_In. apply M. auto.
Qed.

(** The run of [Scenario.world_with_expired_run] is past its deadline and is
    listed. *)
Lemma listRuns_lists_a_run_past_its_deadline :
  (expires_at Scenario.expired_run < now Scenario.offline)%Z
  /\ fst (RunsModel.listRuns (RunsModel.mkListFilters None None None)
            Scenario.world_with_expired_run)
     = Return [Scenario.expired_run].
Proof. split; [vm_compute|]; reflexivity. Qed.

(* ===================================================================== *)
(** * Further properties of the scrape cache *)
(* ===================================================================== *)

Lemma lookup_key_remove (key : string) (db : list (string * RedisEntry)) :
  Redis.lookup_key key (Redis.remove_key key db) = None.
Proof.
  induction db as [|[k e] db IH]; simpl; [reflexivity|].
  destruct (String.eqb k key) eqn:E; simpl; [exact IH|].
  rewrite E. exact IH.
Qed.

Lemma lookup_key_remove_other (key other : string) (db : list (string * RedisEntry)) :
  String.eqb other key = false ->
  Redis.lookup_key other (Redis.remove_key key db) = Redis.lookup_key other db.
Proof.
  intros Hne. induction db as [|[k e] db IH]; simpl; [reflexivity|].
  destruct (String.eqb k key) eqn:E; simpl.
  - apply String.eqb_eq in E. subst k. rewrite String.eqb_sym, Hne. exact IH.
  - rewrite IH. reflexivity.
Qed.

(** What [redis.set] with a positive time to live leaves behind. *)
Lemma redis_set_outcome (env : Env) (key : string) (value : ScrapeResult)
    (seconds : Z) (w : World) :
  (0 < seconds)%Z ->
  Redis.set env key value (Some seconds) w
  = match io_fault env (RedisSETEX key) with
    | Some e => (Throw (Exn e), w)
    | None =>
        (Return tt,
         set_redis ((key, mkRedisEntry value (Some (now env + seconds * 1000)%Z))
                      :: Redis.remove_key key (redis w)) w)
    end.
Proof.
  intros H. unfold Redis.set, try_catch, Redis.client_store.
  destruct (Z.eqb_spec seconds 0) as [E|_]; [lia|].
  destruct (io_fault env (RedisSETEX key)); reflexivity.
Qed.

Lemma setCachedScraping_keeps_redis (env : Env) (url : string) (data : ScrapeResult)
    (ttl : Z) (w : World) :
  redis (snd (CacheModel.setCachedScraping env url data ttl w)) = redis w
  /\ runs (snd (CacheModel.setCachedScraping env url data ttl w)) = runs w.
Proof.
  unfold CacheModel.setCachedScraping.
  destruct (io_fault env (CacheUPSERT _)); [split; reflexivity|].
  unfold modify. cbn [snd].
  destruct (existsb _ (scraping_cache w)); split; reflexivity.
Qed.

(** X7. Read after write: when Redis accepts the write and the read and the
    time to live is positive, a lookup that follows [cacheScrapedContent]
    returns the stored result, whatever the cache held before and whether
    or not the PostgreSQL write went through. *)
Theorem cache_read_after_write (env : Env) (url : string) (data : ScrapeResult)
    (ttl : option Z) (w : World) :
  io_fault env (RedisSETEX (CacheService.cacheKey env url)) = None ->
  io_fault env (RedisGET (CacheService.cacheKey env url)) = None ->
  (0 < CacheService.actual_ttl env ttl)%Z ->
  fst (CacheService.getScrapedContent env url
         (snd (CacheService.cacheScrapedContent env url data ttl w)))
  = Return (Some data).
Proof.
  intros Hset Hget Httl. rewrite getScrapedContent_lookup. f_equal.
  unfold Spec.lookup.
  assert (F : Spec.fast_tier env url
                (snd (CacheService.cacheScrapedContent env url data ttl w))
              = Some data).
  { unfold Spec.fast_tier. rewrite Hget.
    unfold CacheService.cacheScrapedContent, try_catch, bind, CacheService.both.
    rewrite (redis_set_outcome _ _ _ _ _ Httl), Hset.
    match goal with
    | |- context [CacheModel.setCachedScraping env url data ?t ?w1] =>
        pose proof (setCachedScraping_keeps_redis env url data t w1) as [K _];
        destruct (CacheModel.setCachedScraping env url data t w1) as [[u|t'] w2]
    end; cbn [snd fst] in *; unfold ret; cbn [snd fst]; rewrite K;
      cbn [redis set_redis Redis.lookup_key];
      rewrite String.eqb_refl; unfold Redis.alive; cbn [redis_deadline redis_value];
      (destruct (Z.ltb_spec (now env) (now env + CacheService.actual_ttl env ttl * 1000));
       [reflexivity|lia]). }
  rewrite F. reflexivity.
Qed.

Lemma cache_read_after_write_witness :
  fst (CacheService.getScrapedContent Scenario.offline "https://example.com/"
         (snd (CacheService.cacheScrapedContent Scenario.offline
                 "https://example.com/" Scenario.cached_scrape None
                 Scenario.empty_world)))
  = Return (Some Scenario.cached_scrape).
Proof.
  apply (cache_read_after_write Scenario.offline "https://example.com/"
           Scenario.cached_scrape None Scenario.empty_world);
    reflexivity.
Defined.

Lemma invalidate_world (env : Env) (url : string) (w : World) :
  io_fault env (RedisDEL (CacheService.cacheKey env url)) = None ->
  io_fault env (CacheDELETE (Helpers.generateUrlHash env url)) = None ->
  CacheService.invalidate env url w
  = (Return tt,
     set_scraping_cache
       (List.filter (fun r => negb (CacheModel.has_hash (Helpers.generateUrlHash env url) r))
                    (scraping_cache w))
       (set_redis (Redis.remove_key (CacheService.cacheKey env url) (redis w)) w)).
Proof.
  intros H1 H2.
  unfold CacheService.invalidate, try_catch, bind, CacheService.both, Redis.del,
    try_catch, Redis.client_del, CacheModel.invalidateCache.
  rewrite H1, H2. reflexivity.
Qed.

Lemma no_row_after_delete (h : string) (q : CacheRow -> bool) (l : list CacheRow) :
  List.filter (fun r => (CacheModel.has_hash h r && q r)%bool)
    (List.filter (fun r => negb (CacheModel.has_hash h r)) l) = [].
Proof.
  induction l as [|r l IH]; [reflexivity|]. simpl.
  destruct (CacheModel.has_hash h r) eqn:E; simpl; [exact IH|].
  rewrite E. simpl. exact IH.
Qed.

(** X8. After [invalidate] (both stores accepting the deletion) a lookup of
    the same URL misses on both tiers and returns [null], while the Redis
    keys of other URLs are read as before. *)
Theorem invalidated_url_misses (env : Env) (url : string) (w : World) :
  io_fault env (RedisDEL (CacheService.cacheKey env url)) = None ->
  io_fault env (CacheDELETE (Helpers.generateUrlHash env url)) = None ->
  let w' := snd (CacheService.invalidate env url w) in
  fst (CacheService.getScrapedContent env url w') = Return None
  /\ Spec.fast_tier env url w' = None
  /\ Spec.durable_tier env url w' = None
  /\ (forall other,
        String.eqb (CacheService.cacheKey env other) (CacheService.cacheKey env url)
        = false ->
        Spec.fast_tier env other w' = Spec.fast_tier env other w).
Proof.
  intros H1 H2 w'. subst w'. rewrite (invalidate_world _ _ _ H1 H2). cbn [snd].
  assert (F : Spec.fast_tier env url
                (set_scraping_cache
                   (List.filter
                      (fun r => negb (CacheModel.has_hash (Helpers.generateUrlHash env url) r))
                      (scraping_cache w))
                   (set_redis (Redis.remove_key (CacheService.cacheKey env url) (redis w)) w))
              = None).
  { unfold Spec.fast_tier. cbn [redis set_redis set_scraping_cache].
    rewrite lookup_key_remove. destruct (io_fault env (RedisGET _)); reflexivity. }
  assert (D : Spec.durable_tier env url
                (set_scraping_cache
                   (List.filter
                      (fun r => negb (CacheModel.has_hash (Helpers.generateUrlHash env url) r))
                      (scraping_cache w))
                   (set_redis (Redis.remove_key (CacheService.cacheKey env url) (redis w)) w))
              = None).
  { unfold Spec.durable_tier. cbn [scraping_cache set_redis set_scraping_cache].
    rewrite no_row_after_delete. reflexivity. }
  split; [|split; [exact F|split; [exact D|]]].
  - rewrite getScrapedContent_lookup. f_equal. unfold Spec.lookup. rewrite F, D.
    destruct (io_fault env (CacheSELECT _)); reflexivity.
  - intros other Hne. unfold Spec.fast_tier. cbn [redis set_redis set_scraping_cache].
    rewrite (lookup_key_remove_other _ _ _ Hne). reflexivity.
Qed.

Lemma invalidated_url_misses_witness :
  fst (CacheService.getScrapedContent Scenario.offline "https://example.com/"
         (snd (CacheService.invalidate Scenario.offline "https://example.com/"
                 Scenario.world_with_durable_entry)))
  = Return None.
Proof.
  apply (invalidated_url_misses Scenario.offline "https://example.com/"
           Scenario.world_with_durable_entry); reflexivity.
Defined.

(** X9. Backfill: when the fast tier misses, the durable tier holds an
    unexpired entry and no store command fails, the lookup returns that
    entry, records a Redis miss and a PostgreSQL hit, bumps the access count
    of the entry by one, and leaves the entry in Redis, so that the next
    lookup is answered by the fast tier. *)
Theorem durable_hit_backfills_fast_tier (env : Env) (url : string) (w : World)
    (data : ScrapeResult) :
  io_fault env (RedisGET (CacheService.cacheKey env url)) = None ->
  io_fault env (RedisSETEX (CacheService.cacheKey env url)) = None ->
  io_fault env (CacheSELECT (Helpers.generateUrlHash env url)) = None ->
  io_fault env (CacheTOUCH (Helpers.generateUrlHash env url)) = None ->
  (0 < cache_scrapingTTL (config env))%Z ->
  Spec.fast_tier env url w = None ->
  Spec.durable_tier env url w = Some data ->
  let w' := snd (CacheService.getScrapedContent env url w) in
  fst (CacheService.getScrapedContent env url w) = Return (Some data)
  /\ events w' = events w ++ [CacheMissRecorded tier_redis; CacheHitRecorded tier_postgres]
  /\ Spec.fast_tier env url w' = Some data
  /\ List.map access_count (scraping_cache w')
     = List.map (fun r => if CacheModel.has_hash (Helpers.generateUrlHash env url) r
                          then (access_count r + 1)%Z else access_count r)
                (scraping_cache w)
  /\ CacheService.getScrapedContent env url w'
     = (Return (Some data), snd (emit (CacheHitRecorded tier_redis) w')).
Proof.
  intros Hget Hset Hsel Htouch Httl Hfast Hdur w'.
  assert (G : CacheService.getScrapedContent env url w
              = (Return (Some data),
                 set_redis
                   ((CacheService.cacheKey env url,
                     mkRedisEntry data
                       (Some (now env + cache_scrapingTTL (config env) * 1000)%Z))
                    :: Redis.remove_key (CacheService.cacheKey env url) (redis w))
                   (set_scraping_cache
                      (List.map
                         (fun r => if CacheModel.has_hash (Helpers.generateUrlHash env url) r
                                   then CacheModel.touch_row env r else r)
                         (scraping_cache w))
                      (snd (emit (CacheHitRecorded tier_postgres)
                              (snd (emit (CacheMissRecorded tier_redis) w))))))).
  { unfold Spec.fast_tier in Hfast. rewrite Hget in Hfast.
    unfold Spec.durable_tier in Hdur.
    unfold CacheService.getScrapedContent, try_catch at 1, bind at 1.
    unfold Redis.get, try_catch, bind, Redis.client_get. rewrite Hget.
    unfold gets, ret. cbn beta iota. rewrite Hfast.
    unfold CacheService.recordCacheMiss, CacheService.recordCacheHit, emit, modify.
    cbn beta iota.
    unfold CacheModel.getCachedScraping, bind. rewrite Hsel, Htouch.
    unfold gets, modify, ret. cbn beta iota. cbn [scraping_cache].
    destruct (List.filter _ (scraping_cache w)) as [|first rest] eqn:E;
      [discriminate|]. inversion Hdur; subst. cbn beta iota.
    rewrite (redis_set_outcome _ _ _ _ _ Httl), Hset. reflexivity. }
  subst w'. rewrite G. cbn [fst snd].
  split; [reflexivity|]. split; [cbn; rewrite <- app_assoc; reflexivity|].
  assert (F : Spec.fast_tier env url
                (set_redis
                   ((CacheService.cacheKey env url,
                     mkRedisEntry data
                       (Some (now env + cache_scrapingTTL (config env) * 1000)%Z))
                    :: Redis.remove_key (CacheService.cacheKey env url) (redis w))
                   (set_scraping_cache
                      (List.map
                         (fun r => if CacheModel.has_hash (Helpers.generateUrlHash env url) r
                                   then CacheModel.touch_row env r else r)
                         (scraping_cache w))
                      (snd (emit (CacheHitRecorded tier_postgres)
                              (snd (emit (CacheMissRecorded tier_redis) w))))))
              = Some data).
  { unfold Spec.fast_tier. rewrite Hget. cbn [redis set_redis Redis.lookup_key].
    rewrite String.eqb_refl. unfold Redis.alive. cbn [redis_deadline redis_value].
    destruct (Z.ltb_spec (now env) (now env + cache_scrapingTTL (config env) * 1000));
      [reflexivity|lia]. }
  split; [exact F|]. split.
  - cbn [scraping_cache set_redis set_scraping_cache]. rewrite List.map_map.
    apply List.map_ext. intros r.
    destruct (CacheModel.has_hash _ r); reflexivity.
  - unfold Spec.fast_tier in F. rewrite Hget in F.
    unfold CacheService.getScrapedContent, try_catch at 1, bind at 1.
    unfold Redis.get, try_catch, bind, Redis.client_get. rewrite Hget.
    unfold gets, ret. cbn beta iota.
    cbn [redis set_redis] in *.
    destruct (Redis.lookup_key _ _) as [e|]; [|discriminate].
    destruct (Redis.alive env e); [|discriminate]. inversion F; subst.
    reflexivity.
Qed.

Lemma durable_hit_backfills_fast_tier_witness :
  Spec.fast_tier Scenario.offline "https://example.com/"
    (snd (CacheService.getScrapedContent Scenario.offline "https://example.com/"
            Scenario.world_with_durable_entry))
  = Some Scenario.cached_scrape.
Proof.
  apply (durable_hit_backfills_fast_tier Scenario.offline "https://example.com/"
           Scenario.world_with_durable_entry Scenario.cached_scrape);
    reflexivity.
Defined.

Lemma upsert_rows (env : Env) (url : string) (data : ScrapeResult) (ttl : Z)
    (w : World) :
  io_fault env (CacheUPSERT (Helpers.generateUrlHash env url)) = None ->
  (0 < ttl)%Z ->
  exists first rest,
    List.filter (Spec.readable env (Helpers.generateUrlHash env url))
      (scraping_cache (snd (CacheModel.setCachedScraping env url data ttl w)))
    = first :: rest
    /\ cache_content first = data.
Proof.
  intros Hf Httl. unfold CacheModel.setCachedScraping. rewrite Hf.
  unfold modify. cbn [snd].
  set (h := Helpers.generateUrlHash env url).
  assert (A : (now env <? now env + ttl * 1000)%Z = true) by (apply Z.ltb_lt; lia).
  destruct (existsb (CacheModel.has_hash h) (scraping_cache w)) eqn:E;
    cbn [scraping_cache set_scraping_cache].
  - induction (scraping_cache w) as [|r l IH]; [discriminate|].
    simpl in E. simpl. destruct (CacheModel.has_hash h r) eqn:Hr.
    + unfold Spec.readable at 1. unfold CacheModel.has_hash in *. simpl.
      rewrite Hr, A. simpl. eexists _, _. split; reflexivity.
    + unfold Spec.readable at 1. rewrite Hr. simpl. apply IH. exact E.
  - induction (scraping_cache w) as [|r l IH].
    + simpl. unfold Spec.readable, CacheModel.has_hash. simpl.
      rewrite String.eqb_refl, A. simpl. eexists _, _. split; reflexivity.
    + simpl in E. apply orb_false_iff in E as [Hr E]. simpl.
      unfold Spec.readable at 1. rewrite Hr. simpl. apply IH. exact E.
Qed.

(** X10. Cache writes are absorbed: [cacheScrapedContent] and [invalidate]
    always return, whatever the stores do, and never touch the run store;
    both stores are written to independently, so when PostgreSQL accepts the
    upsert (with a positive time to live) the durable tier serves the stored
    result afterwards even if Redis rejected its write. *)
Theorem cache_write_failures_are_absorbed :
  forall (env : Env) (url : string) (data : ScrapeResult) (ttl : option Z) (w : World),
    let w' := snd (CacheService.cacheScrapedContent env url data ttl w) in
    fst (CacheService.cacheScrapedContent env url data ttl w) = Return tt
    /\ fst (CacheService.invalidate env url w) = Return tt
    /\ runs w' = runs w
    /\ runs (snd (CacheService.invalidate env url w)) = runs w
    /\ (io_fault env (CacheUPSERT (Helpers.generateUrlHash env url)) = None ->
        (0 < CacheService.actual_ttl env ttl)%Z ->
        Spec.durable_tier env url w' = Some data).
Proof.
  intros env url data ttl w w'. subst w'.
  split; [apply cacheScrapedContent_returns|].
  split; [unfold CacheService.invalidate, try_catch, bind, CacheService.both;
          split_cases|].
  split; [|split].
  - unfold CacheService.cacheScrapedContent, try_catch, bind, CacheService.both.
    destruct (Redis.set env _ data _ w) as [[u|t] w1] eqn:R.
    + assert (runs w1 = runs w) as R1.
      { unfold Redis.set, try_catch, Redis.client_store in R.
        destruct (io_fault env (RedisSETEX _)); unfold throw, modify in R;
          repeat match type of R with context [if ?b then _ else _] => destruct b end;
          inversion R; reflexivity. }
      destruct (setCachedScraping_keeps_redis env url data
                  (CacheService.actual_ttl env ttl) w1) as [_ K].
      destruct (CacheModel.setCachedScraping env url data _ w1) as [[u'|t'] w2];
        cbn [snd] in *; unfold ret; cbn [snd]; congruence.
    + assert (runs w1 = runs w) as R1.
      { unfold Redis.set, try_catch, Redis.client_store in R.
        destruct (io_fault env (RedisSETEX _)); unfold throw, modify in R;
          repeat match type of R with context [if ?b then _ else _] => destruct b end;
          inversion R; reflexivity. }
      destruct (setCachedScraping_keeps_redis env url data
                  (CacheService.actual_ttl env ttl) w1) as [_ K].
      cbn [snd]. unfold ret. cbn [snd]. congruence.
  - unfold CacheService.invalidate, try_catch, bind, CacheService.both, Redis.del,
      try_catch, Redis.client_del, CacheModel.invalidateCache.
    destruct (io_fault env (RedisDEL _)), (io_fault env (CacheDELETE _)); reflexivity.
  - intros Hf Httl.
    assert (D : scraping_cache
                  (snd (CacheService.cacheScrapedContent env url data ttl w))
                = scraping_cache
                    (snd (CacheModel.setCachedScraping env url data
                            (CacheService.actual_ttl env ttl) w))).
    { unfold CacheService.cacheScrapedContent, try_catch, bind,
        CacheService.both.
      unfold Redis.set, try_catch, Redis.client_store, CacheModel.setCachedScraping.
      rewrite Hf.
      destruct (io_fault env (RedisSETEX _)); unfold throw, modify, ret;
        repeat match goal with |- context [if (?a =? 0)%Z then _ else _] =>
                 destruct (a =? 0)%Z end;
        cbn [snd fst scraping_cache set_redis];
        destruct (existsb _ (scraping_cache w)); reflexivity. }
    unfold Spec.durable_tier. rewrite D.
    destruct (upsert_rows env url data _ w Hf Httl) as (first & rest & E & C).
    unfold Spec.readable in E. rewrite E. congruence.
Qed.

(** X11. The upsert of [setCachedScraping] keeps one row per hash: the
    hashes of the table are unchanged when a row carries the hash, and the
    hash is appended otherwise; rows of other hashes are untouched; every
    row of the hash then holds the new content, page count and deadline;
    its access count starts at 1 and grows by one on every rewrite.  When
    the statement is rejected nothing changes. *)
Theorem upsert_keeps_one_row_per_hash :
  forall (env : Env) (url : string) (data : ScrapeResult) (ttl : Z) (w : World),
    let h := Helpers.generateUrlHash env url in
    let out := CacheModel.setCachedScraping env url data ttl w in
    match io_fault env (CacheUPSERT h) with
    | Some e => out = (Throw (Exn e), w)
    | None =>
        fst out = Return tt
        /\ List.map url_hash (scraping_cache (snd out))
           = List.map url_hash (scraping_cache w)
             ++ (if existsb (CacheModel.has_hash h) (scraping_cache w) then [] else [h])
        /\ (NoDup (List.map url_hash (scraping_cache w)) ->
            NoDup (List.map url_hash (scraping_cache (snd out))))
        /\ List.filter (fun r => negb (CacheModel.has_hash h r)) (scraping_cache (snd out))
           = List.filter (fun r => negb (CacheModel.has_hash h r)) (scraping_cache w)
        /\ (forall r, In r (scraping_cache (snd out)) -> CacheModel.has_hash h r = true ->
              cache_content r = data
              /\ page_count r = length (pages data)
              /\ cache_expires_at r = (now env + ttl * 1000)%Z)
        /\ List.map access_count
             (List.filter (CacheModel.has_hash h) (scraping_cache (snd out)))
           = if existsb (CacheModel.has_hash h) (scraping_cache w)
             then List.map (fun r => (access_count r + 1)%Z)
                    (List.filter (CacheModel.has_hash h) (scraping_cache w))
             else [1%Z]
    end.
Proof.
  intros env url data ttl w h out. subst out. unfold CacheModel.setCachedScraping.
  fold h. destruct (io_fault env (CacheUPSERT h)) as [e|]; [reflexivity|].
  unfold modify. cbn [fst snd]. split; [reflexivity|].
  destruct (existsb (CacheModel.has_hash h) (scraping_cache w)) eqn:E;
    cbn [scraping_cache set_scraping_cache].
  - assert (M : List.map url_hash
                  (List.map
                     (fun r => if CacheModel.has_hash h r
                               then {| url_hash := url_hash r; cache_url := cache_url r;
                                       cache_content := data; cache_scraped_at := now env;
                                       cache_expires_at := (now env + ttl * 1000)%Z;
                                       page_count := length (pages data);
                                       total_tokens := 0%Z;
                                       access_count := (access_count r + 1)%Z;
                                       last_accessed_at := last_accessed_at r |}
                               else r) (scraping_cache w))
                = List.map url_hash (scraping_cache w)).
    { rewrite List.map_map. apply List.map_ext. intros r.
      destruct (CacheModel.has_hash h r); reflexivity. }
    split; [rewrite M, app_nil_r; reflexivity|].
    split; [rewrite M; auto|]. clear M E.
    split; [|split].
    + induction (scraping_cache w) as [|r l IH]; [reflexivity|]. simpl.
      destruct (CacheModel.has_hash h r) eqn:Hr.
      * unfold CacheModel.has_hash at 1. simpl. unfold CacheModel.has_hash in Hr.
        rewrite Hr. simpl. exact IH.
      * rewrite Hr. simpl. rewrite IH. reflexivity.
    + intros r Hin Hr. apply List.in_map_iff in Hin as (r0 & Er & _).
      destruct (CacheModel.has_hash h r0) eqn:H0; subst r; [repeat split|congruence].
    + induction (scraping_cache w) as [|r l IH]; [reflexivity|]. simpl.
      destruct (CacheModel.has_hash h r) eqn:Hr.
      * unfold CacheModel.has_hash at 1. simpl. unfold CacheModel.has_hash in Hr.
        rewrite Hr. simpl. rewrite IH. reflexivity.
      * rewrite Hr. exact IH.
  - assert (N : forall r, In r (scraping_cache w) -> CacheModel.has_hash h r = false).
    { intros r Hin. destruct (CacheModel.has_hash h r) eqn:Hr; [|reflexivity].
      assert (existsb (CacheModel.has_hash h) (scraping_cache w) = true)
        by (apply existsb_exists; eauto). congruence. }
    assert (F : List.filter (CacheModel.has_hash h) (scraping_cache w) = []).
    { clear E. induction (scraping_cache w) as [|r l IH]; [reflexivity|]. simpl.
      rewrite (N r) by (left; reflexivity). apply IH. intros x Hx. apply N.
      right. exact Hx. }
    split; [rewrite List.map_app; reflexivity|]. split.
    + intros ND. rewrite List.map_app. simpl. apply NoDup_app. split; [exact ND|].
      split; [|apply NoDup_singleton].
      intros x Hx Hx'. apply list_elem_of_singleton in Hx'. subst x.
      apply list_elem_of_In, List.in_map_iff in Hx as (r & Er & Hin).
      specialize (N r Hin). unfold CacheModel.has_hash in N.
      rewrite Er, String.eqb_refl in N. discriminate.
    + split; [|split].
      * rewrite List.filter_app. simpl. unfold CacheModel.has_hash at 2. simpl.
        rewrite String.eqb_refl. simpl. rewrite app_nil_r. reflexivity.
      * intros r Hin Hr. apply List.in_app_iff in Hin as [Hin|[<-|[]]];
          [rewrite (N r Hin) in Hr; discriminate|repeat split].
      * rewrite List.filter_app, F. simpl. unfold CacheModel.has_hash. simpl.
        rewrite String.eqb_refl. reflexivity.
Qed.

(** X12. [cleanExpired] deletes the rows whose deadline lies strictly
    before the clock and reports their number; it never deletes an entry a
    lookup could still return, so the durable tier answers every URL as
    before; Redis and the run store are not touched; a rejected statement
    changes nothing. *)
Theorem cleanExpired_keeps_readable_entries :
  forall (env : Env) (w : World),
    let w' := snd (CacheModel.cleanExpired env None w) in
    (exists n, fst (CacheModel.cleanExpired env None w) = Return n
               /\ (n + length (scraping_cache w') = length (scraping_cache w))%nat)
    /\ (forall r, In r (scraping_cache w')
                  <-> In r (scraping_cache w) /\ (now env <= cache_expires_at r)%Z)
    /\ (forall url, Spec.durable_tier env url w' = Spec.durable_tier env url w)
    /\ redis w' = redis w /\ runs w' = runs w
    /\ (forall e, CacheModel.cleanExpired env (Some e) w = (Throw (Exn e), w)).
Proof.
  intros env w w'. subst w'. unfold CacheModel.cleanExpired.
  cbn [fst snd scraping_cache set_scraping_cache redis runs].
  split; [eexists; split; [reflexivity|apply filter_length_split]|].
  split; [|split; [|repeat split]].
  - intros r. rewrite List.filter_In, negb_true_iff, Z.ltb_ge. reflexivity.
  - intros url. unfold Spec.durable_tier.
    cbn [scraping_cache set_scraping_cache].
    rewrite filter_of_filter_implied; [reflexivity|].
    intros x H. apply andb_true_iff in H as [_ H]. apply Z.ltb_lt in H.
    rewrite negb_true_iff. apply Z.ltb_ge. lia.
Qed.

(* ===================================================================== *)
(** * Further properties of the scraper *)
(* ===================================================================== *)

Lemma append_injective (p a b : string) : p +:+ a = p +:+ b -> a = b.
Proof.
  induction p as [|c p IH]; intros H; [exact H|].
  rewrite !SimpleUrlFacts.append_cons in H. inversion H. auto.
Qed.

Lemma unique_from_NoDup (seen l : list string) :
  NoDup l -> (forall x, In x l -> existsb (String.eqb x) seen = false) ->
  ScraperService.unique_from seen l = l.
Proof.
  revert seen. induction l as [|x l IH]; intros seen ND Hs; [reflexivity|].
  simpl. rewrite (Hs x) by (left; reflexivity). f_equal.
  apply NoDup_cons in ND as [Hx ND]. apply IH; [exact ND|].
  intros y Hy. simpl. rewrite (Hs y) by (right; exact Hy).
  rewrite orb_false_r. apply String.eqb_neq. intros ->.
  apply Hx. apply list_elem_of_In. exact Hy.
Qed.

Lemma commonPaths_NoDup : NoDup ScraperService.commonPaths.
Proof.
  apply NoDup_ListNoDup. unfold ScraperService.commonPaths.
  repeat (constructor; [simpl; intuition discriminate|]). constructor.
Qed.

(** X13. [discoverPages] always proposes 21 candidates, without duplicates:
    the common paths, in their order, each appended to [protocol://domain],
    where the protocol is [https] when the base URL starts with these five
    letters and [http] otherwise. *)
Theorem discoverPages_candidates :
  forall (api : UrlApi) (baseUrl : string),
    let base :=
      (if startsWith baseUrl "https" then "https" else "http")
      +:+ "://" +:+ ScraperService.render (Helpers.extractDomain baseUrl) in
    ScraperService.discoverPages baseUrl
    = List.map (fun path => base +:+ path) ScraperService.commonPaths
    /\ length (ScraperService.discoverPages baseUrl) = 21%nat
    /\ NoDup (ScraperService.discoverPages baseUrl)
    /\ head (ScraperService.discoverPages baseUrl) = Some (base +:+ "/").
Proof.
  intros api baseUrl base.
  assert (E : ScraperService.discoverPages baseUrl
              = List.map (fun path => base +:+ path) ScraperService.commonPaths).
  { unfold ScraperService.discoverPages. fold base. apply unique_from_NoDup.
    - apply NoDup_fmap_2; [|apply commonPaths_NoDup].
      intros a b H. eapply append_injective. exact H.
    - intros x _. reflexivity. }
  rewrite E. split; [reflexivity|]. split; [reflexivity|]. split; [|reflexivity].
  apply NoDup_fmap_2; [|apply commonPaths_NoDup].
  intros a b H. eapply append_injective. exact H.
Qed.

Lemma validateUrls_filter (env : Env) (urls : list string) :
  ScraperService.validateUrls env urls
  = List.filter (fun u => match fetch_head env u with
                          | HeadResponse ok _ _ => ok
                          | HeadRejects _ => false
                          end) urls.
Proof.
  unfold ScraperService.validateUrls.
  induction urls as [|u l IH]; [reflexivity|]. simpl.
  unfold ScraperService.probe at 1.
  destruct (fetch_head env u) as [[|] st fin|msg]; simpl; rewrite <- IH; reflexivity.
Qed.

Lemma sublist_List_filter {A} (p : A -> bool) (l : list A) :
  sublist (List.filter p l) l.
Proof.
  induction l as [|x l IH]; simpl; [constructor|].
  destruct (p x); [apply sublist_skip|apply sublist_cons]; exact IH.
Qed.

(** X14. The probe step absorbs every failure: [validateUrls] returns, in
    their order, exactly the candidates whose HEAD request was answered with
    an ok status; a rejected request or a status outside 2xx only drops
    the candidate. *)
Theorem validateUrls_keeps_reachable_candidates :
  forall (env : Env) (urls : list string),
    sublist (ScraperService.validateUrls env urls) urls
    /\ (forall u, In u (ScraperService.validateUrls env urls)
                  <-> In u urls
                      /\ exists st final, fetch_head env u = HeadResponse true st final)
    /\ ((forall u, In u urls -> exists msg, fetch_head env u = HeadRejects msg) ->
        ScraperService.validateUrls env urls = []).
Proof.
  intros env urls. rewrite validateUrls_filter. split; [apply sublist_List_filter|].
  split.
  - intros u. rewrite List.filter_In. apply and_iff_compat_l.
    destruct (fetch_head env u) as [[|] st fin|msg]; split;
      try discriminate; eauto; intros (st' & fin' & H); discriminate H.
  - intros H. induction urls as [|u l IH]; [reflexivity|]. simpl.
    destruct (H u (or_introl eq_refl)) as [msg ->]. apply IH.
    intros x Hx. apply H. right. exact Hx.
Qed.






(** With [SCRAPE_CONCURRENCY=-1] the batch size is -1, and a thousand
    iterations over one URL do not reach the end of the loop; with
    [SCRAPE_CONCURRENCY=0] the batch size is 5. *)
Lemma scrapePages_with_a_negative_batch_size :
  configured_concurrency (Some (-1)%Z) = (-1)%Z
  /\ configured_concurrency (Some 0%Z) = 5%Z
  /\ ScraperService.scrapePages_loop Scenario.env_web_ok
       (configured_concurrency (Some (-1)%Z)) 1000 0 ["https://example.com/"] []
     = None.
Proof. repeat split; vm_compute; reflexivity. Qed.

Lemma jaccard_intersection (a b : gset string) :
  filter (fun x => x ∈ b) a = a ∩ b.
Proof. apply set_eq. intros x. rewrite elem_of_filter, elem_of_intersection. tauto. Qed.

Lemma jaccardSimilarity_self (a : gset string) :
  a ≠ ∅ -> (Helpers.jaccardSimilarity a a == 1)%Q.
Proof.
  intros Hne. unfold Helpers.jaccardSimilarity. rewrite jaccard_intersection.
  replace (a ∩ a) with a by set_solver. replace (a ∪ a) with a by set_solver.
  assert (P : (0 < size a)%nat).
  { destruct (size a) eqn:E; [|lia]. apply size_empty_inv in E.
    exfalso. apply Hne. apply leibniz_equiv. exact E. }
  unfold Qdiv. apply Qmult_inv_r. intros Hz.
  pose proof (num_of_nat_pos P) as Q0. rewrite Hz in Q0.
  apply (Qlt_irrefl 0). exact Q0.
Qed.

(** X16. [jaccardSimilarity] is symmetric and takes its values between 0
    and 1: it is 1 on two equal non-empty sets, 0 on disjoint sets, and 0
    (for JavaScript's [NaN]) on two empty sets. *)
Theorem jaccardSimilarity_range :
  forall (a b : gset string),
    (0 <= Helpers.jaccardSimilarity a b <= 1)%Q
    /\ Helpers.jaccardSimilarity a b = Helpers.jaccardSimilarity b a
    /\ (a ≠ ∅ -> Helpers.jaccardSimilarity a a == 1)%Q
    /\ (a ## b -> Helpers.jaccardSimilarity a b == 0)%Q
    /\ (Helpers.jaccardSimilarity ∅ ∅ == 0)%Q.
Proof.
  intros a b. unfold Helpers.jaccardSimilarity.
  split; [|split; [apply jaccardSimilarity_sym|split; [|split]]].
  - rewrite jaccard_intersection.
    assert (L : (size (a ∩ b) <= size (a ∪ b))%nat)
      by (apply subseteq_size; set_solver).
    destruct (size (a ∪ b)) as [|n] eqn:E.
    + assert (size (a ∩ b) = 0)%nat as -> by lia.
      unfold num_of_nat. simpl. unfold Qdiv. rewrite Qmult_0_l. split; discriminate.
    + apply ratio_bounds; lia.
  - fold (Helpers.jaccardSimilarity a a). apply jaccardSimilarity_self.
  - intros Hd. rewrite jaccard_intersection.
    replace (a ∩ b) with (∅ : gset string) by set_solver.
    rewrite size_empty. unfold num_of_nat. simpl. unfold Qdiv.
    rewrite Qmult_0_l. reflexivity.
  - reflexivity.
Qed.

Lemma split_spaces_from_first (in_run : bool) (cur s : string) :
  exists x l, split_spaces_from in_run cur s = x :: l.
Proof.
  revert in_run cur. induction s as [|c s IH]; intros in_run cur; simpl; [eauto|].
  destruct (is_space c); [destruct in_run|]; eauto.
Qed.

Lemma words_nonempty (p : Page) : ScraperService.words p ≠ ∅.
Proof.
  unfold ScraperService.words, split_spaces.
  destruct (split_spaces_from_first false EmptyString (toLowerCase (page_content p)))
    as (x & l & ->).
  simpl. set_solver.
Qed.

Lemma isDuplicate_false_intro (unique : list Page) (p : Page) :
  (forall u, In u unique -> (Spec.similarity p u <= 0.8)%Q) ->
  ScraperService.isDuplicate unique p = false.
Proof.
  intros H. destruct (ScraperService.isDuplicate unique p) eqn:E; [|reflexivity].
  apply isDuplicate_iff in E as (u & Hin & Hlt). exfalso.
  eapply Qlt_not_le; [exact Hlt|]. apply H. exact Hin.
Qed.

Lemma dedup_loop_fixed (rest unique : list Page) :
  Spec.pairwise_dissimilar (unique ++ rest) ->
  ScraperService.dedup_loop unique rest = unique ++ rest.
Proof.
  revert unique. induction rest as [|p rest IH]; intros unique HP; simpl.
  - rewrite app_nil_r. reflexivity.
  - rewrite isDuplicate_false_intro.
    + rewrite IH; rewrite <- app_assoc; [reflexivity|exact HP].
    + intros u Hu. apply list_elem_of_In, list_elem_of_lookup in Hu as [i Hi].
      apply (HP (length unique) i p u).
      * apply lookup_lt_Some in Hi. lia.
      * rewrite lookup_app_r by lia. rewrite Nat.sub_diag. reflexivity.
      * rewrite lookup_app_l by (eapply lookup_lt_Some; exact Hi). exact Hi.
Qed.

(** X17. Deduplication is idempotent, never returns more pages than it
    was given, returns no page only for no page, and leaves a list alone
    whose pages are pairwise at most 0.8 similar. *)
Theorem deduplicateContent_idempotent :
  forall (pages : list Page),
    ScraperService.deduplicateContent (ScraperService.deduplicateContent pages)
    = ScraperService.deduplicateContent pages
    /\ (length (ScraperService.deduplicateContent pages) <= length pages)%nat
    /\ (ScraperService.deduplicateContent pages = [] <-> pages = [])
    /\ (Spec.pairwise_dissimilar pages ->
        ScraperService.deduplicateContent pages = pages).
Proof.
  intros pages.
  assert (Fix : forall l, Spec.pairwise_dissimilar l ->
                          ScraperService.deduplicateContent l = l).
  { intros [|first rest] HP; [reflexivity|]. simpl.
    apply (dedup_loop_fixed rest [first]). exact HP. }
  destruct pages as [|first rest].
  - repeat split; auto.
  - destruct (dedup_loop_extends rest [first]) as (kept & E & S).
    split; [|split; [|split; [|apply Fix]]].
    + apply Fix. simpl. apply dedup_loop_dissimilar.
      intros i j p q Hij Hi Hj. destruct i, j; simpl in *; try discriminate; lia.
    + simpl. rewrite E. simpl. apply sublist_length in S. lia.
    + simpl. rewrite E. split; discriminate.
Qed.

(** X18. Two pages with the same set of lower-cased words never both
    survive deduplication: their similarity is 1, so the later one is
    discarded. *)
Theorem deduplicateContent_drops_equal_word_sets :
  forall (pages : list Page) (i j : nat) (p q : Page),
    i <> j ->
    ScraperService.deduplicateContent pages !! i = Some p ->
    ScraperService.deduplicateContent pages !! j = Some q ->
    ScraperService.words p <> ScraperService.words q.
Proof.
  intros pages i j p q Hij Hi Hj Heq.
  assert (HP : Spec.pairwise_dissimilar (ScraperService.deduplicateContent pages)).
  { destruct pages as [|first rest]; [intros a b x y _ H; discriminate H|].
    simpl. apply dedup_loop_dissimilar.
    intros a b x y Hab Ha Hb. destruct a, b; simpl in *; try discriminate; lia. }
  specialize (HP i j p q Hij Hi Hj). unfold Spec.similarity in HP.
  rewrite Heq in HP.
  pose proof (jaccardSimilarity_self _ (words_nonempty q)) as H1.
  rewrite H1 in HP. revert HP. apply Qlt_not_le. reflexivity.
Qed.

Lemma deduplicateContent_drops_equal_word_sets_witness :
  ScraperService.words Scenario.page_upper <> ScraperService.words Scenario.page_lower.
Proof.
  apply (deduplicateContent_drops_equal_word_sets
           [Scenario.page_upper; Scenario.page_lower] 0%nat 1%nat);
    [lia|reflexivity|reflexivity].
Defined.

(** ** A second scrape is answered by the cache *)

Lemma fast_tier_hit (env : Env) (url : string) (w : World) (data : ScrapeResult) :
  Spec.fast_tier env url w = Some data ->
  CacheService.getScrapedContent env url w
  = (Return (Some data), snd (emit (CacheHitRecorded tier_redis) w)).
Proof.
  intros F. unfold Spec.fast_tier in F.
  destruct (io_fault env (RedisGET (CacheService.cacheKey env url))) eqn:Hget;
    [discriminate|].
  unfold CacheService.getScrapedContent, try_catch at 1, bind at 1.
  unfold Redis.get, try_catch, bind, Redis.client_get. rewrite Hget.
  unfold gets, ret. cbn beta iota.
  destruct (Redis.lookup_key _ _) as [e|]; [|discriminate].
  destruct (Redis.alive env e); [|discriminate]. inversion F; subst.
  reflexivity.
Qed.

Lemma fresh_entry_is_read (env : Env) (url : string) (data : ScrapeResult)
    (seconds : Z) (w w0 : World) :
  io_fault env (RedisGET (CacheService.cacheKey env url)) = None ->
  (0 < seconds)%Z ->
  redis w
  = (CacheService.cacheKey env url,
     mkRedisEntry data (Some (now env + seconds * 1000)%Z))
    :: Redis.remove_key (CacheService.cacheKey env url) (redis w0) ->
  Spec.fast_tier env url w = Some data.
Proof.
  intros Hget Hs E. unfold Spec.fast_tier. rewrite Hget, E.
  cbn [Redis.lookup_key]. rewrite String.eqb_refl.
  unfold Redis.alive. cbn [redis_deadline redis_value].
  destruct (Z.ltb_spec (now env) (now env + seconds * 1000)); [reflexivity|lia].
Qed.

Lemma cacheScrapedContent_fills_fast_tier (env : Env) (url : string)
    (data : ScrapeResult) (ttl : option Z) (w : World) :
  io_fault env (RedisSETEX (CacheService.cacheKey env url)) = None ->
  io_fault env (RedisGET (CacheService.cacheKey env url)) = None ->
  (0 < CacheService.actual_ttl env ttl)%Z ->
  Spec.fast_tier env url (snd (CacheService.cacheScrapedContent env url data ttl w))
  = Some data.
Proof.
  intros Hset Hget Httl.
  apply (fresh_entry_is_read env url data (CacheService.actual_ttl env ttl) _ w Hget Httl).
  unfold CacheService.cacheScrapedContent, try_catch, bind, CacheService.both.
  rewrite (redis_set_outcome _ _ _ _ _ Httl), Hset.
  match goal with
  | |- context [CacheModel.setCachedScraping env url data ?t ?w1] =>
      pose proof (setCachedScraping_keeps_redis env url data t w1) as [K _];
      destruct (CacheModel.setCachedScraping env url data t w1) as [[u|t'] w2]
  end; cbn [snd fst] in *; unfold ret; cbn [snd fst]; rewrite K; reflexivity.
Qed.

Lemma lookup_hit_fills_fast_tier (env : Env) (url : string) (w : World)
    (data : ScrapeResult) :
  io_fault env (RedisGET (CacheService.cacheKey env url)) = None ->
  (0 < cache_scrapingTTL (config env))%Z ->
  Spec.lookup env url w = Some data ->
  Spec.fast_tier env url (snd (CacheService.getScrapedContent env url w)) = Some data.
Proof.
  intros Hget Httl L. unfold Spec.lookup in L.
  destruct (Spec.fast_tier env url w) as [d|] eqn:F.
  - inversion L; subst d. rewrite (fast_tier_hit env url w data F). exact F.
  - destruct (io_fault env (CacheSELECT (Helpers.generateUrlHash env url))) eqn:Hsel;
      [discriminate|].
    destruct (Spec.durable_tier env url w) as [d|] eqn:Hdur; [|discriminate].
    destruct (io_fault env (CacheTOUCH (Helpers.generateUrlHash env url))) eqn:Htouch;
      [discriminate|].
    destruct (io_fault env (RedisSETEX (CacheService.cacheKey env url))) eqn:Hset;
      [discriminate|].
    inversion L; subst d.
    apply (fresh_entry_is_read env url data (cache_scrapingTTL (config env)) _ w
             Hget Httl).
    unfold Spec.fast_tier in F. rewrite Hget in F.
    unfold Spec.durable_tier in Hdur.
    unfold CacheService.getScrapedContent, try_catch at 1, bind at 1.
    unfold Redis.get, try_catch, bind, Redis.client_get. rewrite Hget.
    unfold gets, ret. cbn beta iota. rewrite F.
    unfold CacheService.recordCacheMiss, CacheService.recordCacheHit, emit, modify.
    cbn beta iota.
    unfold CacheModel.getCachedScraping, bind. rewrite Hsel, Htouch.
    unfold gets, modify, ret. cbn beta iota. cbn [scraping_cache].
    destruct (List.filter _ (scraping_cache w)) as [|first rest] eqn:E;
      [discriminate|]. inversion Hdur; subst. cbn beta iota.
    rewrite (redis_set_outcome _ _ _ _ _ Httl), Hset. reflexivity.
Qed.

Lemma freshScrape_returned (api : UrlApi) (env : Env) (sanitized : string)
    (domain : option string) (start : Z) (w : World) (r : ScrapeResult) (w1 : World) :
  ScraperService.freshScrape env sanitized domain start w = (Return r, w1) ->
  exists w0, w1 = snd (CacheService.cacheScrapedContent env sanitized r None w0).
Proof.
  unfold ScraperService.freshScrape, try_catch.
  destruct (Nat.eqb _ 0); [discriminate|].
  unfold bind at 1. cbn [ScraperService.recordScraping emit modify]. unfold bind.
  match goal with
  | |- context [CacheService.cacheScrapedContent env sanitized ?r0 None ?w0] =>
      generalize r0; intros result; generalize w0; intros w0'
  end.
  pose proof (cacheScrapedContent_returns env sanitized result None w0') as H.
  destruct (CacheService.cacheScrapedContent env sanitized result None w0')
    as [c w2] eqn:E.
  cbn [fst] in H. subst c. unfold ret. intros G.
  injection G as -> ->. exists w0'. rewrite E. reflexivity.
Qed.

(** X19. A scrape that returned is repeated from the cache: with Redis
    accepting the read and the write of the URL's key and a positive default
    time to live, scraping the same URL again at the same clock reading
    returns the same result, and all it does is record one Redis hit (no
    fresh scrape is recorded and no store changes). *)
Theorem second_scrape_is_served_from_cache (api : UrlApi) (env : Env)
    (url sanitized : string) (w w1 : World) (r : ScrapeResult) :
  Helpers.sanitizeUrl url = Return sanitized ->
  io_fault env (RedisGET (CacheService.cacheKey env sanitized)) = None ->
  io_fault env (RedisSETEX (CacheService.cacheKey env sanitized)) = None ->
  (0 < cache_scrapingTTL (config env))%Z ->
  ScraperService.scrapeWebsite env url w = (Return r, w1) ->
  ScraperService.scrapeWebsite env url w1
  = (Return r, snd (emit (CacheHitRecorded tier_redis) w1)).
Proof.
  intros Hs Hget Hset Httl H1.
  assert (F : Spec.fast_tier env sanitized w1 = Some r).
  { pose proof (scrapeWebsite_dispatch api env url w) as D. rewrite Hs in D.
    cbv zeta in D.
    destruct (Spec.lookup env sanitized w) as [hit|] eqn:L.
    - rewrite D in H1. inversion H1; subst.
      apply lookup_hit_fills_fast_tier; assumption.
    - rewrite D in H1. apply freshScrape_returned in H1 as [w0 ->].
      apply cacheScrapedContent_fills_fast_tier; assumption. }
  unfold ScraperService.scrapeWebsite. rewrite Hs. unfold bind.
  rewrite (fast_tier_hit env sanitized w1 r F). reflexivity.
Qed.

Lemma second_scrape_is_served_from_cache_witness :
  exists r w1,
    ScraperService.scrapeWebsite Scenario.env_no_page_loads "https://example.com"
      Scenario.empty_world = (Return r, w1)
    /\ ScraperService.scrapeWebsite Scenario.env_no_page_loads "https://example.com" w1
       = (Return r, snd (emit (CacheHitRecorded tier_redis) w1)).
Proof.
  eexists _, _. split; [vm_compute; reflexivity|].
  apply (second_scrape_is_served_from_cache simple_url_api Scenario.env_no_page_loads
           "https://example.com" "https://example.com/" Scenario.empty_world);
    [vm_compute; reflexivity|reflexivity|reflexivity|reflexivity
    |vm_compute; reflexivity].
Defined.

(* ===================================================================== *)
(** * Further properties of the evidence validator *)
(* ===================================================================== *)

Lemma verdict_url_same (api : UrlApi) (env : Env) (url : string)
    (allowedDomains : list (option string)) :
  EvidenceService.verdict_url (EvidenceService.validateUrl env url allowedDomains) = url.
Proof.
  unfold EvidenceService.validateUrl.
  destruct (negb _); [reflexivity|].
  destruct (fetch_head env url) as [ok st fin|msg]; [|reflexivity].
  destruct (negb _); [reflexivity|]. destruct (negb ok); reflexivity.
Qed.

Lemma verdict_valid_inv (api : UrlApi) (env : Env) (url : string)
    (allowedDomains : list (option string)) :
  EvidenceService.verdict_valid (EvidenceService.validateUrl env url allowedDomains) = true ->
  EvidenceService.allowed allowedDomains (Helpers.extractDomain url) = true
  /\ exists http_status final_url,
       fetch_head env url = HeadResponse true http_status final_url
       /\ EvidenceService.allowed allowedDomains (Helpers.extractDomain final_url) = true.
Proof.
  unfold EvidenceService.validateUrl.
  destruct (EvidenceService.allowed allowedDomains (Helpers.extractDomain url));
    [|discriminate].
  cbn [negb]. destruct (fetch_head env url) as [ok st fin|msg]; [|discriminate].
  destruct (EvidenceService.allowed allowedDomains (Helpers.extractDomain fin)) eqn:E;
    [|discriminate].
  cbn [negb]. destruct ok; [|discriminate].
  intros _. split; [reflexivity|]. exists st, fin. split; [reflexivity|exact E].
Qed.

Lemma filter_map_verdicts (api : UrlApi) (env : Env)
    (allowedDomains : list (option string)) (keep : bool -> bool) (urls : list string) :
  List.map EvidenceService.verdict_url
    (List.filter (fun r => keep (EvidenceService.verdict_valid r))
       (List.map (fun url => EvidenceService.validateUrl env url allowedDomains) urls))
  = List.filter
      (fun url => keep (EvidenceService.verdict_valid
                          (EvidenceService.validateUrl env url allowedDomains)))
      urls.
Proof.
  induction urls as [|u urls IH]; [reflexivity|]. simpl.
  destruct (keep _); simpl; [rewrite verdict_url_same; f_equal|]; exact IH.
Qed.

(** X20. [checkEvidenceRefs] sorts every citation into exactly one of the
    two lists, keeping the order of the input: [valid] holds the citations
    whose check succeeded, [invalid] the others, and the two lengths add up
    to the number of citations.  A citation is valid only if its domain is
    one of the allowed ones and the HEAD request was answered with an OK
    status from a final URL whose domain is allowed too. *)
Theorem checkEvidenceRefs_partitions_citations :
  forall (api : UrlApi) (env : Env) (urls : list string)
         (allowedDomains : list (option string)),
    let check := EvidenceService.checkEvidenceRefs env urls allowedDomains in
    let ok := fun url =>
      EvidenceService.verdict_valid (EvidenceService.validateUrl env url allowedDomains) in
    valid check = List.filter ok urls
    /\ List.map fst (invalid check) = List.filter (fun url => negb (ok url)) urls
    /\ (length (valid check) + length (invalid check) = length urls)%nat
    /\ (forall url, In url (valid check) ->
          In url urls
          /\ EvidenceService.allowed allowedDomains (Helpers.extractDomain url) = true
          /\ exists http_status final_url,
               fetch_head env url = HeadResponse true http_status final_url
               /\ EvidenceService.allowed allowedDomains
                    (Helpers.extractDomain final_url) = true).
Proof.
  intros api env urls allowedDomains check ok.
  assert (V : valid check = List.filter ok urls).
  { subst check. unfold EvidenceService.checkEvidenceRefs.
    destruct urls as [|u urls]; [reflexivity|]. cbn [length Nat.eqb valid].
    apply (filter_map_verdicts api env allowedDomains (fun b => b)). }
  assert (I : List.map fst (invalid check) = List.filter (fun url => negb (ok url)) urls).
  { subst check. unfold EvidenceService.checkEvidenceRefs.
    destruct urls as [|u urls]; [reflexivity|]. cbn [length Nat.eqb invalid].
    rewrite List.map_map. cbn [fst].
    apply (filter_map_verdicts api env allowedDomains negb). }
  split; [exact V|]. split; [exact I|]. split.
  - rewrite <- (List.length_map fst (invalid check)), V, I.
    apply filter_length_split.
  - intros url Hin. rewrite V in Hin. apply List.filter_In in Hin as [Hin Hok].
    split; [exact Hin|]. apply (verdict_valid_inv api env url allowedDomains Hok).
Qed.

Lemma full_penalty (n : nat) :
  (0 < n)%nat -> (EvidenceService.calculateConfidencePenalty n n == 0.3)%Q.
Proof.
  intros Hn. unfold EvidenceService.calculateConfidencePenalty.
  destruct (Nat.eqb_spec n 0) as [E|_]; [lia|].
  assert (R : (num_of_nat n / num_of_nat n == 1)%Q).
  { unfold Qdiv. apply Qmult_inv_r. intros Hz.
    pose proof (num_of_nat_pos Hn) as P. rewrite Hz in P.
    apply (Qlt_irrefl 0). exact P. }
  rewrite R. reflexivity.
Qed.

(** X21. Citations outside the allowed domains are rejected without any
    request being made: when no citation of a non-empty list has an allowed
    domain, whatever the web answers, no citation is valid, each is reported
    with the reason "Domain not in allowed list", and the penalty is the
    full 0.3; the adjusted confidence is then [max 0 (r - 0.3)]. *)
Theorem foreign_citations_cost_the_full_penalty :
  forall (api : UrlApi) (env : Env) (urls : list string)
         (allowedDomains : list (option string)) (analysis : Analysis),
    urls <> [] ->
    (forall url, In url urls ->
       EvidenceService.allowed allowedDomains (Helpers.extractDomain url) = false) ->
    let check := EvidenceService.checkEvidenceRefs env urls allowedDomains in
    valid check = []
    /\ invalid check = List.map (fun url => (url, "Domain not in allowed list")) urls
    /\ (confidence_penalty check == 0.3)%Q
    /\ (Stage1Routes.adjustedConfidence analysis check
        == Qmax 0 (an_confidence_0_1 analysis - 0.3))%Q.
Proof.
  intros api env urls allowedDomains analysis Hne Hforeign check.
  assert (R : List.map (fun url => EvidenceService.validateUrl env url allowedDomains) urls
              = List.map (fun url => EvidenceService.mkUrlVerdict false url
                                       "Domain not in allowed list") urls).
  { apply List.map_ext_in. intros url Hin. unfold EvidenceService.validateUrl.
    rewrite (Hforeign url Hin). reflexivity. }
  assert (V : valid check = []
              /\ invalid check
                 = List.map (fun url => (url, "Domain not in allowed list")) urls).
  { subst check. unfold EvidenceService.checkEvidenceRefs.
    destruct urls as [|u urls]; [contradiction|].
    cbn [length Nat.eqb valid invalid]. rewrite R. clear.
    generalize (u :: urls). intros l.
    induction l as [|x l [IH1 IH2]]; [split; reflexivity|].
    simpl. split; [exact IH1|f_equal; exact IH2]. }
  destruct V as [V I].
  assert (P : (confidence_penalty check == 0.3)%Q).
  { assert (E : confidence_penalty check
                = EvidenceService.calculateConfidencePenalty
                    (length (invalid check)) (length urls)).
    { subst check. unfold EvidenceService.checkEvidenceRefs.
      destruct urls as [|u urls]; [contradiction|]. reflexivity. }
    rewrite E, I, List.length_map. apply full_penalty.
    destruct urls; [contradiction|simpl; lia]. }
  split; [exact V|]. split; [exact I|]. split; [exact P|].
  unfold Stage1Routes.adjustedConfidence. rewrite P. reflexivity.
Qed.

Lemma foreign_citations_cost_the_full_penalty_witness :
  valid (EvidenceService.checkEvidenceRefs Scenario.env_web_ok
           ["https://other.org/proof"] [Some "example.com"]) = []
  /\ (confidence_penalty
        (EvidenceService.checkEvidenceRefs Scenario.env_web_ok
           ["https://other.org/proof"] [Some "example.com"]) == 0.3)%Q.
Proof.
  destruct (foreign_citations_cost_the_full_penalty simple_url_api Scenario.env_web_ok
              ["https://other.org/proof"] [Some "example.com"]
              Scenario.sample_analysis) as (V & _ & P & _).
  - discriminate.
  - intros url [<- | []]. vm_compute. reflexivity.
  - split; [exact V|exact P].
Defined.

(* ===================================================================== *)
(** * Further properties of the retry helper and the LLM gateway *)
(* ===================================================================== *)

Lemma observed_nil (w : World) : Spec.observed [] w = w.
Proof. destruct w. unfold Spec.observed. simpl. rewrite app_nil_r. reflexivity. Qed.

Lemma observed_app (es1 es2 : list Event) (w : World) :
  Spec.observed es2 (Spec.observed es1 w) = Spec.observed (es1 ++ es2) w.
Proof. unfold Spec.observed. simpl. rewrite <- app_assoc. reflexivity. Qed.

Lemma emit_observed (e : Event) (w : World) : snd (emit e w) = Spec.observed [e] w.
Proof. reflexivity. Qed.

Lemma is_client_error_range (e : JsError) :
  Helpers.is_client_error e = true
  <-> exists sc, statusCode e = Some sc /\ (400 <= sc < 500)%Z.
Proof.
  unfold Helpers.is_client_error. destruct (statusCode e) as [sc|].
  - rewrite !andb_true_iff, negb_true_iff, Z.eqb_neq, Z.leb_le, Z.ltb_lt. split.
    + intros [[_ H1] H2]. exists sc. split; [reflexivity|lia].
    + intros (sc' & E & H). inversion E; subst. lia.
  - split; [discriminate|]. intros (sc & E & _). discriminate.
Qed.

Lemma retry_from_all_fail {A} (fn : M World A) (e : JsError) (ev : Event)
    (n : nat) (baseDelay : Z) :
  (forall v, fn v = (Throw (Exn e), snd (emit ev v))) ->
  Helpers.is_client_error e = false ->
  forall (remaining from : nat) (lastError : Thrown) (w : World),
    Helpers.retry_from fn n baseDelay remaining (S from) lastError w
    = (Throw (match remaining with O => lastError | S _ => Exn e end),
       Spec.observed (Spec.backoff_trace ev baseDelay n from remaining) w).
Proof.
  intros Hfn Hnc remaining.
  induction remaining as [|remaining IH]; intros from lastError w.
  - unfold Spec.backoff_trace. simpl. rewrite observed_nil. reflexivity.
  - rewrite retry_from_step, Hfn, Hnc, IH. f_equal.
    + destruct remaining; reflexivity.
    + unfold Spec.backoff_trace. cbn [seq flat_map].
      replace (Z.of_nat (S from) - 1)%Z with (Z.of_nat from) by lia.
      destruct (Nat.ltb (S from) n).
      * unfold Helpers.sleep. rewrite !emit_observed, !observed_app. reflexivity.
      * rewrite emit_observed, observed_app. reflexivity.
Qed.

(** X22. [retry] over a function that fails every time in the same way,
    each attempt being observed as [ev].  Unless the error carries a status
    code from 400 to 499, the function is tried [maxAttempts] times, with a
    wait of [baseDelay * 2 ^ (k - 1)] after the k-th attempt and none after
    the last, and its error is rethrown; with zero attempts nothing is tried
    and [undefined] is thrown.  With a status code from 400 to 499 the first
    failure is rethrown at once, without a wait. *)
Theorem retry_attempts_and_waits :
  forall (A : Type) (fn : M World A) (e : JsError) (ev : Event)
         (maxAttempts : nat) (baseDelay : Z) (w : World),
    (forall v, fn v = (Throw (Exn e), snd (emit ev v))) ->
    ((forall sc, statusCode e = Some sc -> ~ (400 <= sc < 500)%Z) ->
       Helpers.retry fn maxAttempts baseDelay w
       = (Throw (match maxAttempts with O => Undefined | S _ => Exn e end),
          Spec.observed (Spec.backoff_trace ev baseDelay maxAttempts 0 maxAttempts) w))
    /\ (forall sc, statusCode e = Some sc -> (400 <= sc < 500)%Z ->
          (0 < maxAttempts)%nat ->
          Helpers.retry fn maxAttempts baseDelay w
          = (Throw (Exn e), Spec.observed [ev] w)).
Proof.
  intros A fn e ev maxAttempts baseDelay w Hfn. split.
  - intros Hsc. unfold Helpers.retry. apply retry_from_all_fail; [exact Hfn|].
    destruct (Helpers.is_client_error e) eqn:E; [|reflexivity].
    apply is_client_error_range in E as (sc & E1 & E2).
    exfalso. exact (Hsc sc E1 E2).
  - intros sc E1 E2 Hn. unfold Helpers.retry.
    destruct maxAttempts as [|m]; [lia|].
    rewrite retry_from_step, Hfn.
    assert (C : Helpers.is_client_error e = true)
      by (apply is_client_error_range; exists sc; split; assumption).
    rewrite C. reflexivity.
Qed.

Lemma retry_attempts_and_waits_witness :
  Helpers.retry
    (OpenAIService.sdk_request Scenario.offline 0 kernel_assembly
       (KernelPrompt Scenario.sample_brand []))
    4 1000 Scenario.empty_world
  = (Throw (Exn (Scenario.api_error 500)),
     Spec.observed
       [HttpRequestSent kernel_assembly; Slept 1000;
        HttpRequestSent kernel_assembly; Slept 2000;
        HttpRequestSent kernel_assembly; Slept 4000;
        HttpRequestSent kernel_assembly] Scenario.empty_world).
Proof.
  apply (retry_attempts_and_waits (Z * string)
           (OpenAIService.sdk_request Scenario.offline 0 kernel_assembly
              (KernelPrompt Scenario.sample_brand []))
           (Scenario.api_error 500)
           (HttpRequestSent kernel_assembly) 4 1000 Scenario.empty_world).
  - intros v. reflexivity.
  - intros sc E. vm_compute in E. discriminate E.
Defined.

(** ** The gateway's failures *)

Lemma sdk_request_observed (env : Env) (retries : nat) (endpoint : Endpoint)
    (prompt : Prompt) (w : World) :
  exists es,
    snd (OpenAIService.sdk_request env retries endpoint prompt w) = Spec.observed es w.
Proof.
  revert w. induction retries as [|retries IH]; intros w; rewrite sdk_request_step;
    destruct (provider env (http_requests w) prompt) as [tokens content|e];
    try (eexists; apply emit_observed).
  destruct (OpenAIService.sdk_shouldRetry e); [|eexists; apply emit_observed].
  destruct (IH (snd (emit (SdkBackoff (OpenAIService.sdk_maxRetries - retries))
                       (snd (emit (HttpRequestSent endpoint) w))))) as [es Hes].
  rewrite Hes, !emit_observed, !observed_app. eexists; reflexivity.
Qed.

Lemma classify_gateway_failure (e : JsError) :
  Spec.gateway_failure (OpenAIService.classify e).
Proof.
  unfold OpenAIService.classify, Spec.gateway_failure.
  repeat match goal with |- context [if ?b then _ else _] => destruct b end;
    (split; [reflexivity|]); (left; split; reflexivity) || (right; split; reflexivity).
Qed.

Lemma callOpenAI_outcome (env : Env) {J} (JSON_parse : string -> JsError + J)
    (endpoint : Endpoint) (prompt : Prompt) (w : World) :
  (exists es, snd (OpenAIService.callOpenAI env JSON_parse endpoint prompt w)
              = Spec.observed es w)
  /\ forall t, fst (OpenAIService.callOpenAI env JSON_parse endpoint prompt w) = Throw t ->
       exists e, t = Exn (OpenAIService.classify e).
Proof.
  rewrite callOpenAI_unfold.
  destruct (sdk_request_observed env OpenAIService.sdk_maxRetries endpoint prompt
              (snd (emit (ProviderCalled endpoint) w))) as [es Hes].
  pose proof (sdk_request_outcome env OpenAIService.sdk_maxRetries endpoint prompt
                (snd (emit (ProviderCalled endpoint) w))) as (k & _ & _ & _ & _ & _ & _ & Hlast).
  destruct (OpenAIService.sdk_request env OpenAIService.sdk_maxRetries endpoint prompt
              (snd (emit (ProviderCalled endpoint) w)))
    as [[[tokens content]|[e|]] w1]; cbn [fst snd] in Hes, Hlast; subst w1.
  - destruct (JSON_parse content) as [e|json]; cbn [fst snd];
      (split; [rewrite !emit_observed, !observed_app; eexists; reflexivity|]).
    + intros t E. inversion E. eexists; reflexivity.
    + discriminate.
  - cbn [fst snd]. split; [rewrite !emit_observed, !observed_app; eexists; reflexivity|].
    intros t E. inversion E. eexists; reflexivity.
  - destruct Hlast as (e & E & _). discriminate E.
Qed.

Lemma retry_from_outcome {A} (fn : M World A) (P : Thrown -> Prop)
    (maxAttempts : nat) (baseDelay : Z) :
  (forall v, exists es, snd (fn v) = Spec.observed es v) ->
  (forall v t, fst (fn v) = Throw t -> P t /\ t <> Undefined) ->
  forall (remaining attempt : nat) (lastError : Thrown) (w : World),
    (remaining = 0%nat -> P lastError) ->
    (exists es, snd (Helpers.retry_from fn maxAttempts baseDelay remaining attempt
                       lastError w) = Spec.observed es w)
    /\ forall t, fst (Helpers.retry_from fn maxAttempts baseDelay remaining attempt
                        lastError w) = Throw t -> P t.
Proof.
  intros Hframe Hthrow remaining.
  induction remaining as [|remaining IH]; intros attempt lastError w HL.
  - simpl. split; [exists []; rewrite observed_nil; reflexivity|].
    intros t E. inversion E; subst. apply HL. reflexivity.
  - rewrite retry_from_step.
    destruct (Hframe w) as [es Hes]. pose proof (Hthrow w) as Ht.
    destruct (fn w) as [[x|[error|]] w1]; cbn [fst snd] in *.
    + split; [exists es; exact Hes|]. discriminate.
    + destruct (Ht _ eq_refl) as [PE _].
      destruct (Helpers.is_client_error error).
      * split; [exists es; exact Hes|]. intros t E. inversion E; subst. exact PE.
      * match goal with
        | |- context [Helpers.retry_from fn maxAttempts baseDelay remaining ?a ?l ?v] =>
            destruct (IH a l v (fun _ => PE)) as [[es' Hes'] T]
        end.
        split; [|exact T]. rewrite Hes'.
        destruct (Nat.ltb attempt maxAttempts).
        -- unfold Helpers.sleep. rewrite emit_observed, Hes, !observed_app.
           eexists; reflexivity.
        -- rewrite Hes, observed_app. eexists; reflexivity.
    + destruct (Ht _ eq_refl) as [_ N]. contradiction.
Qed.

Lemma recorded_gateway_outcome (env : Env) {J} (JSON_parse : string -> JsError + J)
    (endpoint : Endpoint) (prompt : Prompt) (w : World) :
  Spec.gateway_outcome endpoint w
    (OpenAIService.recorded endpoint
       (OpenAIService.call_with_retry env JSON_parse endpoint prompt) w).
Proof.
  destruct (retry_from_outcome
              (OpenAIService.callOpenAI env JSON_parse endpoint prompt)
              (fun t => exists e, t = Exn (OpenAIService.classify e)) 3 2000
              (fun v => proj1 (callOpenAI_outcome env JSON_parse endpoint prompt v))
              (fun v t E =>
                 match proj2 (callOpenAI_outcome env JSON_parse endpoint prompt v) t E with
                 | ex_intro _ e He =>
                     conj (ex_intro _ e He)
                          (fun U => eq_ind (Exn (OpenAIService.classify e))
                                      (fun x => match x with Exn _ => True | Undefined => False end)
                                      I Undefined (eq_trans (eq_sym He) U))
                 end)
              3 1 Undefined w) as [[es Hes] T].
  { discriminate. }
  fold (Helpers.retry (OpenAIService.callOpenAI env JSON_parse endpoint prompt) 3 2000) in *.
  fold (OpenAIService.call_with_retry env JSON_parse endpoint prompt) in *.
  unfold Spec.gateway_outcome, OpenAIService.recorded, try_catch, bind,
    OpenAIService.recordOpenAICall.
  destruct (OpenAIService.call_with_retry env JSON_parse endpoint prompt w)
    as [[x|t] w1]; cbn [fst snd] in *.
  - subst w1. unfold emit, modify, ret. cbn [fst snd events Spec.observed]. split.
    + exists (es ++ [OpenAICallRecorded endpoint "success"]).
      unfold Spec.observed. cbn. rewrite <- app_assoc. reflexivity.
    + apply last_snoc.
  - subst w1. unfold emit, modify, throw. cbn [fst snd events Spec.observed]. split.
    + exists (es ++ [OpenAICallRecorded endpoint "error"]).
      unfold Spec.observed. cbn. rewrite <- app_assoc. reflexivity.
    + split; [apply last_snoc|].
      destruct (T t eq_refl) as [e ->]. exists (OpenAIService.classify e).
      split; [reflexivity|apply classify_gateway_failure].
Qed.

(** X23. Whatever the provider answers, the four service methods of the
    gateway leave the run store and both cache tiers as they were, record
    their outcome ("success" when they return, "error" when they throw) as
    their last effect, and fail only with an application error of status
    503 (OPENAI_ERROR) or 504 (OPENAI_TIMEOUT): a rejected request, of
    whatever HTTP status, and a reply that is not JSON all surface that
    way. *)
Theorem gateway_methods_outcome :
  forall (env : Env) (w : World),
    (forall scraped,
        Spec.gateway_outcome brand_analysis w
          (OpenAIService.analyzeBrand env scraped w))
    /\ (forall brand,
          Spec.gateway_outcome competitors_discovery w
            (OpenAIService.findCompetitors env brand w))
    /\ (forall domain scraped,
          Spec.gateway_outcome competitor_analysis w
            (OpenAIService.analyzeCompetitor env domain scraped w))
    /\ (forall brand analyzed,
          Spec.gateway_outcome kernel_assembly w
            (OpenAIService.assembleKernel env brand analyzed w))
    /\ (forall e, Spec.gateway_failure e ->
          Stage1Routes.http_status_of (Throw (A := unit) (Exn e)) = 503%Z
          \/ Stage1Routes.http_status_of (Throw (A := unit) (Exn e)) = 504%Z).
Proof.
  intros env w.
  split; [intros; apply recorded_gateway_outcome|].
  split; [intros; apply recorded_gateway_outcome|].
  split; [intros; apply recorded_gateway_outcome|].
  split; [intros; apply recorded_gateway_outcome|].
  intros e [App [[S C]|[S C]]]; [left|right];
    unfold Stage1Routes.http_status_of, ErrorHandler.errorHandler;
    rewrite App; cbn [ErrorHandler.reply_status]; rewrite S; reflexivity.
Qed.

(* ===================================================================== *)
(** * Further properties of the phase routes *)
(* ===================================================================== *)

Lemma getScrapedContent_keeps_runs (env : Env) (url : string) (w : World) :
  runs (snd (CacheService.getScrapedContent env url w)) = runs w.
Proof.
  unfold CacheService.getScrapedContent, try_catch, bind, Redis.get, Redis.client_get,
    CacheModel.getCachedScraping, Redis.set, Redis.client_store,
    CacheService.recordCacheHit, CacheService.recordCacheMiss, try_catch, bind,
    gets, ret, throw, emit, modify.
  simpl. split_cases.
Qed.

Lemma redis_set_keeps_runs (env : Env) (key : string) (value : ScrapeResult)
    (ttl : option Z) (w : World) :
  runs (snd (Redis.set env key value ttl w)) = runs w.
Proof.
  unfold Redis.set, try_catch, Redis.client_store.
  destruct ttl as [seconds|]; [destruct (seconds =? 0)%Z|];
    destruct (io_fault env (RedisSETEX key)); reflexivity.
Qed.

Lemma cacheScrapedContent_keeps_runs (env : Env) (url : string) (data : ScrapeResult)
    (ttl : option Z) (w : World) :
  runs (snd (CacheService.cacheScrapedContent env url data ttl w)) = runs w.
Proof.
  unfold CacheService.cacheScrapedContent, try_catch, bind, CacheService.both.
  pose proof (redis_set_keeps_runs env (CacheService.cacheKey env url) data
                (Some (CacheService.actual_ttl env ttl)) w) as R1.
  destruct (Redis.set env _ data _ w) as [[u|t] w1]; cbn [snd] in R1.
  - destruct (setCachedScraping_keeps_redis env url data
                (CacheService.actual_ttl env ttl) w1) as [_ K].
    destruct (CacheModel.setCachedScraping env url data _ w1) as [[u'|t'] w2];
      cbn [snd] in *; unfold ret; cbn [snd]; congruence.
  - destruct (setCachedScraping_keeps_redis env url data
                (CacheService.actual_ttl env ttl) w1) as [_ K].
    cbn [snd]. unfold ret. cbn [snd]. congruence.
Qed.

Lemma freshScrape_keeps_runs (api : UrlApi) (env : Env) (sanitized : string)
    (domain : option string) (start : Z) (w : World) :
  runs (snd (ScraperService.freshScrape env sanitized domain start w)) = runs w.
Proof.
  unfold ScraperService.freshScrape, try_catch.
  destruct (Nat.eqb _ 0); [reflexivity|].
  unfold bind at 1. cbn [ScraperService.recordScraping emit modify]. unfold bind.
  match goal with
  | |- context [CacheService.cacheScrapedContent env sanitized ?r0 None ?w0] =>
      generalize r0; intros result;
      pose proof (cacheScrapedContent_keeps_runs env sanitized result None w0) as K;
      pose proof (cacheScrapedContent_returns env sanitized result None w0) as H;
      destruct (CacheService.cacheScrapedContent env sanitized result None w0)
        as [c w2]
  end.
  cbn [fst snd] in *. subst c. unfold ret. cbn [snd]. exact K.
Qed.

Lemma scrapeWebsite_keeps_runs (api : UrlApi) (env : Env) (url : string) (w : World) :
  runs (snd (ScraperService.scrapeWebsite env url w)) = runs w.
Proof.
  pose proof (scrapeWebsite_dispatch api env url w) as D.
  destruct (Helpers.sanitizeUrl url) as [sanitized|t]; [|rewrite D; reflexivity].
  cbv zeta in D.
  destruct (Spec.lookup env sanitized w); rewrite D; cbn [snd].
  - apply getScrapedContent_keeps_runs.
  - rewrite freshScrape_keeps_runs. apply getScrapedContent_keeps_runs.
Qed.

Lemma gateway_keeps_runs {J} (endpoint : Endpoint) (w : World)
    (out : Completion J * World) :
  Spec.gateway_outcome endpoint w out -> runs (snd out) = runs w.
Proof. intros [[es ->] _]. reflexivity. Qed.

Lemma validate_passes {B} (data : B) (validator : B -> bool) (schemaName : string)
    (w : World) :
  validator data = true ->
  Validation.validate data validator schemaName w = (Return data, w).
Proof. intros H. unfold Validation.validate. rewrite H. reflexivity. Qed.

Lemma storage_getRun_found (runId : string) (w : World) (run : Run) :
  RunsModel.getRun runId w = (Return (Some run), w) ->
  StorageService.getRun runId true w = (Return (Some run), w).
Proof. intros H. unfold StorageService.getRun, bind. rewrite H. reflexivity. Qed.

(** X24. POST /v1/competitors on a run that holds a brand.  When the
    discovery fails, the route fails with the gateway's error and the run
    store is as it was.  When it returns, the reply carries exactly the
    candidates of confidence 0.6 or more, in the order of the discovery (all
    of them, and none below 0.6; none at all when the discovery has no
    [competitors] field), and the run read back afterwards holds that list
    and the brand. *)
Theorem competitors_route_keeps_confident_candidates :
  forall (env : Env) (body : Validation.CompetitorsBody) (w : World)
         (run : Run) (brand : Validated),
    Validation.validateCompetitors body = true ->
    RunsModel.getRun (Validation.comp_run_id body) w = (Return (Some run), w) ->
    brand_data run = Some brand ->
    let found := OpenAIService.findCompetitors env brand w in
    let out := Stage1Routes.competitors_route env body w in
    match fst found with
    | Throw t => out = (Throw t, snd found) /\ runs (snd out) = runs w
    | Return discovery =>
        let proposed := Stage1Routes.or_empty (competitors discovery) in
        let kept :=
          List.filter (fun c => Qle_bool 0.6 (cand_confidence_0_1 c)) proposed in
        fst out = Return {| Stage1Routes.cr_run_id := Validation.comp_run_id body;
                            Stage1Routes.cr_competitors := kept |}
        /\ (forall c, In c kept <-> In c proposed /\ (0.6 <= cand_confidence_0_1 c)%Q)
        /\ exists run',
             RunsModel.getRun (Validation.comp_run_id body) (snd out)
             = (Return (Some run'), snd out)
             /\ competitors_10 run' = Some kept
             /\ brand_data run' = Some brand
    end.
Proof.
  intros env body w run brand Hv Hget Hb found out. subst found out.
  assert (G : Spec.gateway_outcome competitors_discovery w
                (OpenAIService.findCompetitors env brand w))
    by apply recorded_gateway_outcome.
  pose proof (gateway_keeps_runs _ _ _ G) as Kr. clear G.
  assert (E : Stage1Routes.competitors_route env body w
              = match OpenAIService.findCompetitors env brand w with
                | (Return d, w1) =>
                    let kept := List.filter
                                  (fun c => Qle_bool 0.6 (cand_confidence_0_1 c))
                                  (Stage1Routes.or_empty (competitors d)) in
                    (Return {| Stage1Routes.cr_run_id := Validation.comp_run_id body;
                               Stage1Routes.cr_competitors := kept |},
                     snd (StorageService.saveCompetitors env
                            (Validation.comp_run_id body) kept w1))
                | (Throw t, w1) => (Throw t, w1)
                end).
  { unfold Stage1Routes.competitors_route.
    unfold bind at 1. rewrite (validate_passes _ _ _ w Hv).
    unfold bind at 1. rewrite (storage_getRun_found _ _ _ Hget). rewrite Hb.
    unfold bind at 1.
    destruct (OpenAIService.findCompetitors env brand w) as [[d|t] w1]; [|reflexivity].
    cbv zeta. unfold bind.
    destruct (StorageService.saveCompetitors env _ _ w1) as [[r|t] w2] eqn:S.
    - reflexivity.
    - exfalso. unfold StorageService.saveCompetitors, RunsModel.saveCompetitors,
        RunsModel.updateRun in S. cbn in S. discriminate S. }
  rewrite E. clear E.
  destruct (OpenAIService.findCompetitors env brand w) as [[d|t] w1];
    cbn [fst snd] in *.
  - cbv zeta. cbn [fst snd]. split; [reflexivity|]. split.
    + intros c. rewrite List.filter_In, Qle_bool_iff. reflexivity.
    + rewrite getRun_find in Hget. inversion Hget as [Hfind]. rewrite <- Kr in Hfind.
      destruct (updateRun_found env (Validation.comp_run_id body)
                  [RunsModel.set_competitors_10
                     (List.filter (fun c => Qle_bool 0.6 (cand_confidence_0_1 c))
                        (Stage1Routes.or_empty (competitors d)))]
                  w1 run) as [F _]; [discriminate|exact Hfind|].
      eexists. rewrite getRun_find.
      unfold StorageService.saveCompetitors, RunsModel.saveCompetitors. rewrite F.
      split; [reflexivity|]. split; [reflexivity|exact Hb].
  - split; [reflexivity|exact Kr].
Qed.

Lemma competitors_route_keeps_confident_candidates_witness :
  fst (Stage1Routes.competitors_route Scenario.env_discovering
         {| Validation.comp_brand_domain := "example.com";
            Validation.comp_run_id := "run_0a1b2c3d" |}
         Scenario.world_with_brand)
  = Return {| Stage1Routes.cr_run_id := "run_0a1b2c3d";
              Stage1Routes.cr_competitors := [Scenario.sample_candidate 0.9] |}.
Proof.
  exact (proj1 (competitors_route_keeps_confident_candidates Scenario.env_discovering
                  {| Validation.comp_brand_domain := "example.com";
                     Validation.comp_run_id := "run_0a1b2c3d" |}
                  Scenario.world_with_brand Scenario.run_with_brand
                  Scenario.sample_brand eq_refl eq_refl eq_refl)).
Defined.

(** ** POST /v1/brand-summary *)

Lemma createRun_fresh (env : Env) (w : World) :
  existsb (RunsModel.has_id ("run_" +:+ uuidv4 env (uuids_drawn w))) (runs w) = false ->
  exists run w1,
    StorageService.createRun env RunsModel.no_options w = (Return run, w1)
    /\ runs w1 = runs w ++ [run]
    /\ run_id run = "run_" +:+ uuidv4 env (uuids_drawn w)
    /\ status run = active /\ brand_data run = None.
Proof.
  intros E. unfold StorageService.createRun, RunsModel.createRun, bind.
  cbn [RunsModel.or_null RunsModel.opt_run_id RunsModel.no_options].
  unfold Helpers.generateRunId. cbn [runs]. rewrite E.
  eexists _, _. split; [reflexivity|]. repeat split.
Qed.

Lemma saveBrand_last (env : Env) (l : list Run) (run : Run) (brandData : Validated)
    (w : World) :
  existsb (RunsModel.has_id (run_id run)) l = false ->
  runs w = l ++ [run] ->
  exists run' r,
    StorageService.saveBrand env (run_id run) brandData w = (Return r, snd
      (StorageService.saveBrand env (run_id run) brandData w))
    /\ runs (snd (StorageService.saveBrand env (run_id run) brandData w)) = l ++ [run']
    /\ run_id run' = run_id run
    /\ brand_data run' = Some brandData.
Proof.
  intros E R. unfold StorageService.saveBrand, RunsModel.saveBrand, RunsModel.updateRun.
  cbn [List.filter RunsModel.is_id_update negb length Nat.eqb fold_left snd].
  cbn [runs set_runs]. rewrite R, List.map_app. cbn [List.map].
  assert (Hself : RunsModel.has_id (run_id run) run = true)
    by (unfold RunsModel.has_id; apply String.eqb_refl).
  rewrite !Hself.
  rewrite map_unchanged.
  - eexists _, _. split; [reflexivity|]. split; [reflexivity|]. split; reflexivity.
  - intros x Hx. destruct (RunsModel.has_id (run_id run) x) eqn:Hid; [|reflexivity].
    exfalso. assert (existsb (RunsModel.has_id (run_id run)) l = true)
      by (apply existsb_exists; eauto). congruence.
Qed.

(** X25. POST /v1/brand-summary creates its run before anything else is
    tried.  A body the schema rejects fails with 400 and changes nothing.
    Otherwise (the drawn identifier being free, and the relation taking it
    as it is) a run with that identifier, active and without a brand, is
    added, and every later failure (of the
    scrape, of the three-page minimum, of the analysis, of the confidence
    gate) leaves that empty run in the store; a reply is sent only for three
    pages or more and a confidence of 0.6 or more, it carries the run's
    identifier, and the run then holds the brand of the reply.  No other
    row is added or changed. *)
Theorem brandSummary_creates_its_run_first :
  forall (api : UrlApi) (env : Env) (body : Validation.BrandSummaryBody) (w : World),
    let runId := "run_" +:+ uuidv4 env (uuids_drawn w) in
    let out := Stage1Routes.brandSummary env body w in
    (Validation.validateBrandSummary env body = false ->
       snd out = w
       /\ Stage1Routes.http_status_of (fst out) = 400%Z
       /\ Stage1Routes.error_code_of (fst out) = Some "VALIDATION_ERROR")
    /\ (Validation.validateBrandSummary env body = true ->
        existsb (RunsModel.has_id runId) (runs w) = false ->
        exists run,
          run_id run = runId /\ status run = active /\ brand_data run = None
          /\ match fst out with
             | Throw _ => runs (snd out) = runs w ++ [run]
             | Return reply =>
                 Stage1Routes.bs_run_id reply = runId
                 /\ (3 <= Stage1Routes.bs_pages_scraped reply)%nat
                 /\ (0.6 <= confidence_0_1 (Stage1Routes.bs_brand reply))%Q
                 /\ exists run',
                      runs (snd out) = runs w ++ [run']
                      /\ run_id run' = runId
                      /\ brand_data run' = Some (Stage1Routes.bs_brand reply)
             end).
Proof.
  intros api env body w runId out. subst out. split.
  - intros Hv. unfold Stage1Routes.brandSummary, bind at 1, Validation.validate.
    rewrite Hv. repeat split.
  - intros Hv Hfree. subst runId.
    destruct (createRun_fresh env w Hfree) as (run & w1 & C & R1 & Hid & Hst & Hbd).
    exists run. split; [exact Hid|]. split; [exact Hst|]. split; [exact Hbd|].
    assert (E : Stage1Routes.brandSummary env body w
                = match ScraperService.scrapeWebsite env
                          (Validation.body_brand_url body) w1 with
                  | (Throw t, w2) => (Throw t, w2)
                  | (Return scraped, w2) =>
                      if Nat.ltb (length (pages scraped)) 3 then
                        (Throw (Exn (Errors.InsufficientDataError
                                       "Insufficient pages scraped (minimum 3 required)"
                                       NoDetails)), w2)
                      else
                        match OpenAIService.analyzeBrand env scraped w2 with
                        | (Throw t, w3) => (Throw t, w3)
                        | (Return analysis, w3) =>
                            Stage1Routes.brandSummary_conclude env
                              (Helpers.extractDomain (Validation.body_brand_url body))
                              run scraped analysis w3
                        end
                  end).
    { unfold Stage1Routes.brandSummary.
      unfold bind at 1. rewrite (validate_passes _ _ _ w Hv).
      unfold bind at 1. rewrite C.
      unfold bind at 1.
      destruct (ScraperService.scrapeWebsite env (Validation.body_brand_url body) w1)
        as [[scraped|t] w2]; [|reflexivity].
      destruct (Nat.ltb (length (pages scraped)) 3); [reflexivity|].
      unfold bind at 1.
      destruct (OpenAIService.analyzeBrand env scraped w2) as [[analysis|t] w3];
        reflexivity. }
    rewrite E. clear E.
    pose proof (scrapeWebsite_keeps_runs api env (Validation.body_brand_url body) w1)
      as K2.
    destruct (ScraperService.scrapeWebsite env (Validation.body_brand_url body) w1)
      as [[scraped|t] w2]; cbn [snd fst] in *; [|congruence].
    destruct (Nat.ltb_spec (length (pages scraped)) 3) as [Hlt|Hge];
      [cbn [fst snd]; congruence|].
    assert (G : Spec.gateway_outcome brand_analysis w2
                  (OpenAIService.analyzeBrand env scraped w2))
      by apply recorded_gateway_outcome.
    pose proof (gateway_keeps_runs _ _ _ G) as K3. clear G.
    destruct (OpenAIService.analyzeBrand env scraped w2) as [[analysis|t] w3];
      cbn [snd fst] in *; [|congruence].
    unfold Stage1Routes.brandSummary_conclude.
    destruct (Qlt_bool _ (round 0.6)) eqn:Q; [unfold throw; cbn [fst snd]; congruence|].
    apply Qlt_bool_false_iff in Q.
    assert (R3 : runs w3 = runs w ++ [run]) by congruence.
    rewrite <- Hid in Hfree. unfold bind.
    match goal with
    | |- context [StorageService.saveBrand env (run_id run) ?b w3] =>
        destruct (saveBrand_last env (runs w) run b w3 Hfree R3)
          as (run' & r & S & RS & Hid' & Hbd')
    end.
    rewrite S. unfold ret. cbn [fst snd Stage1Routes.bs_run_id
      Stage1Routes.bs_pages_scraped Stage1Routes.bs_brand confidence_0_1].
    split; [exact Hid|]. split; [exact Hge|]. split; [exact Q|].
    exists run'. split; [exact RS|]. split; [congruence|exact Hbd'].
Qed.

(** ** Identifiers of runs *)

Lemma substring_whole (s : string) : String.substring 0 (String.length s) s = s.
Proof. induction s as [|c s IH]; [reflexivity|]. simpl. rewrite IH. reflexivity. Qed.

(** X26. The identifiers [createRun] hands out are accepted by the request
    schemas of the later phases: when the UUID drawn is a non-empty string
    of the characters [a-f], [0-9] and [-], the run's identifier matches
    [^run_[a-f0-9-]+$], so the kernel request for it validates, and so do
    the two competitor requests as far as the identifier goes. *)
Theorem created_run_id_passes_validation :
  forall (env : Env) (w : World) (run : Run) (w1 : World),
    uuidv4 env (uuids_drawn w) <> "" ->
    Validation.all_chars Validation.is_run_id_char (uuidv4 env (uuids_drawn w)) = true ->
    StorageService.createRun env RunsModel.no_options w = (Return run, w1) ->
    Validation.matches_run_id_pattern (run_id run) = true
    /\ Validation.validateKernel {| Validation.kernel_run_id := run_id run |} = true
    /\ (forall domain,
          Validation.validateCompetitors
            {| Validation.comp_brand_domain := domain;
               Validation.comp_run_id := run_id run |}
          = Validation.minLength 3 domain)
    /\ (forall domains,
          Validation.validateCompetitorsAnalyze
            {| Validation.analyze_run_id := run_id run;
               Validation.analyze_domains := domains |}
          = (forallb (Validation.minLength 3) domains
             && Nat.leb 1 (length domains) && Nat.leb (length domains) 10)%bool).
Proof.
  intros env w run w1 Hne Hchars C.
  assert (Hid : run_id run = "run_" +:+ uuidv4 env (uuids_drawn w)).
  { unfold StorageService.createRun, RunsModel.createRun, bind in C.
    cbn [RunsModel.or_null RunsModel.opt_run_id RunsModel.no_options] in C.
    unfold Helpers.generateRunId in C. cbn [runs] in C.
    destruct (existsb _ (runs w)); [discriminate|].
    inversion C. reflexivity. }
  assert (P : Validation.matches_run_id_pattern (run_id run) = true).
  { rewrite Hid. unfold Validation.matches_run_id_pattern.
    set (u := uuidv4 env (uuids_drawn w)) in *.
    replace ("run_" +:+ u) with (String "r" (String "u" (String "n" (String "_" u))))
      by reflexivity.
    cbn [String.prefix String.length Nat.sub String.substring].
    repeat (destruct (Ascii.ascii_dec _ _) as [_|N]; [|exfalso; apply N; reflexivity]).
    rewrite Nat.sub_0_r, substring_whole, Hchars.
    destruct (String.eqb_spec u "") as [E|_]; [contradiction|].
    destruct u; reflexivity. }
  split; [exact P|]. split; [exact P|]. split.
  - intros domain. unfold Validation.validateCompetitors.
    cbn [Validation.comp_brand_domain Validation.comp_run_id]. rewrite P.
    apply andb_true_r.
  - intros domains. unfold Validation.validateCompetitorsAnalyze.
    cbn [Validation.analyze_run_id Validation.analyze_domains]. rewrite P.
    reflexivity.
Qed.

Lemma created_run_id_passes_validation_witness :
  Validation.validateKernel
    {| Validation.kernel_run_id := "run_00000000-0000-0000-0000-000000000000" |} = true.
Proof.
  assert (C : exists run w1,
             StorageService.createRun Scenario.offline RunsModel.no_options
               Scenario.empty_world = (Return run, w1)
             /\ run_id run = "run_00000000-0000-0000-0000-000000000000")
    by (eexists _, _; split; [vm_compute; reflexivity|reflexivity]).
  destruct C as (run & w1 & C & <-).
  apply (created_run_id_passes_validation Scenario.offline Scenario.empty_world
           run w1); [discriminate|reflexivity|exact C].
Defined.

(* ===================================================================== *)
(** * Properties of the browser pool *)
(* ===================================================================== *)

Lemma ids_by_position (h : list BrowserPool.BrowserObj) (a k : nat)
    (obj : BrowserPool.BrowserObj) :
  List.map BrowserPool.id h = seq a (length h) ->
  h !! k = Some obj -> BrowserPool.id obj = (a + k)%nat.
Proof.
  revert a k. induction h as [|x h IH]; intros a k E Hk; [discriminate|].
  simpl in E. injection E as Hx Hh. destruct k as [|k]; simpl in Hk.
  - inversion Hk; subst. lia.
  - rewrite (IH (S a) k Hh Hk). lia.
Qed.

Lemma heap_length (p : BrowserPool.Pool) :
  Spec.pool_consistent p -> length (BrowserPool.heap p) = BrowserPool.poolSize p.
Proof.
  intros (_ & _ & H & _). rewrite <- (List.length_map BrowserPool.id), H.
  apply List.length_seq.
Qed.

Lemma heap_entry (p : BrowserPool.Pool) (k : nat) (obj : BrowserPool.BrowserObj) :
  Spec.pool_consistent p ->
  BrowserPool.heap p !! k = Some obj ->
  obj = BrowserPool.mkBrowserObj k (BrowserPool.inUse obj).
Proof.
  intros C Hk. pose proof (heap_length p C) as L. destruct C as (_ & _ & H & _).
  rewrite <- L in H. pose proof (ids_by_position _ 0 k obj H Hk) as E.
  destruct obj as [i u]. simpl in *. subst. reflexivity.
Qed.

Lemma map_id_alter (b : bool) (r : nat) (h : list BrowserPool.BrowserObj) :
  List.map BrowserPool.id (alter (BrowserPool.mark b) r h) = List.map BrowserPool.id h.
Proof.
  revert r. induction h as [|x h IH]; intros r; [reflexivity|].
  destruct r as [|r]; simpl; [reflexivity|]. f_equal. apply IH.
Qed.

Lemma launch_from_all (launch : nat -> option JsError) (k a : nat)
    (p : BrowserPool.Pool) :
  (forall i, launch i = None) ->
  BrowserPool.launch_from launch (seq a k) p
  = (Return tt,
     BrowserPool.set_availableBrowsers (BrowserPool.availableBrowsers p ++ seq a k)
       (BrowserPool.set_browsers
          (BrowserPool.browsers p ++ seq (length (BrowserPool.heap p)) k)
          (BrowserPool.set_heap
             (BrowserPool.heap p
              ++ List.map (fun i => BrowserPool.mkBrowserObj i false) (seq a k)) p))).
Proof.
  intros Hl. revert a p. induction k as [|k IH]; intros a p.
  - simpl. unfold ret. rewrite !app_nil_r. destruct p; reflexivity.
  - cbn [seq BrowserPool.launch_from]. rewrite Hl. unfold bind, modify.
    rewrite IH. unfold BrowserPool.push_browser, BrowserPool.set_availableBrowsers,
      BrowserPool.set_browsers, BrowserPool.set_heap. simpl.
    rewrite List.length_app, Nat.add_1_r, <- !app_assoc. reflexivity.
Qed.

Lemma init_new (n : nat) :
  BrowserPool.init (fun _ => None) (BrowserPool.new n)
  = (Return tt,
     {| BrowserPool.poolSize := n;
        BrowserPool.heap := List.map (fun i => BrowserPool.mkBrowserObj i false) (seq 0 n);
        BrowserPool.browsers := seq 0 n;
        BrowserPool.availableBrowsers := seq 0 n;
        BrowserPool.initialized := true;
        BrowserPool.gauge := [(n, 0%Z)] |}).
Proof.
  unfold BrowserPool.init. cbn [BrowserPool.initialized BrowserPool.new].
  unfold try_catch, bind at 1. cbn [BrowserPool.poolSize].
  rewrite launch_from_all by reflexivity.
  unfold bind, modify, BrowserPool.updateMetrics, modify, BrowserPool.getStats. simpl.
  rewrite List.length_seq. f_equal. f_equal. f_equal. f_equal. lia.
Qed.

Lemma lookup_fresh (n i : nat) :
  List.map (fun i => BrowserPool.mkBrowserObj i false) (seq 0 n) !! i
  = Some (BrowserPool.mkBrowserObj i false) <-> (i < n)%nat.
Proof.
  split.
  - intros H. apply lookup_lt_Some in H. rewrite List.length_map, List.length_seq in H.
    exact H.
  - intros H.
    change (List.map (fun i => BrowserPool.mkBrowserObj i false) (seq 0 n))
      with ((fun i => BrowserPool.mkBrowserObj i false) <$> seq 0 n).
    rewrite list_lookup_fmap, lookup_seq_lt by exact H. reflexivity.
Qed.

Lemma updateMetrics_consistent (p : BrowserPool.Pool) :
  Spec.pool_consistent p -> Spec.pool_consistent (snd (BrowserPool.updateMetrics p)).
Proof. intros C. exact C. Qed.

Lemma acquire_consistent (p : BrowserPool.Pool) (i : nat) (rest : list nat) :
  Spec.pool_consistent p ->
  BrowserPool.availableBrowsers p = i :: rest ->
  BrowserPool.heap p !! i = Some (BrowserPool.mkBrowserObj i false)
  /\ fst (BrowserPool.acquire i rest p) = Return i
  /\ BrowserPool.availableBrowsers (snd (BrowserPool.acquire i rest p)) = rest
  /\ BrowserPool.heap (snd (BrowserPool.acquire i rest p))
     = alter (BrowserPool.mark true) i (BrowserPool.heap p)
  /\ BrowserPool.heap (snd (BrowserPool.acquire i rest p)) !! i
     = Some (BrowserPool.mkBrowserObj i true)
  /\ Spec.pool_consistent (snd (BrowserPool.acquire i rest p)).
Proof.
  intros C A. pose proof (heap_length p C) as L.
  destruct C as (I & B & H & N & F).
  assert (Hi : BrowserPool.heap p !! i = Some (BrowserPool.mkBrowserObj i false)).
  { apply F. rewrite A. left. }
  assert (Hlt : (i < BrowserPool.poolSize p)%nat).
  { rewrite <- L. eapply lookup_lt_Some. exact Hi. }
  unfold BrowserPool.acquire, BrowserPool.Ref.
  cbn [BrowserPool.browsers BrowserPool.set_availableBrowsers].
  rewrite B, lookup_seq_lt by exact Hlt. cbn [Nat.add].
  unfold BrowserPool.updateMetrics, modify.
  cbn [fst snd BrowserPool.availableBrowsers BrowserPool.heap BrowserPool.set_heap
       BrowserPool.set_availableBrowsers].
  assert (Hi' : alter (BrowserPool.mark true) i (BrowserPool.heap p) !! i
                = Some (BrowserPool.mkBrowserObj i true)).
  { rewrite list_lookup_alter_eq, Hi. reflexivity. }
  split; [exact Hi|]. split; [reflexivity|]. split; [reflexivity|].
  split; [reflexivity|]. split; [exact Hi'|].
  rewrite A in N. apply NoDup_cons in N as [Ni N].
  unfold Spec.pool_consistent.
  cbn [BrowserPool.initialized BrowserPool.browsers BrowserPool.heap
       BrowserPool.availableBrowsers BrowserPool.poolSize BrowserPool.set_heap
       BrowserPool.set_availableBrowsers].
  split; [exact I|]. split; [exact B|].
  split; [rewrite map_id_alter; exact H|]. split; [exact N|].
  intros j. destruct (Nat.eq_dec j i) as [-> | Hne].
  - rewrite Hi'. split; [intros Hin; contradiction|discriminate].
  - rewrite list_lookup_alter_ne by congruence. rewrite <- F, A.
    rewrite elem_of_cons. split; [auto|]. intros [E|E]; [contradiction|exact E].
Qed.

Lemma wait_from_outcome (others : nat -> BrowserPool.Pool -> BrowserPool.Pool) :
  (forall k q, Spec.pool_consistent q -> Spec.pool_consistent (others k q)) ->
  forall (remaining k : nat) (p : BrowserPool.Pool),
    Spec.pool_consistent p ->
    let out := BrowserPool.wait_from remaining k others p in
    Spec.pool_consistent (snd out)
    /\ match fst out with
       | Return r =>
           BrowserPool.heap (snd out) !! r = Some (BrowserPool.mkBrowserObj r true)
           /\ (r ∉ BrowserPool.availableBrowsers (snd out))
           /\ exists q rest,
                Spec.pool_consistent q
                /\ BrowserPool.availableBrowsers q = r :: rest
                /\ BrowserPool.heap q !! r = Some (BrowserPool.mkBrowserObj r false)
                /\ BrowserPool.availableBrowsers (snd out) = rest
                /\ BrowserPool.heap (snd out)
                   = alter (BrowserPool.mark true) r (BrowserPool.heap q)
       | Throw t =>
           t = Exn BrowserPool.wait_timeout
           /\ BrowserPool.availableBrowsers (snd out) = []
       end.
Proof.
  intros Ho remaining. induction remaining as [|remaining IH]; intros k p C out;
    subst out; cbn [BrowserPool.wait_from].
  - destruct (BrowserPool.availableBrowsers p) as [|i rest] eqn:A.
    + cbn [fst snd]. split; [exact C|]. split; [reflexivity|exact A].
    + destruct (acquire_consistent p i rest C A) as (Hi & R & A' & H' & Hi' & C').
      split; [exact C'|]. rewrite R. split; [exact Hi'|]. split.
      * rewrite A'. destruct C as (_ & _ & _ & N & _). rewrite A in N.
        apply NoDup_cons in N as [Ni _]. exact Ni.
      * exists p, rest. split; [exact C|]. split; [exact A|]. split; [exact Hi|].
        split; [exact A'|exact H'].
  - destruct (BrowserPool.availableBrowsers p) as [|i rest] eqn:A.
    + apply IH. apply Ho. exact C.
    + destruct (acquire_consistent p i rest C A) as (Hi & R & A' & H' & Hi' & C').
      split; [exact C'|]. rewrite R. split; [exact Hi'|]. split.
      * rewrite A'. destruct C as (_ & _ & _ & N & _). rewrite A in N.
        apply NoDup_cons in N as [Ni _]. exact Ni.
      * exists p, rest. split; [exact C|]. split; [exact A|]. split; [exact Hi|].
        split; [exact A'|exact H'].
Qed.

Lemma releaseBrowser_outcome (p : BrowserPool.Pool) (r : nat) :
  Spec.pool_consistent p ->
  let out := BrowserPool.releaseBrowser (Some r) p in
  fst out = Return tt
  /\ Spec.pool_consistent (snd out)
  /\ (BrowserPool.heap p !! r = Some (BrowserPool.mkBrowserObj r true) ->
      BrowserPool.availableBrowsers (snd out) = BrowserPool.availableBrowsers p ++ [r]
      /\ BrowserPool.heap (snd out) = alter (BrowserPool.mark false) r (BrowserPool.heap p)
      /\ BrowserPool.heap (snd out) !! r = Some (BrowserPool.mkBrowserObj r false))
  /\ (BrowserPool.heap p !! r <> Some (BrowserPool.mkBrowserObj r true) -> snd out = p).
Proof.
  intros C out. subst out. unfold BrowserPool.releaseBrowser, BrowserPool.Ref.
  destruct (BrowserPool.heap p !! r) as [obj|] eqn:Hr.
  2: { cbn [fst snd]. split; [reflexivity|]. split; [exact C|].
       split; [discriminate|reflexivity]. }
  pose proof (heap_entry p r obj C Hr) as E. destruct obj as [i [|]]; simpl in E.
  2: { cbn [negb BrowserPool.inUse fst snd]. split; [reflexivity|].
       split; [exact C|]. split; [intros H; inversion H|reflexivity]. }
  inversion E; subst i. clear E.
  cbn [negb BrowserPool.inUse BrowserPool.id].
  unfold BrowserPool.updateMetrics, modify.
  cbn [fst snd BrowserPool.availableBrowsers BrowserPool.heap BrowserPool.set_heap
       BrowserPool.set_availableBrowsers].
  assert (Hr' : alter (BrowserPool.mark false) r (BrowserPool.heap p) !! r
                = Some (BrowserPool.mkBrowserObj r false)).
  { rewrite list_lookup_alter_eq, Hr. reflexivity. }
  split; [reflexivity|]. split.
  - destruct C as (I & B & H & N & F). unfold Spec.pool_consistent.
    cbn [BrowserPool.initialized BrowserPool.browsers BrowserPool.heap
         BrowserPool.availableBrowsers BrowserPool.poolSize].
    split; [exact I|]. split; [exact B|].
    split; [rewrite map_id_alter; exact H|].
    assert (Nr : r ∉ BrowserPool.availableBrowsers p).
    { intros Hin. apply F in Hin. rewrite Hr in Hin. discriminate. }
    split.
    + apply NoDup_app. split; [exact N|]. split; [|apply NoDup_singleton].
      intros x Hx Hx'. apply list_elem_of_singleton in Hx'. subst x. contradiction.
    + intros j. rewrite elem_of_app, list_elem_of_singleton.
      destruct (Nat.eq_dec j r) as [-> | Hne].
      * rewrite Hr'. split; [reflexivity|]. intros _. right. reflexivity.
      * rewrite list_lookup_alter_ne by congruence. rewrite <- F.
        split; [intros [Hj|Hj]; [exact Hj|contradiction]|]. intros Hj. left. exact Hj.
  - split; [|intros H; contradiction].
    intros _. split; [reflexivity|]. split; [reflexivity|exact Hr'].
Qed.

Lemma free_entries (p : BrowserPool.Pool) :
  Spec.pool_consistent p ->
  BrowserPool.availableBrowsers p
  ≡ₚ List.map BrowserPool.id
       (List.filter (fun obj => negb (BrowserPool.inUse obj)) (BrowserPool.heap p)).
Proof.
  intros C. pose proof C as (_ & _ & H & N & F).
  apply NoDup_Permutation; [exact N| |].
  - assert (S : sublist
                  (List.map BrowserPool.id
                     (List.filter (fun obj => negb (BrowserPool.inUse obj))
                        (BrowserPool.heap p)))
                  (List.map BrowserPool.id (BrowserPool.heap p))).
    { generalize (BrowserPool.heap p). intros h.
      induction h as [|x h IH]; simpl; [constructor|].
      destruct (negb (BrowserPool.inUse x)); simpl; [apply sublist_skip|apply sublist_cons];
        exact IH. }
    eapply sublist_NoDup; [|exact S]. rewrite H. apply NoDup_seq.
  - intros i. rewrite F. split.
    + intros Hi. apply list_elem_of_In. apply List.in_map_iff.
      exists (BrowserPool.mkBrowserObj i false). split; [reflexivity|].
      apply List.filter_In. split; [|reflexivity].
      apply list_elem_of_In. eapply list_elem_of_lookup_2. exact Hi.
    + intros Hi. apply list_elem_of_In, List.in_map_iff in Hi as (obj & E & Hin).
      apply List.filter_In in Hin as [Hin Hu].
      apply list_elem_of_In, list_elem_of_lookup in Hin as [k Hk].
      pose proof (heap_entry p k obj C Hk) as Eo.
      destruct obj as [j u]. simpl in *. inversion Eo; subst.
      apply negb_true_iff in Hu. subst u. exact Hk.
Qed.

Lemma init_new_consistent (n : nat) :
  Spec.pool_consistent (snd (BrowserPool.init (fun _ => None) (BrowserPool.new n))).
Proof.
  rewrite init_new. cbn [snd]. unfold Spec.pool_consistent.
  cbn [BrowserPool.initialized BrowserPool.browsers BrowserPool.heap
       BrowserPool.availableBrowsers BrowserPool.poolSize].
  split; [reflexivity|]. split; [reflexivity|]. split.
  - rewrite List.map_map. cbn [BrowserPool.id]. apply List.map_id.
  - split; [apply NoDup_seq|]. intros i. rewrite lookup_fresh, elem_of_seq. lia.
Qed.

Lemma getBrowser_consistent (p : BrowserPool.Pool) (timeout : Z)
    (others : nat -> BrowserPool.Pool -> BrowserPool.Pool) :
  Spec.pool_consistent p ->
  (forall k q, Spec.pool_consistent q -> Spec.pool_consistent (others k q)) ->
  Spec.pool_consistent (snd (BrowserPool.getBrowser timeout others p)).
Proof.
  intros C Ho. unfold BrowserPool.getBrowser.
  destruct C as (I & C). rewrite I. cbn [negb].
  apply (wait_from_outcome others Ho _ 0%nat p). split; assumption.
Qed.

(** X27. The pool keeps its books.  [init] on a new pool of [n] browsers
    succeeds when every launch does and leaves all [n] in the queue, none in
    use.  From then on [getBrowser] and [releaseBrowser], in any order and
    with any arguments, keep the pool consistent: the queue holds, without
    repetition, exactly the browsers that are not in use.  In a consistent
    pool the statistics are exact: [inUse] is the number of browsers marked
    in use, and [inUse + available = total]. *)
Theorem pool_stays_consistent :
  forall (n : nat),
    (let p0 := snd (BrowserPool.init (fun _ => None) (BrowserPool.new n)) in
     fst (BrowserPool.init (fun _ => None) (BrowserPool.new n)) = Return tt
     /\ Spec.pool_consistent p0
     /\ BrowserPool.availableBrowsers p0 = seq 0 n
     /\ Spec.held p0 = [])
    /\ (forall p timeout others,
          Spec.pool_consistent p ->
          (forall k q, Spec.pool_consistent q -> Spec.pool_consistent (others k q)) ->
          Spec.pool_consistent (snd (BrowserPool.getBrowser timeout others p)))
    /\ (forall p browserObj,
          Spec.pool_consistent p ->
          Spec.pool_consistent (snd (BrowserPool.releaseBrowser browserObj p)))
    /\ (forall p,
          Spec.pool_consistent p ->
          let stats := BrowserPool.getStats p in
          BrowserPool.stats_inUse stats = Z.of_nat (length (Spec.held p))
          /\ (length (Spec.held p) + BrowserPool.stats_available stats
              = BrowserPool.stats_total stats)%nat).
Proof.
  intros n. split; [|split; [|split]].
  - split; [rewrite init_new; reflexivity|].
    split; [apply init_new_consistent|]. rewrite init_new. cbn [snd]. split.
    + reflexivity.
    + unfold Spec.held. cbn [BrowserPool.heap].
      induction (seq 0 n) as [|x l IH]; [reflexivity|exact IH].
  - intros p timeout others C Ho. apply getBrowser_consistent; assumption.
  - intros p [r|] C; [|exact C]. apply (releaseBrowser_outcome p r C).
  - intros p C stats. subst stats.
    pose proof (Permutation_length (free_entries p C)) as La.
    rewrite List.length_map in La.
    pose proof (filter_length_split BrowserPool.inUse (BrowserPool.heap p)) as Ls.
    pose proof (heap_length p C) as L.
    unfold Spec.held, BrowserPool.getStats.
    cbn [BrowserPool.stats_inUse BrowserPool.stats_available BrowserPool.stats_total].
    rewrite List.length_map. lia.
Qed.

Lemma alter_alter_same (r : nat) (h : list BrowserPool.BrowserObj)
    (obj : BrowserPool.BrowserObj) :
  h !! r = Some obj -> BrowserPool.inUse obj = false ->
  alter (BrowserPool.mark false) r (alter (BrowserPool.mark true) r h) = h.
Proof.
  revert r. induction h as [|x h IH]; intros r Hr Hu; [discriminate|].
  destruct r as [|r]; simpl in *.
  - inversion Hr; subst. destruct obj as [i u]. simpl in Hu. subst u. reflexivity.
  - f_equal. apply IH; assumption.
Qed.

Lemma getBrowser_at_once (p : BrowserPool.Pool) (timeout : Z)
    (others : nat -> BrowserPool.Pool -> BrowserPool.Pool) (i : nat) (rest : list nat) :
  Spec.pool_consistent p ->
  BrowserPool.availableBrowsers p = i :: rest ->
  BrowserPool.getBrowser timeout others p = BrowserPool.acquire i rest p.
Proof.
  intros (I & _) A. unfold BrowserPool.getBrowser. rewrite I. cbn [negb].
  destruct (BrowserPool.waits_before timeout); cbn [BrowserPool.wait_from];
    rewrite A; reflexivity.
Qed.

Lemma wait_from_idle (remaining k : nat) (p : BrowserPool.Pool) :
  BrowserPool.availableBrowsers p = [] ->
  BrowserPool.wait_from remaining k (fun _ q => q) p
  = (Throw (Exn BrowserPool.wait_timeout), p).
Proof.
  intros A. revert k. induction remaining as [|remaining IH]; intros k;
    cbn [BrowserPool.wait_from]; rewrite A; [reflexivity|apply IH].
Qed.

(** X28. Taking and returning a browser.  Before [init], [getBrowser]
    fails with "Browser pool not initialized" and changes nothing.  In a
    consistent pool whose queue is [i :: rest], [getBrowser] returns browser
    [i] at once, whatever the timeout; [i] was free, is then marked in use
    and has left the queue.  Releasing it restores the entries and puts [i]
    at the back of the queue, and a second release of the same browser, like
    the release of [null], changes nothing.  With an empty queue and no
    other task returning a browser, [getBrowser] fails with "Timeout waiting
    for available browser" and changes nothing. *)
Theorem take_and_return_a_browser :
  forall (p : BrowserPool.Pool) (timeout : Z)
         (others : nat -> BrowserPool.Pool -> BrowserPool.Pool),
    (BrowserPool.initialized p = false ->
       BrowserPool.getBrowser timeout others p
       = (Throw (Exn BrowserPool.not_initialized), p))
    /\ (Spec.pool_consistent p ->
        match BrowserPool.availableBrowsers p with
        | i :: rest =>
            let taken := snd (BrowserPool.getBrowser timeout others p) in
            let back := snd (BrowserPool.releaseBrowser (Some i) taken) in
            fst (BrowserPool.getBrowser timeout others p) = Return i
            /\ BrowserPool.heap p !! i = Some (BrowserPool.mkBrowserObj i false)
            /\ BrowserPool.heap taken !! i = Some (BrowserPool.mkBrowserObj i true)
            /\ BrowserPool.availableBrowsers taken = rest
            /\ BrowserPool.availableBrowsers back = rest ++ [i]
            /\ BrowserPool.heap back = BrowserPool.heap p
            /\ BrowserPool.releaseBrowser (Some i) back = (Return tt, back)
            /\ BrowserPool.releaseBrowser None back = (Return tt, back)
        | [] =>
            BrowserPool.getBrowser timeout (fun _ q => q) p
            = (Throw (Exn BrowserPool.wait_timeout), p)
        end).
Proof.
  intros p timeout others. split.
  - intros I. unfold BrowserPool.getBrowser. rewrite I. reflexivity.
  - intros C. destruct (BrowserPool.availableBrowsers p) as [|i rest] eqn:A.
    + unfold BrowserPool.getBrowser. destruct C as (I & _). rewrite I. cbn [negb].
      apply wait_from_idle. exact A.
    + cbv zeta. rewrite (getBrowser_at_once p timeout others i rest C A).
      destruct (acquire_consistent p i rest C A) as (Hi & R & A' & H' & Hi' & C').
      set (taken := snd (BrowserPool.acquire i rest p)) in *.
      destruct (releaseBrowser_outcome taken i C') as (_ & Cb & Rel & _).
      destruct (Rel Hi') as (Ab & Hb & Hib).
      set (back := snd (BrowserPool.releaseBrowser (Some i) taken)) in *.
      split; [exact R|]. split; [exact Hi|]. split; [exact Hi'|].
      split; [exact A'|]. split; [rewrite Ab, A'; reflexivity|].
      split; [rewrite Hb, H'; apply (alter_alter_same i _ _ Hi); reflexivity|].
      split; [|reflexivity].
      destruct (releaseBrowser_outcome back i Cb) as (F & _ & _ & Same).
      rewrite (surjective_pairing (BrowserPool.releaseBrowser (Some i) back)).
      rewrite F, Same; [reflexivity|]. rewrite Hib. discriminate.
Qed.

Lemma take_and_return_a_browser_witness :
  fst (BrowserPool.getBrowser 30000 (fun _ q => q)
         (snd (BrowserPool.init (fun _ => None) (BrowserPool.new 3))))
  = Return 0%nat
  /\ BrowserPool.availableBrowsers
       (snd (BrowserPool.releaseBrowser (Some 0%nat)
               (snd (BrowserPool.getBrowser 30000 (fun _ q => q)
                       (snd (BrowserPool.init (fun _ => None) (BrowserPool.new 3)))))))
     = [1; 2; 0]%nat.
Proof.
  pose proof (proj2 (take_and_return_a_browser
                       (snd (BrowserPool.init (fun _ => None) (BrowserPool.new 3)))
                       30000 (fun _ q => q))
                (init_new_consistent 3)) as T.
  rewrite init_new in T. cbn [snd BrowserPool.availableBrowsers seq] in T.
  cbv zeta in T. destruct T as (R & _ & _ & _ & B & _).
  rewrite init_new. cbn [snd]. split; [exact R|exact B].
Defined.

(** ** [scrapePage] and the pool *)

Lemma scrapePage_outcome (p : BrowserPool.Pool) (load : PageScraper.PageLoad) :
  Spec.pool_consistent p ->
  Spec.pool_consistent
    (snd (PageScraper.scrapePage load (fun _ q => q) (fun q => q) p))
  /\ match BrowserPool.availableBrowsers p with
     | [] =>
         PageScraper.scrapePage load (fun _ q => q) (fun q => q) p = (Return None, p)
     | i :: rest =>
         let out := PageScraper.scrapePage load (fun _ q => q) (fun q => q) p in
         match load with
         | PageScraper.ContextRejects =>
             fst out = Return None
             /\ BrowserPool.availableBrowsers (snd out) = rest
             /\ BrowserPool.heap (snd out) !! i = Some (BrowserPool.mkBrowserObj i true)
         | PageScraper.LoadRejects _ =>
             fst out = Return None
             /\ BrowserPool.availableBrowsers (snd out) = rest ++ [i]
             /\ BrowserPool.heap (snd out) = BrowserPool.heap p
         | PageScraper.Loaded page _ =>
             fst out = Return (Some page)
             /\ BrowserPool.availableBrowsers (snd out) = rest ++ [i]
             /\ BrowserPool.heap (snd out) = BrowserPool.heap p
         end
     end.
Proof.
  intros C. unfold PageScraper.scrapePage.
  destruct (BrowserPool.availableBrowsers p) as [|i rest] eqn:A.
  - assert (G : BrowserPool.getBrowser 30000 (fun _ q => q) p
                = (Throw (Exn BrowserPool.wait_timeout), p)).
    { unfold BrowserPool.getBrowser. destruct C as (I & _). rewrite I. cbn [negb].
      apply wait_from_idle. exact A. }
    rewrite G. split; [exact C|reflexivity].
  - rewrite (getBrowser_at_once p 30000 (fun _ q => q) i rest C A).
    destruct (acquire_consistent p i rest C A) as (Hi & R & A' & H' & Hi' & C').
    destruct (BrowserPool.acquire i rest p) as [c taken]. cbn [fst snd] in *. subst c.
    destruct (releaseBrowser_outcome taken i C') as (F & Cb & Rel & _).
    destruct (Rel Hi') as (Ab & Hb & _).
    unfold BrowserPool.releaseContext, BrowserPool.Ref. cbv beta.
    destruct (BrowserPool.releaseBrowser (Some i) taken) as [c back].
    cbn [fst snd] in *.
    assert (Hback : BrowserPool.heap back = BrowserPool.heap p).
    { rewrite Hb, H'. apply (alter_alter_same i _ _ Hi). reflexivity. }
    destruct load as [|b|page b]; cbn [fst snd].
    + split; [exact C'|]. split; [reflexivity|]. split; [exact A'|exact Hi'].
    + split; [exact Cb|]. split; [reflexivity|].
      split; [rewrite Ab, A'; reflexivity|exact Hback].
    + split; [exact Cb|]. split; [reflexivity|].
      split; [rewrite Ab, A'; reflexivity|exact Hback].
Qed.

Lemma context_failures_drain (l : list nat) :
  forall (p : BrowserPool.Pool),
    Spec.pool_consistent p ->
    BrowserPool.availableBrowsers p = l ->
    let drained :=
      fold_left
        (fun q _ => snd (PageScraper.scrapePage PageScraper.ContextRejects
                           (fun _ q => q) (fun q => q) q))
        l p in
    Spec.pool_consistent drained /\ BrowserPool.availableBrowsers drained = [].
Proof.
  induction l as [|i rest IH]; intros p C A; cbn [fold_left].
  - split; [exact C|exact A].
  - destruct (scrapePage_outcome p PageScraper.ContextRejects C) as [C' O].
    rewrite A in O. cbv zeta in O. destruct O as (_ & A' & _).
    apply IH; assumption.
Qed.

(** X29. [scrapePage] and its browser, no other task using the pool
    meanwhile.  It never throws.  With a free browser and a context, the
    page is returned when it loads and [null] when it does not, and either
    way the browser is released: the entries are as before and the browser
    is at the back of the queue.  When the context cannot be created the
    result is [null] and the browser is not released: it stays marked in
    use and out of the queue.  So after as many such failures as there are
    free browsers the queue is empty, and every later [scrapePage] returns
    [null] after the time-out, also for a page that would load. *)
Theorem context_failure_leaks_the_browser :
  forall (p : BrowserPool.Pool) (load : PageScraper.PageLoad),
    Spec.pool_consistent p ->
    let out := PageScraper.scrapePage load (fun _ q => q) (fun q => q) p in
    let drained :=
      fold_left
        (fun q _ => snd (PageScraper.scrapePage PageScraper.ContextRejects
                           (fun _ q => q) (fun q => q) q))
        (BrowserPool.availableBrowsers p) p in
    (exists result, fst out = Return result)
    /\ Spec.pool_consistent (snd out)
    /\ match BrowserPool.availableBrowsers p with
       | [] => out = (Return None, p)
       | i :: rest =>
           match load with
           | PageScraper.ContextRejects =>
               fst out = Return None
               /\ BrowserPool.availableBrowsers (snd out) = rest
               /\ BrowserPool.heap (snd out) !! i
                  = Some (BrowserPool.mkBrowserObj i true)
           | PageScraper.LoadRejects _ =>
               fst out = Return None
               /\ BrowserPool.availableBrowsers (snd out) = rest ++ [i]
               /\ BrowserPool.heap (snd out) = BrowserPool.heap p
           | PageScraper.Loaded page _ =>
               fst out = Return (Some page)
               /\ BrowserPool.availableBrowsers (snd out) = rest ++ [i]
               /\ BrowserPool.heap (snd out) = BrowserPool.heap p
           end
       end
    /\ BrowserPool.availableBrowsers drained = []
    /\ BrowserPool.initialized drained = true
    /\ forall page context_close_fails,
         PageScraper.scrapePage (PageScraper.Loaded page context_close_fails)
           (fun _ q => q) (fun q => q) drained
         = (Return None, drained).
Proof.
  intros p load C out drained. subst out drained.
  destruct (scrapePage_outcome p load C) as [C' O].
  destruct (context_failures_drain (BrowserPool.availableBrowsers p) p C eq_refl)
    as [Cd Ad].
  cbv zeta in Cd, Ad.
  split; [|split; [exact C'|split; [exact O|split; [exact Ad|split]]]].
  - unfold PageScraper.scrapePage.
    destruct (BrowserPool.getBrowser 30000 _ p) as [[r|t] p1]; [|eexists; reflexivity].
    destruct load; unfold BrowserPool.releaseContext;
      try destruct (BrowserPool.releaseBrowser _ _); eexists; reflexivity.
  - destruct Cd as (I & _). exact I.
  - intros page b.
    destruct (scrapePage_outcome _ (PageScraper.Loaded page b) Cd) as [_ O'].
    rewrite Ad in O'. exact O'.
Qed.

Lemma context_failure_leaks_the_browser_witness :
  BrowserPool.availableBrowsers
    (fold_left
       (fun q _ => snd (PageScraper.scrapePage PageScraper.ContextRejects
                          (fun _ q => q) (fun q => q) q))
       (BrowserPool.availableBrowsers
          (snd (BrowserPool.init (fun _ => None) (BrowserPool.new 3))))
       (snd (BrowserPool.init (fun _ => None) (BrowserPool.new 3))))
  = [].
Proof.
  exact (proj1 (proj2 (proj2 (proj2
           (context_failure_leaks_the_browser
              (snd (BrowserPool.init (fun _ => None) (BrowserPool.new 3)))
              PageScraper.ContextRejects (init_new_consistent 3)))))).
Defined.

(** ** The health routes *)

(** X30. GET /health answers 200 exactly when the API key is set, the
    browser pool is initialized, [SELECT NOW()] succeeds and Redis answers
    PONG, and 503 otherwise; GET /health/ready answers 200 exactly when the
    pool is initialized and [SELECT NOW()] succeeds, so a healthy service is
    ready.  Of the pool both look at the [initialized] flag only: a
    consistent pool is reported as before after any [scrapePage], one that
    lost its browser to a context failure included. *)
Theorem health_looks_at_the_initialized_flag_only :
  forall (probes : HealthRoutes.Probes) (pool : BrowserPool.Pool),
    (HealthRoutes.reply_code (HealthRoutes.health probes pool) = 200%Z
     <-> (exists key, HealthRoutes.openai_apiKey probes = Some key /\ key <> "")
         /\ BrowserPool.initialized pool = true
         /\ HealthRoutes.select_now probes = None
         /\ HealthRoutes.ping probes = inr "PONG")
    /\ (HealthRoutes.reply_code (HealthRoutes.health probes pool) = 200%Z
        \/ HealthRoutes.reply_code (HealthRoutes.health probes pool) = 503%Z)
    /\ (HealthRoutes.reply_code (HealthRoutes.ready probes pool) = 200%Z
        <-> BrowserPool.initialized pool = true
            /\ HealthRoutes.select_now probes = None)
    /\ (HealthRoutes.reply_code (HealthRoutes.health probes pool) = 200%Z ->
        HealthRoutes.reply_code (HealthRoutes.ready probes pool) = 200%Z)
    /\ (Spec.pool_consistent pool ->
        forall load,
          let after :=
            snd (PageScraper.scrapePage load (fun _ q => q) (fun q => q) pool) in
          HealthRoutes.health probes after = HealthRoutes.health probes pool
          /\ HealthRoutes.ready probes after = HealthRoutes.ready probes pool).
Proof.
  intros probes pool.
  assert (H : HealthRoutes.reply_code (HealthRoutes.health probes pool) = 200%Z
              <-> (exists key, HealthRoutes.openai_apiKey probes = Some key /\ key <> "")
                  /\ BrowserPool.initialized pool = true
                  /\ HealthRoutes.select_now probes = None
                  /\ HealthRoutes.ping probes = inr "PONG").
  { unfold HealthRoutes.health, HealthRoutes.db_healthCheck,
      HealthRoutes.redis_healthCheck.
    cbn [HealthRoutes.reply_code forallb].
    destruct (HealthRoutes.openai_apiKey probes) as [key|].
    2: { cbn. split; [discriminate|]. intros [(k & E & _) _]. discriminate. }
    destruct (String.eqb_spec key "") as [-> | Hk].
    { cbn. split; [discriminate|]. intros [(k & E & N) _]. inversion E; subst.
      contradiction. }
    destruct (BrowserPool.initialized pool).
    2: { cbn. split; [discriminate|]. intros (_ & E & _). discriminate. }
    destruct (HealthRoutes.select_now probes) as [e|].
    { cbn. split; [discriminate|]. intros (_ & _ & E & _). discriminate. }
    destruct (HealthRoutes.ping probes) as [e|result].
    { cbn. split; [discriminate|]. intros (_ & _ & _ & E). discriminate. }
    destruct (String.eqb_spec result "PONG") as [-> | Hr].
    - cbn. split; [|reflexivity]. intros _. split; [exists key; split; auto|].
      repeat split.
    - cbn. split; [discriminate|]. intros (_ & _ & _ & E). inversion E; subst.
      contradiction. }
  assert (R : HealthRoutes.reply_code (HealthRoutes.ready probes pool) = 200%Z
              <-> BrowserPool.initialized pool = true
                  /\ HealthRoutes.select_now probes = None).
  { unfold HealthRoutes.ready, HealthRoutes.db_healthCheck.
    cbn [HealthRoutes.reply_code].
    destruct (BrowserPool.initialized pool).
    2: { cbn. split; [discriminate|]. intros [E _]. discriminate. }
    destruct (HealthRoutes.select_now probes) as [e|]; cbn.
    - split; [discriminate|]. intros [_ E]. discriminate.
    - split; [auto|reflexivity]. }
  split; [exact H|]. split; [|split; [exact R|split]].
  - unfold HealthRoutes.health. cbn [HealthRoutes.reply_code].
    destruct (forallb _ _); [left|right]; reflexivity.
  - intros E. apply R. apply H in E as (_ & I & S & _). split; assumption.
  - intros C load after. subst after.
    destruct (scrapePage_outcome pool load C) as [(I' & _) _].
    destruct C as (I & _).
    unfold HealthRoutes.health, HealthRoutes.ready. rewrite I, I'.
    split; reflexivity.
Qed.
